(** * ai-workflow: feature grouping, competition scoring and snippet ranking

    A shallow embedding of the JavaScript classes of the repository and the
    properties of them that the specification states:
    - [PRScorer] (pr-scorer.js): the five criteria, their weighted
      combination and the threshold verdict;
    - [FeatureDetector] (feature-detector.js): relatedness of two pull
      requests and grouping by feature;
    - [CodeAnalyzer] (code-analyzer.js): duplication detection;
    - [SnippetExtractor] (snippet-extractor.js): improvement snippets, the
      quality rubric and the ranking.

    Conventions of the embedding
    - JavaScript numbers are exact rationals [Q]. The two divisions of the
      source whose divisor can be zero go through [jsnum], which adds NaN
      and the infinities with JavaScript's comparison rules.
    - Where the rounding of the double-precision arithmetic decides what
      the code returns, the numbers are doubles ([Binary64], on the
      Standard Library's specification of IEEE 754): the weighted sum and
      the threshold verdict of the scorer ([PRScorerDoubles]) and the
      products with 0.7 and 0.3 of the quality rubric.
    - JavaScript strings are [string]s of 8-bit characters; [toLowerCase]
      maps A-Z only, white space is the ASCII white space, and a character
      above 127 is neither a word character nor white space.
    - An exception is a value [Throw msg] of [result]; try/catch is a match
      on it ([try_catch] in the scorer's monad).
    - The hosting platform (octokit), [Math.random], the clock, the regular
      expression engine where a pattern comes from the configuration, and
      the [similarity] package are collaborators: their answers are inputs
      of the model. *)

From Stdlib Require Import QArith Qpower Qabs Qminmax Qround Lqa ZArith List Bool Ascii.
From Stdlib Require Floats.SpecFloat.
From Stdlib Require Import Sorting.Sorted Sorting.Permutation.
From stdpp Require Import base gmap sets list strings.

Local Open Scope Q_scope.

(** ** JavaScript prelude *)

Module JS.

(** Outcome of a computation that may throw. *)
Inductive result (A : Type) : Type :=
| Ok (a : A)
| Throw (msg : string).
Arguments Ok {A} a.
Arguments Throw {A} msg.

Definition is_Ok {A} (r : result A) : bool :=
  match r with Ok _ => true | Throw _ => false end.

(** Numbers as produced by a division whose divisor may be zero. *)
Inductive jsnum : Type :=
| Fin (q : Q)
| NaN
| PosInf
| NegInf.

Definition Qltb (x y : Q) : bool := negb (Qle_bool y x).
Definition Qgtb (x y : Q) : bool := Qltb y x.
Definition Qgeb (x y : Q) : bool := Qle_bool y x.

(** [a / b] on finite operands. *)
Definition js_div (a b : Q) : jsnum :=
  if Qeq_bool b 0 then
    if Qeq_bool a 0 then NaN else if Qltb 0 a then PosInf else NegInf
  else Fin (a / b).

(** [x > y] for a finite right operand; every comparison with NaN is false. *)
Definition js_gt (x : jsnum) (y : Q) : bool :=
  match x with
  | Fin q => Qgtb q y
  | PosInf => true
  | NaN | NegInf => false
  end.

Definition Math_min (x y : Q) : Q := Qmin x y.
Definition Math_max (x y : Q) : Q := Qmax x y.
Definition Math_floor (x : Q) : Q := inject_Z (Qfloor x).

Definition of_nat (n : nat) : Q := inject_Z (Z.of_nat n).

(** *** Strings *)

Definition toLowerChar (c : ascii) : ascii :=
  let n := nat_of_ascii c in
  if (Nat.leb 65 n && Nat.leb n 90)%bool then ascii_of_nat (n + 32) else c.

Fixpoint toLowerCase (s : string) : string :=
  match s with
  | EmptyString => EmptyString
  | String c s' => String (toLowerChar c) (toLowerCase s')
  end.

Definition startsWith (s pre : string) : bool := String.prefix pre s.

Definition endsWith (s suf : string) : bool :=
  String.prefix (String.rev suf) (String.rev s).

(** [s.includes(sub)] *)
Fixpoint includes (s sub : string) : bool :=
  (String.prefix sub s ||
   match s with
   | EmptyString => false
   | String _ s' => includes s' sub
   end)%bool.

Fixpoint trimStart (s : string) : string :=
  match s with
  | String c s' => if Ascii.is_space c then trimStart s' else s
  | EmptyString => EmptyString
  end.

Definition trim (s : string) : string :=
  String.rev (trimStart (String.rev (trimStart s))).

Definition newline : string := String "010"%char EmptyString.

(** [s.split('\n')]: never empty, the pieces between line feeds. *)
Fixpoint split_lines_go (cur : string) (s : string) : list string :=
  match s with
  | EmptyString => [String.rev cur]
  | String c s' =>
      if Ascii.eqb c "010"%char
      then String.rev cur :: split_lines_go EmptyString s'
      else split_lines_go (String c cur) s'
  end.
Definition split_lines (s : string) : list string := split_lines_go EmptyString s.

(** [parts.join(sep)] *)
Fixpoint join (sep : string) (parts : list string) : string :=
  match parts with
  | [] => EmptyString
  | [p] => p
  | p :: rest => p +:+ sep +:+ join sep rest
  end.

(** [s.substring(1)] *)
Definition substring1 (s : string) : string :=
  match s with
  | EmptyString => EmptyString
  | String _ s' => s'
  end.

Definition some {A} (p : A -> bool) (l : list A) : bool := existsb p l.

(** [\w] *)
Definition isWordChar (c : ascii) : bool :=
  let n := nat_of_ascii c in
  ((Nat.leb 48 n && Nat.leb n 57) || (Nat.leb 65 n && Nat.leb n 90) ||
   (Nat.leb 97 n && Nat.leb n 122) || Nat.eqb n 95)%bool.

(** [[0-9]] and [[a-z]] *)
Definition isDigit (c : ascii) : bool :=
  let n := nat_of_ascii c in (Nat.leb 48 n && Nat.leb n 57)%bool.
Definition isLower (c : ascii) : bool :=
  let n := nat_of_ascii c in (Nat.leb 97 n && Nat.leb n 122)%bool.

(** Some suffix of [s] (the empty one included) satisfies [p]: a pattern
    that may match at any position. *)
Fixpoint anywhere (p : string -> bool) (s : string) : bool :=
  (p s || match s with
          | EmptyString => false
          | String _ s' => anywhere p s'
          end)%bool.

(** The number of positions of [s] at which [p] holds of the rest. *)
Fixpoint countPositions (p : string -> bool) (s : string) : nat :=
  ((if p s then 1 else 0) +
   match s with
   | EmptyString => 0
   | String _ s' => countPositions p s'
   end)%nat.

(** [s] without a leading [pre], when it starts with it. *)
Fixpoint stripPrefix (pre s : string) : option string :=
  match pre, s with
  | EmptyString, _ => Some s
  | String a pre', String b s' =>
      if Ascii.eqb a b then stripPrefix pre' s' else None
  | String _ _, EmptyString => None
  end.

(** The maximal runs of word characters of [s], in order. *)
Definition flushRun (cur : string) : list string :=
  match cur with
  | EmptyString => []
  | _ => [String.rev cur]
  end.
Fixpoint wordRuns_go (cur : string) (s : string) : list string :=
  match s with
  | EmptyString => flushRun cur
  | String c s' =>
      if isWordChar c then wordRuns_go (String c cur) s'
      else flushRun cur ++ wordRuns_go EmptyString s'
  end.
Definition wordRuns (s : string) : list string := wordRuns_go EmptyString s.

Definition toUpperChar (c : ascii) : ascii :=
  let n := nat_of_ascii c in
  if (Nat.leb 97 n && Nat.leb n 122)%bool then ascii_of_nat (n - 32) else c.

Fixpoint toUpperCase (s : string) : string :=
  match s with
  | EmptyString => EmptyString
  | String c s' => String (toUpperChar c) (toUpperCase s')
  end.

(** The two kinds of value that meet in a [===] of the sources. *)
Inductive jsval : Type :=
| JBool (b : bool)
| JString (s : string).

(** [x === y]: values of different types are never equal. *)
Definition strictEquals (x y : jsval) : bool :=
  match x, y with
  | JBool a, JBool b => Bool.eqb a b
  | JString a, JString b => String.eqb a b
  | _, _ => false
  end.

(** [!s] for a string: only the empty string is falsy. *)
Definition notString (s : string) : bool :=
  match s with
  | EmptyString => true
  | String _ _ => false
  end.

(** The first character of [s] after its leading white space is one of
    [targets]: [\s*[...]] at the start of [s]. *)
Definition afterSpacesOneOf (targets : list ascii) (s : string) : bool :=
  match trimStart s with
  | String c _ => existsb (Ascii.eqb c) targets
  | EmptyString => false
  end.

Fixpoint allDigits (s : string) : bool :=
  match s with
  | EmptyString => true
  | String c s' => (isDigit c && allDigits s')%bool
  end.

(** The number of leading white-space characters: the length of the first
    group of [s.match] on the pattern caret, group of white space. *)
Fixpoint leadingSpaces (s : string) : nat :=
  match s with
  | String c s' => if Ascii.is_space c then S (leadingSpaces s') else 0%nat
  | EmptyString => 0%nat
  end.

(** The lines of a patch that start with [+], without that character. *)
Definition addedLinesOf (patch : string) : list string :=
  map substring1 (List.filter (fun line => startsWith line "+") (split_lines patch)).

End JS.

(** ** Double-precision numbers *)

Module Binary64.
Import SpecFloat JS.

(** The format of a JavaScript number: 53 bits of precision, exponents
    below 1024. *)
Definition prec : Z := 53.
Definition emax : Z := 1024.

Definition double : Type := spec_float.

(** [x * y], [x + y] and [x / y], rounded to the nearest double, ties to
    even. *)
Definition mul (x y : double) : double := SFmul prec emax x y.
Definition add (x y : double) : double := SFadd prec emax x y.
Definition div (x y : double) : double := SFdiv prec emax x y.

(** The double of an integer, of an array length, and of the decimal
    literal [n/d]: the double nearest to the quotient. *)
Definition of_Z (n : Z) : double := binary_normalize prec emax n 0 false.
Definition of_nat (n : nat) : double := of_Z (Z.of_nat n).
Definition decimal (n d : Z) : double := div (of_Z n) (of_Z d).

(** The rational a zero or a finite double stands for. *)
Definition value (x : double) : Q :=
  match x with
  | S754_finite s m e =>
      (if s then - inject_Z (Zpos m) else inject_Z (Zpos m)) * 2 ^ e
  | _ => 0
  end.

(** A zero of either sign or a positive finite double. *)
Definition nonnegative (x : double) : bool :=
  match x with
  | S754_zero _ => true
  | S754_finite s _ _ => negb s
  | _ => false
  end.

(** [x < y] and [x >= y]: false when an operand is NaN, otherwise the
    order of the values, the infinities at the two ends. *)
Definition ltb (x y : double) : bool :=
  match x, y with
  | S754_nan, _ | _, S754_nan => false
  | S754_infinity sx, S754_infinity sy => (sx && negb sy)%bool
  | S754_infinity sx, _ => sx
  | _, S754_infinity sy => negb sy
  | _, _ => Qltb (value x) (value y)
  end.
Definition geb (x y : double) : bool :=
  match x, y with
  | S754_nan, _ | _, S754_nan => false
  | S754_infinity sx, S754_infinity sy => (negb sx || sy)%bool
  | S754_infinity sx, _ => negb sx
  | _, S754_infinity sy => sy
  | _, _ => Qle_bool (value y) (value x)
  end.

(** [count > total * share] for two array lengths. *)
Definition exceedsShare (count total : nat) (share : double) : bool :=
  ltb (mul (of_nat total) share) (of_nat count).

End Binary64.

(** ** Data fetched from the hosting platform *)

Module GitHub.

(** One entry of [pulls.listFiles]; [patch] is absent for binary files. *)
Record File : Type := mkFile {
  filename : string;
  status : string;
  patch : option string
}.

(** One entry of [pulls.list]. *)
Record PR : Type := mkPR {
  number : Z;
  title : string;
  head_ref : string;
  user_login : string;
  created_at : string;
  updated_at : string
}.

(** [if (file.patch)]: an absent or empty patch is falsy. *)
Definition truthy_patch (f : File) : option string :=
  match patch f with
  | Some EmptyString => None
  | Some p => Some p
  | None => None
  end.

End GitHub.

(** ** pr-scorer.js *)

Module PRScorer.
Import JS GitHub.

(** The run-time environment of one scorer: the stream of values
    [Math.random] returns, the answers of successive [pulls.listFiles]
    calls, the clock, and what was reported through [core]. *)
Record World : Type := mkWorld {
  random : nat -> Q;
  draws : nat;
  listFiles : nat -> Z -> result (list File);
  calls : nat;
  now : string;
  warnings : list string;
  failures : list string
}.

Definition M (A : Type) : Type := World -> result A * World.

Definition ret {A} (a : A) : M A := fun w => (Ok a, w).

Definition bind {A B} (m : M A) (k : A -> M B) : M B :=
  fun w =>
    match m w with
    | (Ok a, w') => k a w'
    | (Throw e, w') => (Throw e, w')
    end.

Definition lift {A} (r : result A) : M A := fun w => (r, w).

(** [try { m } catch (error) { h error.message }] *)
Definition try_catch {A} (m : M A) (h : string -> M A) : M A :=
  fun w =>
    match m w with
    | (Ok a, w') => (Ok a, w')
    | (Throw e, w') => h e w'
    end.

Notation "x <- m ;; k" := (bind m (fun x => k))
  (at level 100, m at next level, right associativity).
Notation "m ;;; k" := (bind m (fun _ => k))
  (at level 100, right associativity).

Definition Math_random : M Q :=
  fun w =>
    (Ok (random w (draws w)),
     mkWorld (random w) (S (draws w)) (listFiles w) (calls w) (now w)
             (warnings w) (failures w)).

Definition core_warning (msg : string) : M unit :=
  fun w =>
    (Ok tt,
     mkWorld (random w) (draws w) (listFiles w) (calls w) (now w)
             (msg :: warnings w) (failures w)).

Definition core_setFailed (msg : string) : M unit :=
  fun w =>
    (Ok tt,
     mkWorld (random w) (draws w) (listFiles w) (calls w) (now w)
             (warnings w) (msg :: failures w)).

Definition Date_now : M string := fun w => (Ok (now w), w).

(** [getPRFiles(pullNumber)]: one call of [octokit.rest.pulls.listFiles]. *)
Definition getPRFiles (pullNumber : Z) : M (list File) :=
  fun w =>
    (listFiles w (calls w) pullNumber,
     mkWorld (random w) (draws w) (listFiles w) (S (calls w)) (now w)
             (warnings w) (failures w)).

(** [this.codeAnalyzer]: the four metrics the scorer asks of it. The scorer
    reads the number each one returns, or catches what it throws. *)
Record Analyzer : Type := mkAnalyzer {
  analyzeComplexity : list File -> result Q;
  checkCodingStandards : list File -> result Q;
  detectDuplication : list File -> result Q;
  calculateMaintainability : list File -> result Q
}.

Record Weights : Type := mkWeights {
  weight_codeQuality : Q;
  weight_testing : Q;
  weight_performance : Q;
  weight_security : Q;
  weight_documentation : Q
}.

Record Thresholds : Type := mkThresholds {
  minimumScore : Q;
  autoMergeScore : Q;
  codeQualityMin : Q;
  testingMin : Q;
  performanceMin : Q;
  securityMin : Q;
  documentationMin : Q
}.

(** [config.scoring] *)
Record Config : Type := mkConfig {
  weights : Weights;
  thresholds : Thresholds
}.

(** One criterion's record. The [metrics] object of the source is written
    but never read back after the score is computed; it is left out. *)
Record SubScore : Type := mkSubScore {
  score : Q;
  details : string
}.

Record Scores : Type := mkScores {
  codeQuality : SubScore;
  testing : SubScore;
  performance : SubScore;
  security : SubScore;
  documentation : SubScore
}.

Record Verdict : Type := mkVerdict {
  meets_overall : bool;
  meets_codeQuality : bool;
  meets_testing : bool;
  meets_performance : bool;
  meets_security : bool;
  meets_documentation : bool;
  autoMergeEligible : bool
}.

Record PRInfo : Type := mkPRInfo {
  info_number : Z;
  info_title : string;
  info_author : string;
  info_created_at : string;
  info_updated_at : string
}.

Record Report : Type := mkReport {
  report_pr : PRInfo;
  scores : Scores;
  weightedScore : Q;
  meetsThresholds : Verdict;
  timestamp : string
}.

Definition clamp (totalScore : Q) : Q := Math_max 0 (Math_min 100 totalScore).

(** *** Helper analyses *)

Definition analyzeTestCoverage (pr : PR) : M Q :=
  r <- Math_random ;; ret (r * 40 + 60).

Definition isTestFilename (name : string) : bool :=
  (includes name "test" || includes name "spec" ||
   endsWith name ".test.js" || endsWith name ".spec.js")%bool.

Definition testFileCount (files : list File) : Q :=
  of_nat (length (List.filter (fun file => isTestFilename (filename file)) files)).

Definition countTestFiles (pr : PR) : M Q :=
  files <- getPRFiles (number pr) ;;
  ret (testFileCount files).

Definition checkTestStatus (pr : PR) : M bool :=
  r <- Math_random ;; ret (Qgtb r 0.1).

Definition analyzeEdgeCaseCoverage (pr : PR) : M Q :=
  r <- Math_random ;; ret (Math_floor (r * 5)).

Definition analyzePerformanceBenchmarks (pr : PR) : M Q :=
  r <- Math_random ;; ret (r * 30 + 70).

(** The loop shared by [detectOptimizations], [analyzeInputValidation] and
    [analyzeErrorHandling]: [points] for each (file, keyword) pair whose
    lower-cased patch contains the keyword. *)
Definition keywordScore (keywords : list string) (points : Q)
  (files : list File) : Q :=
  fold_left
    (fun acc file =>
       match truthy_patch file with
       | Some p =>
           fold_left
             (fun acc keyword =>
                if includes (toLowerCase p) keyword then acc + points else acc)
             keywords acc
       | None => acc
       end)
    files 0.

Definition optimizationScore (files : list File) : Q :=
  Math_min 100
    (keywordScore ["cache"; "optimize"; "performance"; "efficient"; "faster"]
       20 files).

Definition detectOptimizations (pr : PR) : M Q :=
  files <- getPRFiles (number pr) ;;
  ret (optimizationScore files).

Definition scanSecurityVulnerabilities (pr : PR) : M Q :=
  r <- Math_random ;; ret (Math_floor (r * 3)).

Definition analyzeSecurityPractices (pr : PR) : M Q :=
  r <- Math_random ;; ret (r * 30 + 70).

Definition validationScore (files : list File) : Q :=
  Math_min 100
    (keywordScore ["validate"; "sanitize"; "escape"; "check"; "verify"]
       20 files).

Definition analyzeInputValidation (pr : PR) : M Q :=
  files <- getPRFiles (number pr) ;;
  ret (validationScore files).

Definition errorScore (files : list File) : Q :=
  Math_min 100
    (keywordScore ["try"; "catch"; "error"; "exception"; "throw"]
       15 files).

Definition analyzeErrorHandling (pr : PR) : M Q :=
  files <- getPRFiles (number pr) ;;
  ret (errorScore files).

Definition isCommentLine (line : string) : bool :=
  (startsWith (trim line) "//" || startsWith (trim line) "/*" ||
   startsWith (trim line) "*" || startsWith (trim line) "#")%bool.

(** (totalLines, commentLines) over the files that carry a patch. *)
Definition countCommentLines (files : list File) : nat * nat :=
  fold_left
    (fun '(totalLines, commentLines) file =>
       match truthy_patch file with
       | Some p =>
           let lines := split_lines p in
           ((totalLines + length lines)%nat,
            (commentLines + length (List.filter isCommentLine lines))%nat)
       | None => (totalLines, commentLines)
       end)
    files (0%nat, 0%nat).

Definition analyzeCodeComments (files : list File) : Q :=
  let '(totalLines, commentLines) := countCommentLines files in
  let commentScore :=
    if Nat.ltb 0 totalLines
    then (of_nat commentLines / of_nat totalLines) * 100 * 5
    else 0 in
  Math_min 100 commentScore.

Definition checkReadmeUpdates (files : list File) : Q :=
  let hasReadmeUpdate :=
    some (fun file =>
            (includes (toLowerCase (filename file)) "readme" ||
             includes (toLowerCase (filename file)) "doc")%bool) files in
  if hasReadmeUpdate then 80 else 20.

Definition analyzeAPIDocumentation (files : list File) : Q :=
  let docFiles :=
    List.filter (fun file =>
              (includes (filename file) "doc" || includes (filename file) "api" ||
               endsWith (filename file) ".md")%bool) files in
  if Nat.ltb 0 (length docFiles) then 80 else 40.

(** *** The five criteria *)

Section Scorer.
Variable codeAnalyzer : Analyzer.
Variable config : Config.

Definition codeQualityTotal (complexity standards duplication maintainability : Q)
  : Q :=
  (100 - Math_min (complexity * 5) 50) * 0.25 +
  standards * 0.30 +
  (100 - Math_min (duplication * 10) 50) * 0.20 +
  maintainability * 0.25.

Definition scoreCodeQuality (pr : PR) : M SubScore :=
  files <- getPRFiles (number pr) ;;
  totalScore <-
    try_catch
      (complexity <- lift (analyzeComplexity codeAnalyzer files) ;;
       standards <- lift (checkCodingStandards codeAnalyzer files) ;;
       duplication <- lift (detectDuplication codeAnalyzer files) ;;
       maintainability <- lift (calculateMaintainability codeAnalyzer files) ;;
       ret (codeQualityTotal complexity standards duplication maintainability))
      (fun e =>
         core_warning ("Code quality analysis failed: " +:+ e) ;;;
         ret 50) ;;
  ret {| score := clamp totalScore;
         details := "Code quality analysis including complexity, standards, duplication, and maintainability" |}.

(** Lines 122-127: the blend of the four testing metrics. *)
Definition testingTotal (coverage testFiles : Q) (testsPassing : bool)
  (edgeCases : Q) : Q :=
  let coverageScore := Math_min (coverage * 1.25) 100 in
  let testFileScore := Math_min (testFiles * 20) 30 in
  let passingScore := if testsPassing then 40 else 0 in
  let edgeCaseScore := Math_min (edgeCases * 10) 30 in
  coverageScore * 0.4 + testFileScore * 0.2 + passingScore * 0.3 +
  edgeCaseScore * 0.1.

Definition scoreTesting (pr : PR) : M SubScore :=
  totalScore <-
    try_catch
      (coverage <- analyzeTestCoverage pr ;;
       testFiles <- countTestFiles pr ;;
       testsPassing <- checkTestStatus pr ;;
       edgeCases <- analyzeEdgeCaseCoverage pr ;;
       ret (testingTotal coverage testFiles testsPassing edgeCases))
      (fun e =>
         core_warning ("Testing analysis failed: " +:+ e) ;;;
         ret 60) ;;
  ret {| score := clamp totalScore;
         details := "Testing analysis including coverage, test quality, and edge case handling" |}.

Definition performanceTotal (benchmarks optimizations : Q) : Q :=
  let loadTime := 85 in
  let memoryUsage := 75 in
  loadTime * 0.30 + memoryUsage * 0.25 + benchmarks * 0.25 +
  optimizations * 0.20.

Definition scorePerformance (pr : PR) : M SubScore :=
  totalScore <-
    try_catch
      (benchmarks <- analyzePerformanceBenchmarks pr ;;
       optimizations <- detectOptimizations pr ;;
       ret (performanceTotal benchmarks optimizations))
      (fun e =>
         core_warning ("Performance analysis failed: " +:+ e) ;;;
         ret 70) ;;
  ret {| score := clamp totalScore;
         details := "Performance analysis including load time, memory usage, and optimizations" |}.

Definition securityTotal (vulnerabilities bestPractices inputValidation
  errorHandling : Q) : Q :=
  (100 - vulnerabilities * 25) * 0.40 + bestPractices * 0.30 +
  inputValidation * 0.20 + errorHandling * 0.10.

Definition scoreSecurity (pr : PR) : M SubScore :=
  totalScore <-
    try_catch
      (vulnerabilities <- scanSecurityVulnerabilities pr ;;
       bestPractices <- analyzeSecurityPractices pr ;;
       inputValidation <- analyzeInputValidation pr ;;
       errorHandling <- analyzeErrorHandling pr ;;
       ret (securityTotal vulnerabilities bestPractices inputValidation
              errorHandling))
      (fun e =>
         core_warning ("Security analysis failed: " +:+ e) ;;;
         ret 80) ;;
  ret {| score := clamp totalScore;
         details := "Security analysis including vulnerability scanning and best practices" |}.

Definition documentationTotal (files : list File) : Q :=
  let codeComments := analyzeCodeComments files in
  let readmeUpdates := checkReadmeUpdates files in
  let apiDocs := analyzeAPIDocumentation files in
  let completeness := (codeComments + readmeUpdates + apiDocs) / 3 in
  completeness.

Definition scoreDocumentation (pr : PR) : M SubScore :=
  totalScore <-
    try_catch
      (files <- getPRFiles (number pr) ;;
       ret (documentationTotal files))
      (fun e =>
         core_warning ("Documentation analysis failed: " +:+ e) ;;;
         ret 60) ;;
  ret {| score := clamp totalScore;
         details := "Documentation analysis including code comments, README updates, and API docs" |}.

(** *** Combination *)

(** The weighted sum in exact arithmetic. The double that the code returns
    is [PRScorerDoubles.calculateWeightedScore]. *)
Definition calculateWeightedScore (scores : Scores) : Q :=
  let weights := weights config in
  score (codeQuality scores) * weight_codeQuality weights +
  score (testing scores) * weight_testing weights +
  score (performance scores) * weight_performance weights +
  score (security scores) * weight_security weights +
  score (documentation scores) * weight_documentation weights.

Definition checkThresholds (scores : Scores) (weightedScore : Q) : Verdict :=
  let thresholds := thresholds config in
  {| meets_overall := Qgeb weightedScore (minimumScore thresholds);
     meets_codeQuality := Qgeb (score (codeQuality scores)) (codeQualityMin thresholds);
     meets_testing := Qgeb (score (testing scores)) (testingMin thresholds);
     meets_performance := Qgeb (score (performance scores)) (performanceMin thresholds);
     meets_security := Qgeb (score (security scores)) (securityMin thresholds);
     meets_documentation :=
       Qgeb (score (documentation scores)) (documentationMin thresholds);
     autoMergeEligible := Qgeb weightedScore (autoMergeScore thresholds) |}.

Definition prInfo (pr : PR) : PRInfo :=
  {| info_number := number pr;
     info_title := title pr;
     info_author := user_login pr;
     info_created_at := created_at pr;
     info_updated_at := updated_at pr |}.

Definition defaultSubScore : SubScore :=
  {| score := 50; details := "Default score due to analysis failure" |}.

Definition getDefaultScore (pr : PR) : M Report :=
  t <- Date_now ;;
  ret {| report_pr := prInfo pr;
         scores := mkScores defaultSubScore defaultSubScore defaultSubScore
                     defaultSubScore defaultSubScore;
         weightedScore := 50;
         meetsThresholds := mkVerdict false false false false false false false;
         timestamp := t |}.

Definition scorePR (pr : PR) : M Report :=
  try_catch
    (cq <- scoreCodeQuality pr ;;
     te <- scoreTesting pr ;;
     pe <- scorePerformance pr ;;
     se <- scoreSecurity pr ;;
     doc <- scoreDocumentation pr ;;
     let scores := mkScores cq te pe se doc in
     let weightedScore := calculateWeightedScore scores in
     t <- Date_now ;;
     ret {| report_pr := prInfo pr;
            scores := scores;
            weightedScore := weightedScore;
            meetsThresholds := checkThresholds scores weightedScore;
            timestamp := t |})
    (fun e =>
       core_setFailed ("PR scoring failed: " +:+ e) ;;;
       getDefaultScore pr).

End Scorer.

End PRScorer.

(** ** pr-scorer.js: the combination in double precision *)

Module PRScorerDoubles.
Import Binary64.

(** One double per criterion: the five weights of [config.scoring.weights],
    or the five [score]s of [scores]. *)
Record PerCriterion : Type := mkPerCriterion {
  codeQuality : double;
  testing : double;
  performance : double;
  security : double;
  documentation : double
}.

(** [config.scoring.thresholds] *)
Record Thresholds : Type := mkThresholds {
  minimumScore : double;
  autoMergeScore : double;
  codeQualityMin : double;
  testingMin : double;
  performanceMin : double;
  securityMin : double;
  documentationMin : double
}.

(** Lines 271-281: five products, added from left to right, each operation
    rounded. *)
Definition calculateWeightedScore (weights scores : PerCriterion) : double :=
  add (add (add (add (mul (codeQuality scores) (codeQuality weights))
                     (mul (testing scores) (testing weights)))
                (mul (performance scores) (performance weights)))
           (mul (security scores) (security weights)))
      (mul (documentation scores) (documentation weights)).

(** Lines 286-298. *)
Definition checkThresholds (thresholds : Thresholds) (scores : PerCriterion)
  (weightedScore : double) : PRScorer.Verdict :=
  {| PRScorer.meets_overall := geb weightedScore (minimumScore thresholds);
     PRScorer.meets_codeQuality :=
       geb (codeQuality scores) (codeQualityMin thresholds);
     PRScorer.meets_testing := geb (testing scores) (testingMin thresholds);
     PRScorer.meets_performance :=
       geb (performance scores) (performanceMin thresholds);
     PRScorer.meets_security := geb (security scores) (securityMin thresholds);
     PRScorer.meets_documentation :=
       geb (documentation scores) (documentationMin thresholds);
     PRScorer.autoMergeEligible := geb weightedScore (autoMergeScore thresholds) |}.

End PRScorerDoubles.

(** ** feature-detector.js *)

Module FeatureDetector.
Import JS GitHub.

(** [config.featureDetection] *)
Record FeatureDetection : Type := mkFeatureDetection {
  branchPatterns : list string;
  titleSimilarityThreshold : Q;
  fileOverlapThreshold : Q;
  labelKeywords : list string
}.

(** What the hosting platform answers during one run: the open pull
    requests, per pull number the label names and the changed files, and
    the date. The detector is modelled on answered calls. *)
Record Platform : Type := mkPlatform {
  openPRs : list PR;
  labelsOf : Z -> list string;
  filesOf : Z -> list File;
  today : string
}.

(** An element of [relatedPRs]. *)
Record RelatedPR : Type := mkRelatedPR {
  related_number : Z;
  related_title : string;
  related_head : string;
  related_author : string;
  related_created_at : string;
  related_updated_at : string
}.

(** A feature group; [prs] is [pr, ...relatedPRs]. *)
Record Group : Type := mkGroup {
  feature : string;
  anchor : PR;
  related : list RelatedPR;
  group_created_at : string
}.

(** The pull numbers of [group.prs], in order. *)
Definition members (g : Group) : list Z :=
  number (anchor g) :: map related_number (related g).

(** [pattern.replace('*', '(.+)')]: the first star only. *)
Fixpoint replaceStar (pattern : string) : string :=
  match pattern with
  | EmptyString => EmptyString
  | String c rest =>
      if Ascii.eqb c "*"%char then "(.+)" +:+ rest
      else String c (replaceStar rest)
  end.

(** [s.replace(/-/g, ' ').replace(/_/g, ' ')] *)
Fixpoint dashesToSpaces (s : string) : string :=
  match s with
  | EmptyString => EmptyString
  | String c rest =>
      String (if (Ascii.eqb c "-"%char || Ascii.eqb c "_"%char)%bool
              then " "%char else c)
             (dashesToSpaces rest)
  end.

(** Reading a property of [undefined]. *)
Definition TypeError : string := "Cannot read properties of undefined".

Section Detector.
(** The [similarity] package. *)
Variable similarity : string -> string -> Q.
(** The regular-expression engine: [RegExp_new source] is [new RegExp(source)]
    (a SyntaxError when the source is no pattern), and [group1 regex s] is
    [s.match(regex)] read at index 1: [None] when there is no match,
    [Some None] when the match has no first group. *)
Variable RegExp : Type.
Variable RegExp_new : string -> result RegExp.
Variable group1 : RegExp -> string -> option (option string).

Variable config : FeatureDetection.
Variable platform : Platform.

Fixpoint isBranchRelated_from (patterns : list string) (branch1 branch2 : string)
  : result bool :=
  match patterns with
  | [] => Ok false
  | pattern :: rest =>
      match RegExp_new (replaceStar pattern) with
      | Throw e => Throw e
      | Ok regex =>
          match group1 regex branch1, group1 regex branch2 with
          | Some capture1, Some capture2 =>
              match capture1, capture2 with
              | Some c1, Some c2 =>
                  let feature1 := toLowerCase c1 in
                  let feature2 := toLowerCase c2 in
                  if Qgtb (similarity feature1 feature2) 0.6 then Ok true
                  else isBranchRelated_from rest branch1 branch2
              | _, _ => Throw TypeError
              end
          | _, _ => isBranchRelated_from rest branch1 branch2
          end
      end
  end.

Definition isBranchRelated (branch1 branch2 : string) : result bool :=
  isBranchRelated_from (branchPatterns config) branch1 branch2.

Definition areLabelsRelated (pr1 pr2 : PR) : bool :=
  let labels1 := map toLowerCase (labelsOf platform (number pr1)) in
  let labels2 := map toLowerCase (labelsOf platform (number pr2)) in
  some (fun keyword =>
          let hasKeyword1 := some (fun label => includes label keyword) labels1 in
          let hasKeyword2 := some (fun label => includes label keyword) labels2 in
          (hasKeyword1 && hasKeyword2)%bool)
       (labelKeywords config).

Definition areTitlesRelated (title1 title2 : string) : bool :=
  let threshold := titleSimilarityThreshold config in
  Qgtb (similarity (toLowerCase title1) (toLowerCase title2)) threshold.

(** [intersection.size / union.size] of the two changed-filename sets. *)
Definition overlapRatio (pr1 pr2 : PR) : jsnum :=
  let fileSet1 : gset string :=
    list_to_set (map filename (filesOf platform (number pr1))) in
  let fileSet2 : gset string :=
    list_to_set (map filename (filesOf platform (number pr2))) in
  let intersection : gset string := filter (fun x => x ∈ fileSet2) fileSet1 in
  let union : gset string := fileSet1 ∪ fileSet2 in
  js_div (of_nat (size intersection)) (of_nat (size union)).

Definition hasFileOverlap (pr1 pr2 : PR) : bool :=
  js_gt (overlapRatio pr1 pr2) (fileOverlapThreshold config).

Definition isPRRelated (pr1 pr2 : PR) : result bool :=
  match isBranchRelated (head_ref pr1) (head_ref pr2) with
  | Throw e => Throw e
  | Ok true => Ok true
  | Ok false =>
      if areLabelsRelated pr1 pr2 then Ok true
      else if areTitlesRelated (title pr1) (title pr2) then Ok true
      else if hasFileOverlap pr1 pr2 then Ok true
      else Ok false
  end.

Definition summary (pr : PR) : RelatedPR :=
  {| related_number := number pr;
     related_title := title pr;
     related_head := head_ref pr;
     related_author := user_login pr;
     related_created_at := created_at pr;
     related_updated_at := updated_at pr |}.

(** The loop of [detectRelatedPRs] over the open pull requests. *)
Fixpoint collectRelated (currentPR : PR) (open : list PR)
  : result (list RelatedPR) :=
  match open with
  | [] => Ok []
  | pr :: rest =>
      if Z.eqb (number pr) (number currentPR) then collectRelated currentPR rest
      else
        match isPRRelated currentPR pr with
        | Throw e => Throw e
        | Ok isRelated =>
            match collectRelated currentPR rest with
            | Throw e => Throw e
            | Ok relatedPRs =>
                Ok (if isRelated then summary pr :: relatedPRs else relatedPRs)
            end
        end
  end.

(** [detectRelatedPRs]: any failure is reported and answered by []. *)
Definition detectRelatedPRs (currentPR : PR) : list RelatedPR :=
  match collectRelated currentPR (openPRs platform) with
  | Ok relatedPRs => relatedPRs
  | Throw _ => []
  end.

Fixpoint extractFeatureName_from (patterns : list string) (pr : PR)
  : result string :=
  match patterns with
  | [] => Ok (String.substring 0 50 (title pr))
  | pattern :: rest =>
      match RegExp_new (replaceStar pattern) with
      | Throw e => Throw e
      | Ok regex =>
          match group1 regex (head_ref pr) with
          | Some (Some c) => Ok (dashesToSpaces c)
          | Some None => Throw TypeError
          | None => extractFeatureName_from rest pr
          end
      end
  end.

Definition extractFeatureName (pr : PR) : result string :=
  extractFeatureName_from (branchPatterns config) pr.

(** The loop of [groupPRsByFeature] from a given state
    ([groups], [processed]). *)
Fixpoint groupPRs_from (prs : list PR) (groups : list Group)
  (processed : gset Z) : result (list Group) :=
  match prs with
  | [] => Ok groups
  | pr :: rest =>
      if decide (number pr ∈ processed) then groupPRs_from rest groups processed
      else
        let relatedPRs := detectRelatedPRs pr in
        if Nat.ltb 0 (length relatedPRs) then
          match extractFeatureName pr with
          | Throw e => Throw e
          | Ok name =>
              let group := {| feature := name;
                              anchor := pr;
                              related := relatedPRs;
                              group_created_at := today platform |} in
              groupPRs_from rest (groups ++ [group])
                (processed ∪ {[number pr]} ∪
                 list_to_set (map related_number relatedPRs))
          end
        else groupPRs_from rest groups processed
  end.

Definition groupPRsByFeature (prs : list PR) : result (list Group) :=
  groupPRs_from prs [] ∅.

End Detector.

End FeatureDetector.

(** ** code-analyzer.js: duplication detection *)

Module CodeAnalyzer.
Import JS GitHub.

Definition isCodeFile (filename : string) : bool :=
  let codeExtensions :=
    [".js"; ".ts"; ".jsx"; ".tsx"; ".py"; ".java"; ".cpp"; ".c"; ".cs";
     ".php"; ".rb"; ".go"; ".rs"] in
  some (fun ext => endsWith filename ext) codeExtensions.

(** [s.split(/\W+/)]: the pieces between maximal runs of non-word
    characters (a leading or trailing run leaves an empty piece). *)
Fixpoint splitNonWord_go (cur : string) (inSeparator : bool) (s : string)
  : list string :=
  match s with
  | EmptyString => [String.rev cur]
  | String c s' =>
      if isWordChar c then splitNonWord_go (String c cur) false s'
      else if inSeparator then splitNonWord_go cur true s'
      else String.rev cur :: splitNonWord_go EmptyString true s'
  end.
Definition splitNonWord (s : string) : list string :=
  splitNonWord_go EmptyString false s.

(** The loop of [extractCodeBlocks] over the trimmed added lines, from a
    given [currentBlock] (most recent line first). *)
Fixpoint extractCodeBlocks_from (addedLines : list string)
  (currentBlock : list string) : list string :=
  match addedLines with
  | [] =>
      if Nat.leb 3 (length currentBlock)
      then [join newline (rev currentBlock)] else []
  | line :: rest =>
      if (Nat.ltb 10 (String.length line) && negb (startsWith line "//") &&
          negb (startsWith line "/*"))%bool
      then extractCodeBlocks_from rest (line :: currentBlock)
      else
        (if Nat.leb 3 (length currentBlock)
         then [join newline (rev currentBlock)] else [])
        ++ extractCodeBlocks_from rest []
  end.

Definition extractCodeBlocks (patch : string) : list string :=
  let lines := split_lines patch in
  let addedLines :=
    map (fun line => trim (substring1 line))
        (List.filter (fun line => startsWith line "+") lines) in
  extractCodeBlocks_from addedLines [].

Definition significantWords (block : string) : list string :=
  List.filter (fun w => Nat.ltb 2 (String.length w))
    (splitNonWord (toLowerCase block)).

(** [intersection.length / Math.max(words1.length, words2.length)] *)
Definition wordOverlap (block1 block2 : string) : jsnum :=
  let words1 := significantWords block1 in
  let words2 := significantWords block2 in
  let intersection :=
    List.filter (fun w => existsb (String.eqb w) words2) words1 in
  js_div (of_nat (length intersection))
         (of_nat (Nat.max (length words1) (length words2))).

Definition areSimilarBlocks (block1 block2 : string) : bool :=
  if (Nat.ltb (String.length block1) 50 || Nat.ltb (String.length block2) 50)%bool
  then false
  else js_gt (wordOverlap block1 block2) 0.7.

(** The blocks of every code file that carries a patch, in file order. *)
Definition collectCodeBlocks (files : list File) : list string :=
  flat_map
    (fun file =>
       if isCodeFile (filename file) then
         match truthy_patch file with
         | Some p => extractCodeBlocks p
         | None => []
         end
       else [])
    files.

(** The double loop [for i, for j > i] of [detectDuplication]. *)
Fixpoint countDuplications (codeBlocks : list string) : nat :=
  match codeBlocks with
  | [] => 0
  | block :: later =>
      length (List.filter (areSimilarBlocks block) later) +
      countDuplications later
  end.

Definition detectDuplication (files : list File) : Q :=
  of_nat (Nat.min (countDuplications (collectCodeBlocks files)) 10).

(** *** Coding standards *)

Definition TypeError : string := "Cannot read properties of undefined (reading 'split')".

(** [/\b[a-z]\s*[=:]/.test(s)], scanning from a position whose previous
    character is a word character or not. *)
Fixpoint singleLetterAssigned_from (previousIsWord : bool) (s : string) : bool :=
  match s with
  | EmptyString => false
  | String c rest =>
      (negb previousIsWord && isLower c && afterSpacesOneOf ["="; ":"]%char rest ||
       singleLetterAssigned_from (isWordChar c) rest)%bool
  end.
Definition singleLetterAssigned (s : string) : bool :=
  singleLetterAssigned_from false s.

(** [.*[ijk]\s*[=<>]] at the start of [s]; the dot stops at a line
    terminator. *)
Fixpoint indexAssignedLater (s : string) : bool :=
  match s with
  | EmptyString => false
  | String c rest =>
      if (Ascii.eqb c "010" || Ascii.eqb c "013")%char%bool then false
      else (existsb (Ascii.eqb c) ["i"; "j"; "k"]%char &&
            afterSpacesOneOf ["="; "<"; ">"]%char rest ||
            indexAssignedLater rest)%bool
  end.

(** [/(for|while).*[ijk]\s*[=<>]/.test(s)] *)
Definition loopIndexIdiom (s : string) : bool :=
  anywhere
    (fun t =>
       some (fun keyword =>
               match stripPrefix keyword t with
               | Some rest => indexAssignedLater rest
               | None => false
               end)
            ["for"; "while"])
    s.

Section Naming.
(** [path.extname], and the names captured by the successive matches of
    [variablePattern] (a declaration keyword, white space, an identifier) in
    a line. *)
Variable extname : string -> string.
Variable declaredNames : string -> list string.

Definition getFileType (filename : string) : string :=
  let ext := toLowerCase (extname filename) in
  let typeMap : gmap string string :=
    list_to_map
      [ (".js", "javascript"); (".jsx", "javascript"); (".ts", "typescript");
        (".tsx", "typescript"); (".py", "python"); (".java", "java");
        (".cpp", "cpp"); (".c", "c"); (".cs", "csharp"); (".php", "php");
        (".rb", "ruby"); (".go", "go"); (".rs", "rust") ] in
  match typeMap !! ext with
  | Some fileType => fileType
  | None => "unknown"
  end.

(** The violations one line adds in [checkNamingConventions]. *)
Definition namingViolationsOfLine (fileType : string) (line : string) : nat :=
  let trimmed := trim line in
  let camelCase :=
    if (String.eqb fileType "javascript" || String.eqb fileType "typescript")%bool
    then
      length
        (List.filter
           (fun name =>
              (includes name "_" &&
               strictEquals (JBool (notString (toUpperCase name))) (JString name))%bool)
           (declaredNames trimmed))
    else 0%nat in
  let singleLetter :=
    if (singleLetterAssigned trimmed && negb (loopIndexIdiom trimmed))%bool
    then 1%nat else 0%nat in
  (camelCase + singleLetter)%nat.

Definition checkNamingConventions (lines : list string) (filename : string) : nat :=
  let fileType := getFileType filename in
  let violations :=
    fold_left (fun violations line =>
                 (violations + namingViolationsOfLine fileType line)%nat)
              lines 0%nat in
  Nat.min violations 10.

(** The loop of [checkIndentation] from a given state. *)
Fixpoint checkIndentation_from (lines : list string) (violations : nat)
  (expectedIndent : option nat) : nat :=
  match lines with
  | [] => violations
  | line :: rest =>
      if Nat.eqb (String.length (trim line)) 0
      then checkIndentation_from rest violations expectedIndent
      else
        let spaces := leadingSpaces line in
        if Nat.ltb 0 spaces then
          match expectedIndent with
          | None => checkIndentation_from rest violations (Some spaces)
          | Some indent =>
              if negb (Nat.eqb (spaces mod indent) 0)
              then checkIndentation_from rest (S violations) expectedIndent
              else checkIndentation_from rest violations expectedIndent
          end
        else checkIndentation_from rest violations expectedIndent
  end.

Definition checkIndentation (lines : list string) : nat :=
  Nat.min (checkIndentation_from lines 0 None) 20.

Definition checkLineLength (lines : list string) : nat :=
  let maxLength := 120%nat in
  Nat.min (length (List.filter (fun line => Nat.ltb maxLength (String.length line)) lines))
          10.

(** The violations one line adds in [checkCodeStructure]. *)
Definition structureViolationsOfLine (line : string) : nat :=
  let trimmed := trim line in
  let nestedTernary :=
    Nat.ltb 1 (countPositions (fun t => startsWith t "?") trimmed) in
  let nestedConditions :=
    (includes trimmed "if" &&
     Nat.ltb 2 (countPositions (fun t => startsWith t "if") trimmed))%bool in
  let magicNumber :=
    (some (fun w => (Nat.leb 3 (String.length w) && allDigits w)%bool)
          (wordRuns trimmed) &&
     negb (includes trimmed "//"))%bool in
  ((if nestedTernary then 1 else 0) + (if nestedConditions then 1 else 0) +
   (if magicNumber then 1 else 0))%nat.

Definition checkCodeStructure (lines : list string) : nat :=
  Nat.min
    (fold_left (fun violations line =>
                  (violations + structureViolationsOfLine line)%nat)
               lines 0%nat)
    15.

Definition analyzeCodingStandards (file : File) : result Q :=
  match patch file with
  | None => Throw TypeError
  | Some p =>
      let addedLines := addedLinesOf p in
      let score := 100 in
      let score := score - of_nat (checkNamingConventions addedLines (filename file)) * 5 in
      let score := score - of_nat (checkIndentation addedLines) * 3 in
      let score := score - of_nat (checkLineLength addedLines) * 2 in
      let score := score - of_nat (checkCodeStructure addedLines) * 4 in
      Ok (Math_max 0 score)
  end.

(** The loop shared by [analyzeComplexity], [checkCodingStandards] and
    [calculateMaintainability]: the sum of [metric] over the code files that
    carry a patch, and their number; an exception ends it. *)
Fixpoint sumOverCodeFiles (metric : File -> result Q) (files : list File)
  (total : Q) (fileCount : nat) : result (Q * nat) :=
  match files with
  | [] => Ok (total, fileCount)
  | file :: rest =>
      if isCodeFile (filename file) then
        match truthy_patch file with
        | Some _ =>
            match metric file with
            | Throw e => Throw e
            | Ok value => sumOverCodeFiles metric rest (total + value) (S fileCount)
            end
        | None => sumOverCodeFiles metric rest total fileCount
        end
      else sumOverCodeFiles metric rest total fileCount
  end.

Definition averageOverCodeFiles (metric : File -> result Q) (files : list File)
  (whenNone : Q) : result Q :=
  match sumOverCodeFiles metric files 0 0 with
  | Throw e => Throw e
  | Ok (total, fileCount) =>
      Ok (if Nat.ltb 0 fileCount then total / of_nat fileCount else whenNone)
  end.

Definition checkCodingStandards (files : list File) : result Q :=
  averageOverCodeFiles analyzeCodingStandards files 100.

(** *** Complexity and maintainability *)

(** [calculateCyclomaticComplexity]: it builds one regular expression per
    keyword at run time, so its value, or the exception of the engine, is
    an input here. *)
Variable calculateCyclomaticComplexity : string -> result Q.

Definition analyzeComplexity (files : list File) : result Q :=
  averageOverCodeFiles
    (fun file =>
       match patch file with
       | Some p => calculateCyclomaticComplexity p
       | None => Throw TypeError
       end)
    files 0.

Definition isCommentStart (line : string) : bool :=
  (startsWith (trim line) "//" || startsWith (trim line) "/*")%bool.

Definition calculateFileMaintainability (file : File) : result Q :=
  match patch file with
  | None => Throw TypeError
  | Some p =>
      let addedLines := addedLinesOf p in
      if Nat.eqb (length addedLines) 0 then Ok 100
      else
        let score := 100 in
        let avgLineLength :=
          of_nat (fold_left (fun sum line => (sum + String.length line)%nat)
                            addedLines 0%nat)
          / of_nat (length addedLines) in
        match calculateCyclomaticComplexity p with
        | Throw e => Throw e
        | Ok complexity =>
            let commentRatio :=
              of_nat (length (List.filter isCommentStart addedLines))
              / of_nat (length addedLines) in
            let score := if Qgtb avgLineLength 80 then score - 10 else score in
            let score :=
              if Qgtb complexity 10 then score - (complexity - 10) * 3 else score in
            let score := if Qltb commentRatio 0.1 then score - 15 else score in
            Ok (Math_max 0 score)
        end
  end.

Definition calculateMaintainability (files : list File) : result Q :=
  averageOverCodeFiles calculateFileMaintainability files 100.

End Naming.

(** *** Cyclomatic complexity *)

Definition complexityKeywords : list string :=
  [ "if"; "else"; "elif"; "elsif"; "switch"; "case"; "default";
    "for"; "while"; "do"; "foreach"; "loop";
    "try"; "catch"; "except"; "finally";
    "and"; "or"; "&&"; "||"; "?"; ":";
    "break"; "continue"; "return"; "throw"; "raise" ].

Section Complexity.

(** What the regular-expression engine answers for a keyword and a clean
    line: the number of matches of the pattern built from the keyword
    between two word boundaries (0 when [match] returns null), or the
    exception of the constructor. *)
Variable matchCount : string -> string -> result nat.

(** The inner loop over the keywords, from a given [complexity]. *)
Fixpoint countKeywords (keywords : list string) (cleanLine : string)
  (complexity : Q) : result Q :=
  match keywords with
  | [] => Ok complexity
  | keyword :: rest =>
      match matchCount keyword cleanLine with
      | Throw e => Throw e
      | Ok matches => countKeywords rest cleanLine (complexity + of_nat matches)
      end
  end.

(** The outer loop over the lines of the patch. *)
Fixpoint complexity_from (lines : list string) (complexity : Q) : result Q :=
  match lines with
  | [] => Ok complexity
  | line :: rest =>
      if startsWith line "+" then
        let cleanLine := toLowerCase (trim (substring1 line)) in
        match countKeywords complexityKeywords cleanLine complexity with
        | Throw e => Throw e
        | Ok complexity' => complexity_from rest complexity'
        end
      else complexity_from rest complexity
  end.

Definition calculateCyclomaticComplexity (patch : string) : result Q :=
  complexity_from (split_lines patch) 1.

End Complexity.

(** *** Test quality *)

Definition isTestFile (filename : string) : bool :=
  (includes filename "test" || includes filename "spec" ||
   endsWith filename ".test.js" || endsWith filename ".spec.js" ||
   endsWith filename ".test.ts" || endsWith filename ".spec.ts")%bool.

Record TestAnalysis : Type := mkTestAnalysis {
  test_score : Q;
  testCount : nat;
  assertionCount : nat;
  test_filename : string
}.

Definition testKeywords : list string :=
  ["test"; "it"; "describe"; "expect"; "assert"; "should"].
Definition assertionKeywords : list string :=
  ["expect"; "assert"; "should"; "toBe"; "toEqual"; "toContain"].

Definition isTestCaseLine (line : string) : bool :=
  let trimmed := toLowerCase (trim line) in
  some (fun keyword => includes trimmed (keyword +:+ "(")) testKeywords.

Definition isAssertionLine (line : string) : bool :=
  let trimmed := toLowerCase (trim line) in
  some (fun keyword => includes trimmed keyword) assertionKeywords.

Definition analyzeTestFile (file : File) : result TestAnalysis :=
  match patch file with
  | None => Throw TypeError
  | Some p =>
      let addedLines := addedLinesOf p in
      let testCount := length (List.filter isTestCaseLine addedLines) in
      let assertionCount := length (List.filter isAssertionLine addedLines) in
      let score :=
        if Nat.ltb 0 (length addedLines) then
          let testDensity :=
            of_nat (testCount + assertionCount) / of_nat (length addedLines) in
          Math_min 100 (testDensity * 200)
        else 0 in
      Ok {| test_score := score;
            testCount := testCount;
            assertionCount := assertionCount;
            test_filename := filename file |}
  end.

(** What [analyzeTestQuality] returns: without test files a score of 0 and a
    text, otherwise the average, the analyses and their number. *)
Inductive TestQuality : Type :=
| NoTestFiles (score : Q) (details : string)
| TestFiles (score : Q) (details : list TestAnalysis) (testFileCount : nat).

(** The loop of [analyzeTestQuality] from a given state. *)
Fixpoint analyzeTestFiles_from (testFiles : list File) (totalScore : Q)
  (analyses : list TestAnalysis) : result (Q * list TestAnalysis) :=
  match testFiles with
  | [] => Ok (totalScore, analyses)
  | testFile :: rest =>
      match analyzeTestFile testFile with
      | Throw e => Throw e
      | Ok analysis =>
          analyzeTestFiles_from rest (totalScore + test_score analysis)
            (analyses ++ [analysis])
      end
  end.

Definition analyzeTestQuality (files : list File) : result TestQuality :=
  let testFiles := List.filter (fun file => isTestFile (filename file)) files in
  if Nat.eqb (length testFiles) 0 then Ok (NoTestFiles 0 "No test files found")
  else
    match analyzeTestFiles_from testFiles 0 [] with
    | Throw e => Throw e
    | Ok (totalScore, analyses) =>
        Ok (TestFiles (totalScore / of_nat (length testFiles)) analyses
              (length testFiles))
    end.

(** *** The analysis report *)

(** The [results] object handed to [generateAnalysisReport]; a missing
    property is [None]. *)
Record Results : Type := mkResults {
  complexity : option Q;
  standards : option Q;
  duplication : option Q;
  maintainability : option Q
}.

(** [value || fallback]: undefined and 0 are falsy. *)
Definition orElse (value : option Q) (fallback : Q) : Q :=
  match value with
  | Some q => if Qeq_bool q 0 then fallback else q
  | None => fallback
  end.

(** [value > bound] and [value < bound]; a comparison with undefined is
    false. *)
Definition exceeds (value : option Q) (bound : Q) : bool :=
  match value with
  | Some q => Qgtb q bound
  | None => false
  end.
Definition below (value : option Q) (bound : Q) : bool :=
  match value with
  | Some q => Qltb q bound
  | None => false
  end.

Definition generateRecommendations (results : Results) : list string :=
  (if exceeds (complexity results) 10
   then ["Consider breaking down complex functions into smaller, more manageable pieces"]
   else []) ++
  (if below (standards results) 80
   then ["Review and improve adherence to coding standards"] else []) ++
  (if exceeds (duplication results) 3
   then ["Reduce code duplication by extracting common functionality"] else []) ++
  (if below (maintainability results) 70
   then ["Improve code maintainability by adding comments and simplifying logic"]
   else []).

Record Summary : Type := mkSummary {
  averageComplexity : Q;
  standardsCompliance : Q;
  duplicationLevel : Q;
  maintainabilityIndex : Q
}.

Record AnalysisReport : Type := mkAnalysisReport {
  report_timestamp : string;
  summary : Summary;
  recommendations : list string;
  report_details : Results
}.

Definition generateAnalysisReport (now : string) (results : Results)
  : AnalysisReport :=
  {| report_timestamp := now;
     summary :=
       {| averageComplexity := orElse (complexity results) 0;
          standardsCompliance := orElse (standards results) 100;
          duplicationLevel := orElse (duplication results) 0;
          maintainabilityIndex := orElse (maintainability results) 100 |};
     recommendations := generateRecommendations results;
     report_details := results |}.

End CodeAnalyzer.

(** ** snippet-extractor.js *)

Module SnippetExtractor.
Import JS GitHub.

(** An added-line block of a patch. *)
Record Change : Type := mkChange {
  code : string;
  lineCount : nat
}.

Record Comparison : Type := mkComparison {
  winningSnippet : Change;
  losingSnippet : Change;
  similarity_score : Q
}.

Record Quality : Type := mkQuality {
  score : Q;
  reasoning : string
}.

Inductive Complexity : Type := low | medium | high.

Inductive SnippetType : Type := improvement | new_file | function.

(** What a snippet carries as [snippet]: the change object for an
    improvement, text otherwise. *)
Inductive SnippetBody : Type :=
| BodyChange (change : Change)
| BodyText (text : string).

Record PRRef : Type := mkPRRef {
  ref_number : Z;
  ref_title : string;
  ref_author : string
}.

Record Snippet : Type := mkSnippet {
  type : SnippetType;
  snippet_filename : string;
  snippet : SnippetBody;
  winningAlternative : option Change;
  functionName : option string;
  quality : Quality;
  pr : PRRef;
  snippet_reasoning : string;
  integrationComplexity : Complexity
}.

(** An element of what [extractAddedFunctions] returns. *)
Record Func : Type := mkFunc {
  name : string;
  func_code : string;
  parameters : list string;
  hasReturnValue : bool
}.

(** The argument of [evaluateSnippetQuality]: an object with a [code]
    property, or a string. *)
Inductive SnippetArg : Type :=
| Obj (code : string)
| Str (text : string).

Definition TypeError : string := "code.toLowerCase is not a function".

(** *** Extraction of added-line blocks *)

Definition flushChange (currentChange : list string) : list Change :=
  if Nat.ltb 0 (length currentChange)
  then [{| code := join newline (rev currentChange);
           lineCount := length currentChange |}]
  else [].

(** The loop of [extractCodeChanges] from a given [currentChange]
    (most recent line first). *)
Fixpoint extractCodeChanges_from (lines : list string)
  (currentChange : list string) : list Change :=
  match lines with
  | [] => flushChange currentChange
  | line :: rest =>
      if (startsWith line "+" && negb (startsWith line "+++"))%bool
      then extractCodeChanges_from rest (substring1 line :: currentChange)
      else flushChange currentChange ++ extractCodeChanges_from rest []
  end.

Definition extractCodeChanges (patch : option string) : list Change :=
  match patch with
  | None | Some EmptyString => []
  | Some p =>
      List.filter (fun change => Nat.ltb 2 (lineCount change))
        (extractCodeChanges_from (split_lines p) [])
  end.

(** *** Normalised similarity *)

(** [s.replace(/\s+/g, ' ')] *)
Fixpoint collapseSpaces_go (inSpace : bool) (s : string) : string :=
  match s with
  | EmptyString => EmptyString
  | String c s' =>
      if Ascii.is_space c
      then if inSpace then collapseSpaces_go true s'
           else String " "%char (collapseSpaces_go true s')
      else String c (collapseSpaces_go false s')
  end.
Definition collapseSpaces (s : string) : string := collapseSpaces_go false s.

(** [s.replace(/[{}();,]/g, '')] *)
Definition isPunctuation (c : ascii) : bool :=
  existsb (Ascii.eqb c) ["{"; "}"; "("; ")"; ";"; ","]%char.
Fixpoint dropPunctuation (s : string) : string :=
  match s with
  | EmptyString => EmptyString
  | String c s' =>
      if isPunctuation c then dropPunctuation s'
      else String c (dropPunctuation s')
  end.

Definition normalize (code : string) : string :=
  trim (dropPunctuation (collapseSpaces (toLowerCase code))).

(** *** The quality rubric *)

Definition hasErrorHandling (code : string) : bool :=
  some (fun keyword => includes (toLowerCase code) keyword)
    ["try"; "catch"; "throw"; "error"; "exception"].

Definition hasInputValidation (code : string) : bool :=
  some (fun keyword => includes (toLowerCase code) keyword)
    ["validate"; "check"; "verify"; "assert"; "typeof"; "instanceof"].

(** [code.match(/\b[a-zA-Z_][a-zA-Z0-9_]*\b/g)]: the word runs that do not
    start with a digit. *)
Definition identifiers (code : string) : list string :=
  List.filter
    (fun w => match w with
              | String c _ => negb (isDigit c)
              | EmptyString => false
              end)
    (wordRuns code).

(** [/^[a-z]$/.test(word)] *)
Definition isSingleLower (word : string) : bool :=
  match word with
  | String c EmptyString => isLower c
  | _ => false
  end.

Definition hasGoodNaming (code : string) : bool :=
  let words := identifiers code in
  let descriptiveNames :=
    List.filter
      (fun word => (Nat.ltb 3 (String.length word) && negb (isSingleLower word))%bool)
      words in
  Binary64.exceedsShare (length descriptiveNames) (length words)
    (Binary64.decimal 7 10).

Definition hasComments (code : string) : bool :=
  (includes code "//" || includes code "/*" || includes code "#")%bool.

(** [/^\s+/.test(line)] *)
Definition startsIndented (line : string) : bool :=
  match line with
  | String c _ => Ascii.is_space c
  | EmptyString => false
  end.

Definition isWellStructured (code : string) : bool :=
  let lines := split_lines code in
  let nonEmptyLines :=
    List.filter (fun line => Nat.ltb 0 (String.length (trim line))) lines in
  let indentedLines := List.filter startsIndented lines in
  Binary64.exceedsShare (length indentedLines) (length nonEmptyLines)
    (Binary64.decimal 3 10).

Definition hasTestCoverage (code : string) : bool :=
  some (fun keyword => includes (toLowerCase code) keyword)
    ["test"; "spec"; "describe"; "it"; "expect"; "assert"].

Definition hasPerformanceOptimizations (code : string) : bool :=
  some (fun keyword => includes (toLowerCase code) keyword)
    ["cache"; "memo"; "optimize"; "efficient"; "performance"].

(** [/if\s*\(/] at the start of [s]. *)
Definition conditionalAt (s : string) : bool :=
  match stripPrefix "if" s with
  | Some rest => startsWith (trimStart rest) "("
  | None => false
  end.

(** [\b] between a word character just read and the rest [s]. *)
Definition wordEnds (s : string) : bool :=
  match s with
  | EmptyString => true
  | String c _ => negb (isWordChar c)
  end.

(** [/(for|if|in)\s+[a-z]\b/] at the start of [s]. *)
Definition loopIdiomAt (s : string) : bool :=
  some (fun keyword =>
          match stripPrefix keyword s with
          | Some (String c rest) =>
              (Ascii.is_space c &&
               match trimStart rest with
               | String l after => (isLower l && wordEnds after)%bool
               | EmptyString => false
               end)%bool
          | _ => false
          end)
       ["for"; "if"; "in"].

Definition hasCodeSmells (code : string) : bool :=
  let smells :=
    [ includes code "TODO";
      includes code "FIXME";
      Nat.ltb 5 (countPositions conditionalAt code);
      Nat.ltb 1000 (String.length code);
      (some isSingleLower (wordRuns code) && negb (anywhere loopIdiomAt code))%bool ] in
  Nat.ltb 1 (length (List.filter (fun b => b) smells)).

(** One [if] of the rubric: add [points] and record [reason]. *)
Definition award (signal : bool) (points : Q) (reason : string)
  (state : Q * list string) : Q * list string :=
  if signal then (fst state + points, snd state ++ [reason]) else state.

Definition rubric (code : string) : Quality :=
  let state := (50, []) in
  let state := award (hasErrorHandling code) 15 "Includes error handling" state in
  let state := award (hasInputValidation code) 10 "Includes input validation" state in
  let state := award (hasGoodNaming code) 10 "Uses descriptive naming" state in
  let state := award (hasComments code) 8 "Well documented with comments" state in
  let state := award (isWellStructured code) 12 "Well structured and organized" state in
  let state := award (hasTestCoverage code) 15 "Includes or supports testing" state in
  let state :=
    award (hasPerformanceOptimizations code) 10
      "Includes performance optimizations" state in
  let state := award (hasCodeSmells code) (-15) "Contains potential code smells" state in
  {| score := Math_max 0 (Math_min 100 (fst state));
     reasoning := join ", " (snd state) |}.

(** [const code = snippet.code || snippet]: an object whose [code] is empty
    is itself taken for the code, and the first string method fails on it. *)
Definition evaluateSnippetQuality (snippet : SnippetArg) : result Quality :=
  match snippet with
  | Obj EmptyString => Throw TypeError
  | Obj code => Ok (rubric code)
  | Str text => Ok (rubric text)
  end.

(** The score computed on the way is discarded by the source. *)
Definition evaluateFileQuality (file : File) : result Quality :=
  let content := match patch file with Some p => p | None => EmptyString end in
  evaluateSnippetQuality (Obj content).

Definition evaluateFunctionQuality (func : Func) : result Quality :=
  let state := (55, []) in
  let state := award (Nat.ltb 0 (length (parameters func))) 5 "Takes parameters" state in
  let state := award (hasReturnValue func) 5 "Returns a value" state in
  let state :=
    award (Nat.ltb 50 (String.length (func_code func)) &&
           Nat.ltb (String.length (func_code func)) 500)%bool
      10 "Appropriate function length" state in
  match evaluateSnippetQuality (Str (func_code func)) with
  | Throw e => Throw e
  | Ok qualityResult =>
      Ok {| score := Math_min 100 (fst state + score qualityResult * 0.3);
            reasoning := join ", " (snd state ++ [reasoning qualityResult]) |}
  end.

Definition assessIntegrationComplexity (comparison : Comparison) : Complexity :=
  let winningLines := Z.of_nat (lineCount (winningSnippet comparison)) in
  let losingLines := Z.of_nat (lineCount (losingSnippet comparison)) in
  let sizeDiff := Z.abs (winningLines - losingLines) in
  if Z.ltb sizeDiff 5 then low
  else if Z.ltb sizeDiff 15 then medium
  else high.

Section Extractor.
(** The [similarity] package. *)
Variable similarity : string -> string -> Q.
(** [extractAddedFunctions]: the scanner for function-like additions of a
    patch, driven by the regular-expression engine. *)
Variable extractAddedFunctions : string -> list Func.
(** [pulls.listFiles] per pull number. *)
Variable listFiles : Z -> result (list File).

Definition calculateCodeSimilarity (code1 code2 : string) : Q :=
  similarity (normalize code1) (normalize code2).

Definition findSimilarChangeRegions (winningChanges losingChanges : list Change)
  : list Comparison :=
  flat_map
    (fun losingChange =>
       flat_map
         (fun winningChange =>
            let similarity_score :=
              calculateCodeSimilarity (code winningChange) (code losingChange) in
            if (Qgtb similarity_score 0.3 && Qltb similarity_score 0.8)%bool
            then [{| winningSnippet := winningChange;
                     losingSnippet := losingChange;
                     similarity_score := similarity_score |}]
            else [])
         winningChanges)
    losingChanges.

Definition improvementSnippet (losingFile : File) (losingPR : PRRef)
  (comparison : Comparison) (quality : Quality) : Snippet :=
  {| type := improvement;
     snippet_filename := filename losingFile;
     snippet := BodyChange (losingSnippet comparison);
     winningAlternative := Some (winningSnippet comparison);
     functionName := None;
     quality := quality;
     pr := losingPR;
     snippet_reasoning := reasoning quality;
     integrationComplexity := assessIntegrationComplexity comparison |}.

(** The loop of [compareFileImplementations]; an exception ends it and what
    was pushed before is kept. *)
Fixpoint improvementsOf (losingFile : File) (losingPR : PRRef)
  (comparisons : list Comparison) : list Snippet :=
  match comparisons with
  | [] => []
  | comparison :: rest =>
      match evaluateSnippetQuality (Obj (code (losingSnippet comparison))) with
      | Throw _ => []
      | Ok quality =>
          (if Qgtb (score quality) 75
           then [improvementSnippet losingFile losingPR comparison quality]
           else [])
          ++ improvementsOf losingFile losingPR rest
      end
  end.

Definition compareFileImplementations (winningFile losingFile : File)
  (losingPR : PRRef) : list Snippet :=
  let winningChanges := extractCodeChanges (patch winningFile) in
  let losingChanges := extractCodeChanges (patch losingFile) in
  let comparisons := findSimilarChangeRegions winningChanges losingChanges in
  improvementsOf losingFile losingPR comparisons.

Definition functionSnippet (file : File) (losingPR : PRRef) (func : Func)
  (quality : Quality) : Snippet :=
  {| type := function;
     snippet_filename := filename file;
     snippet := BodyText (func_code func);
     winningAlternative := None;
     functionName := Some (name func);
     quality := quality;
     pr := losingPR;
     snippet_reasoning := "High-quality function: " +:+ reasoning quality;
     integrationComplexity := low |}.

Fixpoint functionSnippetsOf (file : File) (losingPR : PRRef)
  (functions : list Func) : list Snippet :=
  match functions with
  | [] => []
  | func :: rest =>
      match evaluateFunctionQuality func with
      | Throw _ => []
      | Ok quality =>
          (if Qgtb (score quality) 80
           then [functionSnippet file losingPR func quality] else [])
          ++ functionSnippetsOf file losingPR rest
      end
  end.

Definition analyzeNewFileContribution (file : File) (losingPR : PRRef)
  : list Snippet :=
  if String.eqb (status file) "added" then
    match evaluateFileQuality file, patch file with
    | Ok quality, Some p =>
        if Qgtb (score quality) 80
        then [{| type := new_file;
                 snippet_filename := filename file;
                 snippet := BodyText p;
                 winningAlternative := None;
                 functionName := None;
                 quality := quality;
                 pr := losingPR;
                 snippet_reasoning :=
                   "New file with high quality: " +:+ reasoning quality;
                 integrationComplexity := medium |}]
        else []
    | _, _ => []
    end
  else
    match patch file with
    | None => []
    | Some p => functionSnippetsOf file losingPR (extractAddedFunctions p)
    end.

Definition compareAndExtractSnippets (winningFiles losingFiles : list File)
  (losingPR : PRRef) : list Snippet :=
  let fileMap : gmap string File :=
    fold_left (fun m file => <[filename file := file]> m) winningFiles ∅ in
  flat_map
    (fun losingFile =>
       match fileMap !! filename losingFile with
       | Some winningFile =>
           compareFileImplementations winningFile losingFile losingPR
       | None => analyzeNewFileContribution losingFile losingPR
       end)
    losingFiles.

(** *** Ranking *)

Definition complexityOrder (c : Complexity) : Q :=
  match c with
  | low => 1
  | medium => 2
  | high => 3
  end.

(** The comparator handed to [Array.prototype.sort]. *)
Definition comparator (a b : Snippet) : Q :=
  if negb (Qeq_bool (score (quality a)) (score (quality b)))
  then score (quality b) - score (quality a)
  else complexityOrder (integrationComplexity a) -
       complexityOrder (integrationComplexity b).

(** [Array.prototype.sort(compare)]: a stable sort; [a] stays before [b]
    unless [compare a b] is positive. *)
Fixpoint sort_insert {A} (compare : A -> A -> Q) (x : A) (sorted : list A)
  : list A :=
  match sorted with
  | [] => [x]
  | y :: rest =>
      if Qle_bool (compare x y) 0 then x :: y :: rest
      else y :: sort_insert compare x rest
  end.
Definition Array_sort {A} (compare : A -> A -> Q) (l : list A) : list A :=
  fold_right (sort_insert compare) [] l.

Definition rankSnippets (snippets : list Snippet) : list Snippet :=
  Array_sort comparator snippets.

(** The loop over the losing pull requests; [None] when a fetch fails. *)
Fixpoint collectSnippets (winningFiles : list File) (losingPRs : list PRRef)
  : result (list Snippet) :=
  match losingPRs with
  | [] => Ok []
  | losingPR :: rest =>
      match listFiles (ref_number losingPR) with
      | Throw e => Throw e
      | Ok losingFiles =>
          match collectSnippets winningFiles rest with
          | Throw e => Throw e
          | Ok snippets =>
              Ok (compareAndExtractSnippets winningFiles losingFiles losingPR
                  ++ snippets)
          end
      end
  end.

Definition extractSuperiorSnippets (winningPR : Z) (losingPRs : list PRRef)
  : list Snippet :=
  match listFiles winningPR with
  | Throw _ => []
  | Ok winningFiles =>
      match collectSnippets winningFiles losingPRs with
      | Throw _ => []
      | Ok snippets => firstn 10 (rankSnippets snippets)
      end
  end.

End Extractor.

(** *** The integration plan *)

Definition typeName (t : SnippetType) : string :=
  match t with
  | improvement => "improvement"
  | new_file => "new_file"
  | function => "function"
  end.

Definition complexityName (c : Complexity) : string :=
  match c with
  | low => "low"
  | medium => "medium"
  | high => "high"
  end.

Record Plan : Type := mkPlan {
  totalSnippets : nat;
  byType : gmap string nat;
  byComplexity : gmap string nat;
  recommendedOrder : list Snippet;
  estimatedEffort : Q
}.

(** [counts[key] = (counts[key] || 0) + 1] *)
Definition increment (key : string) (counts : gmap string nat) : gmap string nat :=
  <[key := (match counts !! key with Some n => n | None => 0 end + 1)%nat]> counts.

Definition effortMap (c : Complexity) : Q :=
  match c with
  | low => 1
  | medium => 3
  | high => 8
  end.

Definition hasComplexity (c : Complexity) (s : Snippet) : bool :=
  String.eqb (complexityName (integrationComplexity s)) (complexityName c).

Definition generateIntegrationPlan (snippets : list Snippet) : Plan :=
  {| totalSnippets := length snippets;
     byType :=
       fold_left (fun counts snippet => increment (typeName (type snippet)) counts)
                 snippets ∅;
     byComplexity :=
       fold_left
         (fun counts snippet =>
            increment (complexityName (integrationComplexity snippet)) counts)
         snippets ∅;
     recommendedOrder :=
       List.filter (hasComplexity low) snippets ++
       List.filter (hasComplexity medium) snippets ++
       List.filter (hasComplexity high) snippets;
     estimatedEffort :=
       fold_left (fun total snippet => total + effortMap (integrationComplexity snippet))
                 snippets 0 |}.

End SnippetExtractor.

(** * Specification-level definitions *)

(** ** The scorer in closed form, and example inputs *)

Module ScorerSpec.
Import JS GitHub PRScorer.

(** Shifting the counters of a world: [dd] more draws, [dc] more calls,
    [msgs] more warnings. *)
Definition advance (dd dc : nat) (msgs : list string) (w : World) : World :=
  {| random := random w; draws := dd + draws w; listFiles := listFiles w;
     calls := dc + calls w; now := now w; warnings := msgs ++ warnings w;
     failures := failures w |}.

Definition codeQualityDetails : string :=
  "Code quality analysis including complexity, standards, duplication, and maintainability".
Definition testingDetails : string :=
  "Testing analysis including coverage, test quality, and edge case handling".
Definition performanceDetails : string :=
  "Performance analysis including load time, memory usage, and optimizations".
Definition securityDetails : string :=
  "Security analysis including vulnerability scanning and best practices".
Definition documentationDetails : string :=
  "Documentation analysis including code comments, README updates, and API docs".

Section Outcome.
Variable codeAnalyzer : Analyzer.
Variable config : Config.
Variable pr : PR.
Variable w : World.

(** The answer to the [k]-th next [listFiles] call, and the [k]-th next
    value of [Math.random]. *)
Definition fetch (k : nat) : result (list File) :=
  listFiles w (k + calls w) (number pr).
Definition draw (k : nat) : Q := random w (k + draws w).

Definition codeQualityOutcome (files : list File) : Q :=
  match analyzeComplexity codeAnalyzer files,
        checkCodingStandards codeAnalyzer files,
        detectDuplication codeAnalyzer files,
        calculateMaintainability codeAnalyzer files with
  | Ok complexity, Ok standards, Ok duplication, Ok maintainability =>
      clamp (codeQualityTotal complexity standards duplication maintainability)
  | _, _, _, _ => 50
  end.

Definition testingOutcome : Q :=
  match fetch 1 with
  | Ok files =>
      clamp (testingTotal (draw 0 * 40 + 60) (testFileCount files)
               (Qgtb (draw 1) 0.1) (Math_floor (draw 2 * 5)))
  | Throw _ => 60
  end.

Definition drawsAfterTesting : nat := if is_Ok (fetch 1) then 3 else 1.

Definition performanceOutcome : Q :=
  match fetch 2 with
  | Ok files =>
      clamp (performanceTotal (draw drawsAfterTesting * 30 + 70)
               (optimizationScore files))
  | Throw _ => 70
  end.

Definition securityOutcome : Q :=
  match fetch 3, fetch 4 with
  | Ok validationFiles, Ok errorFiles =>
      clamp (securityTotal (Math_floor (draw (1 + drawsAfterTesting) * 3))
               (draw (2 + drawsAfterTesting) * 30 + 70)
               (validationScore validationFiles) (errorScore errorFiles))
  | _, _ => 80
  end.

Definition documentationOutcome : Q :=
  match fetch (if is_Ok (fetch 3) then 5 else 4) with
  | Ok files => clamp (documentationTotal files)
  | Throw _ => 60
  end.

(** The five records of a report whose code-quality fetch returned [files]. *)
Definition scoresOutcome (files : list File) : Scores :=
  {| codeQuality := mkSubScore (codeQualityOutcome files) codeQualityDetails;
     testing := mkSubScore testingOutcome testingDetails;
     performance := mkSubScore performanceOutcome performanceDetails;
     security := mkSubScore securityOutcome securityDetails;
     documentation := mkSubScore documentationOutcome documentationDetails |}.

Definition reportOutcome : Report :=
  match fetch 0 with
  | Ok files =>
      {| report_pr := prInfo pr;
         scores := scoresOutcome files;
         weightedScore := calculateWeightedScore config (scoresOutcome files);
         meetsThresholds :=
           checkThresholds config (scoresOutcome files)
             (calculateWeightedScore config (scoresOutcome files));
         timestamp := now w |}
  | Throw _ =>
      {| report_pr := prInfo pr;
         scores := mkScores defaultSubScore defaultSubScore defaultSubScore
                     defaultSubScore defaultSubScore;
         weightedScore := 50;
         meetsThresholds := mkVerdict false false false false false false false;
         timestamp := now w |}
  end.
End Outcome.


(** *** Example inputs *)

(** An analyzer that counts duplications as code-analyzer.js does and
    reports the neutral values of the other three metrics. *)
Definition exampleAnalyzer : Analyzer :=
  {| analyzeComplexity := fun _ => Ok 0;
     checkCodingStandards := fun _ => Ok 100;
     detectDuplication := fun files => Ok (CodeAnalyzer.detectDuplication files);
     calculateMaintainability := fun _ => Ok 100 |}.

(** The documented default configuration. *)
Definition defaultConfig : Config :=
  {| weights := mkWeights 0.30 0.25 0.20 0.15 0.10;
     thresholds := mkThresholds 70 90 60 70 50 80 40 |}.

Definition examplePR : PR :=
  {| number := 7; title := "Add login"; head_ref := "feature/auth-login";
     user_login := "alice"; created_at := "2024-01-01T00:00:00Z";
     updated_at := "2024-01-02T00:00:00Z" |}.

Definition exampleFiles : list File :=
  [ {| filename := "auth.js"; status := "added";
       patch := Some "+// validate input" |} ].

(** A platform that answers every call. *)
Definition healthyWorld (r : Q) : World :=
  {| random := fun _ => r; draws := 0;
     listFiles := fun _ _ => Ok exampleFiles; calls := 0;
     now := "2024-01-03T00:00:00Z"; warnings := []; failures := [] |}.

(** The same platform, with draws that change from the seventh on. *)
Definition lateChangeWorld (r : Q) : World :=
  {| random := fun k => if Nat.ltb k 6 then r else 0; draws := 0;
     listFiles := fun _ _ => Ok exampleFiles; calls := 0;
     now := "2024-01-03T00:00:00Z"; warnings := []; failures := [] |}.

(** A platform that answers the first call and fails afterwards. *)
Definition flakyWorld : World :=
  {| random := fun _ => 0; draws := 0;
     listFiles := fun k _ =>
       match k with
       | O => Ok exampleFiles
       | S _ => Throw "connect ETIMEDOUT"
       end;
     calls := 0;
     now := "2024-01-03T00:00:00Z"; warnings := []; failures := [] |}.

(** A platform that answers no call. *)
Definition deadWorld : World :=
  {| random := fun _ => 0; draws := 0;
     listFiles := fun _ _ => Throw "connect ETIMEDOUT"; calls := 0;
     now := "2024-01-03T00:00:00Z"; warnings := []; failures := [] |}.

(** A line of a unified diff that is an added line, a removed line or a
    hunk header. *)
Definition diffMarked (line : string) : bool :=
  (startsWith line "+" || startsWith line "-" || startsWith line "@")%bool.

(** A file that is new in the pull request, comments included. *)
Definition commentedFiles : list File :=
  [ {| filename := "auth.js"; status := "added";
       patch := Some (join newline
                        [ "@@ -0,0 +1,3 @@";
                          "+// check the password";
                          "+/* and the user */";
                          "+login(user, password);" ]) |} ].

End ScorerSpec.

(** ** Example inputs of the feature detector *)

Module DetectorSpec.
Import JS GitHub FeatureDetector.

(** A stand-in for the [similarity] package in examples: 1 on equal
    strings, 0 otherwise. *)
Definition exactSimilarity (a b : string) : Q :=
  if String.eqb a b then 1 else 0.

(** A stand-in for the regular-expression engine in examples: every source
    is accepted, and a pattern of the form [prefix(.+)] captures what
    follows [prefix] at the start of the subject. *)
Definition prefixRegExp_new (source : string) : result string := Ok source.

Definition prefixGroup1 (regex subject : string) : option (option string) :=
  if endsWith regex "(.+)" then
    match stripPrefix (String.substring 0 (String.length regex - 4) regex) subject with
    | Some EmptyString => None
    | Some rest => Some (Some rest)
    | None => None
    end
  else
    match stripPrefix regex subject with
    | Some _ => Some None
    | None => None
    end.

Definition exampleDetection : FeatureDetection :=
  {| branchPatterns := ["feature/*"; "feat/*"];
     titleSimilarityThreshold := 0.7;
     fileOverlapThreshold := 0.3;
     labelKeywords := ["feature"; "enhancement"] |}.

Definition loginPR : PR :=
  {| number := 1; title := "Add login form"; head_ref := "login-form";
     user_login := "alice"; created_at := "2024-01-01T00:00:00Z";
     updated_at := "2024-01-01T00:00:00Z" |}.
Definition sessionPR : PR :=
  {| number := 2; title := "Keep sessions across restarts";
     head_ref := "session-store";
     user_login := "bob"; created_at := "2024-01-02T00:00:00Z";
     updated_at := "2024-01-02T00:00:00Z" |}.
Definition cookiePR : PR :=
  {| number := 3; title := "Rotate cookie secrets"; head_ref := "cookie-secrets";
     user_login := "carol"; created_at := "2024-01-03T00:00:00Z";
     updated_at := "2024-01-03T00:00:00Z" |}.
Definition emptyPR : PR :=
  {| number := 4; title := "Trigger the pipeline"; head_ref := "retrigger";
     user_login := "dave"; created_at := "2024-01-04T00:00:00Z";
     updated_at := "2024-01-04T00:00:00Z" |}.
Definition draftPR : PR :=
  {| number := 5; title := "Placeholder"; head_ref := "placeholder";
     user_login := "erin"; created_at := "2024-01-05T00:00:00Z";
     updated_at := "2024-01-05T00:00:00Z" |}.

Definition changed (name : string) : File :=
  {| filename := name; status := "modified"; patch := Some "+x" |}.

(** The login change touches src/auth.js, the session change src/auth.js and
    src/session.js, the cookie change src/session.js; the last two pull
    requests change no file. *)
Definition examplePlatform : Platform :=
  {| openPRs := [loginPR; sessionPR; cookiePR];
     labelsOf := fun _ => [];
     filesOf := fun n =>
       if Z.eqb n 1 then [changed "src/auth.js"]
       else if Z.eqb n 2 then [changed "src/auth.js"; changed "src/session.js"]
       else if Z.eqb n 3 then [changed "src/session.js"]
       else [];
     today := "2024-01-06T00:00:00Z" |}.

End DetectorSpec.


(** ** Pairs of blocks *)

Module AnalyzerSpec.
Import JS GitHub CodeAnalyzer.

(** All pairs (l[i], l[j]) with i < j, in the order of the double loop. *)
Fixpoint pairs {A} (l : list A) : list (A * A) :=
  match l with
  | [] => []
  | x :: later => map (fun y => (x, y)) later ++ pairs later
  end.

(** Both blocks have at least 50 characters and their word overlap
    exceeds 0.7. *)
Definition longAndOverlapping (p : string * string) : bool :=
  (Nat.leb 50 (String.length (fst p)) && Nat.leb 50 (String.length (snd p)) &&
   js_gt (wordOverlap (fst p) (snd p)) 0.7)%bool.

Definition shortBlock : string := "const a = 1;
const b = 2;
const c = 3;".

Definition longBlock : string := "const alphaValue = computeAlpha(input);
const betaValue = computeBeta(input);
const gammaValue = computeGamma(input);".

End AnalyzerSpec.


(** ** The ranking order *)

Module ExtractorSpec.
Import JS GitHub SnippetExtractor.

(** low before medium before high. *)
Definition easierOrEqual (c1 c2 : Complexity) : Prop :=
  match c1, c2 with
  | low, _ => True
  | medium, low => False
  | medium, _ => True
  | high, high => True
  | high, _ => False
  end.

(** [a] may stand before [b] in the ranking: a higher quality score, or an
    equal one and an integration complexity that is not higher. *)
Definition ranksBefore (a b : Snippet) : Prop :=
  score (quality b) < score (quality a) \/
  (score (quality a) == score (quality b) /\
   easierOrEqual (integrationComplexity a) (integrationComplexity b)).

(** *** Example inputs *)

(** A stand-in for the [similarity] package that answers [q] for every
    pair. *)
Definition fixedSimilarity (q : Q) : string -> string -> Q := fun _ _ => q.

Definition lines (l : list string) : string := join newline l.

(** The winner guards the login with two early returns. *)
Definition winningPatch : string :=
  lines [ "@@ -1,3 +1,6 @@";
          " function login(user, password) {";
          "+  if (!user) return false;";
          "+  if (!password) return false;";
          "+  return compare(user, password);";
          " }" ].

(** The loser validates inside a try block. *)
Definition losingPatch : string :=
  lines [ "@@ -1,3 +1,9 @@";
          " function login(user, password) {";
          "+  // validate the credentials first";
          "+  try {";
          "+    checkPassword(user, password);";
          "+  } catch (error) {";
          "+    throw error;";
          "+  }";
          " }" ].

Definition winningFile : File :=
  {| filename := "auth.js"; status := "modified"; patch := Some winningPatch |}.
Definition losingFile : File :=
  {| filename := "auth.js"; status := "modified"; patch := Some losingPatch |}.
Definition loser : PRRef :=
  {| ref_number := 2; ref_title := "Validate credentials"; ref_author := "bob" |}.

(** A candidate with a given quality score and integration complexity. *)
Definition candidate (name : string) (q : Q) (c : Complexity) : Snippet :=
  {| type := function;
     snippet_filename := name;
     snippet := BodyText "";
     winningAlternative := None;
     functionName := None;
     quality := {| score := q; reasoning := "" |};
     pr := loser;
     snippet_reasoning := "";
     integrationComplexity := c |}.

End ExtractorSpec.


(** ** The code analyzer as the scorer uses it, and example inputs *)

Module AnalyzerExtraSpec.
Import JS GitHub CodeAnalyzer.

(** The [codeAnalyzer] of a scorer: the four metrics of code-analyzer.js. *)
Definition theCodeAnalyzer (extname : string -> string)
  (declaredNames : string -> list string)
  (calculateCyclomaticComplexity : string -> result Q) : PRScorer.Analyzer :=
  {| PRScorer.analyzeComplexity :=
       analyzeComplexity calculateCyclomaticComplexity;
     PRScorer.checkCodingStandards := checkCodingStandards extname declaredNames;
     PRScorer.detectDuplication := fun files => Ok (detectDuplication files);
     PRScorer.calculateMaintainability :=
       calculateMaintainability calculateCyclomaticComplexity |}.

(** No code file of [files] carries a patch. *)
Definition noCodeToAnalyze (files : list File) : Prop :=
  forall file, In file files ->
    isCodeFile (filename file) = false \/ truthy_patch file = None.

(** The string contains one of A-Z. *)
Fixpoint hasUpperCase (s : string) : bool :=
  match s with
  | EmptyString => false
  | String c s' =>
      ((Nat.leb 65 (nat_of_ascii c) && Nat.leb (nat_of_ascii c) 90) ||
       hasUpperCase s')%bool
  end.

(** Stand-ins for [path.extname] and for the matches of [variablePattern]:
    the text after the last dot, and every word run of the line. *)
Fixpoint afterLastDot (s : string) (found : option string) : string :=
  match s with
  | EmptyString => match found with Some ext => ext | None => EmptyString end
  | String c s' =>
      if Ascii.eqb c "."%char then afterLastDot s' (Some (String c s'))
      else afterLastDot s' found
  end.
Definition simpleExtname (filename : string) : string := afterLastDot filename None.
Definition everyWord (line : string) : list string := wordRuns line.

(** Engines for [calculateCyclomaticComplexity]: one that rejects a pattern
    it is asked to build, and one that finds nothing to count. *)
Definition rejectingEngine (patch : string) : result Q :=
  Throw "Invalid regular expression: Nothing to repeat".
Definition baseComplexity (patch : string) : result Q := Ok 1.

(** The engine rejects the pattern built from [keyword], whatever the
    line it is meant for. *)
Definition rejects (matchCount : string -> string -> result nat)
  (keyword : string) : Prop :=
  forall cleanLine, exists e, matchCount keyword cleanLine = Throw e.

(** The patch has a line that begins with a plus sign. *)
Definition hasAddedLine (patch : string) : Prop :=
  Exists (fun line => startsWith line "+" = true) (split_lines patch).

(** An engine that finds no keyword and refuses to repeat a word
    boundary. *)
Definition strictEngine (keyword cleanLine : string) : result nat :=
  if String.eqb keyword "?"
  then Throw "Invalid regular expression: Nothing to repeat"
  else Ok 0%nat.

Definition readme : File :=
  {| filename := "README.md"; status := "modified";
     patch := Some "+More words." |}.
Definition binaryAsset : File :=
  {| filename := "logo.js"; status := "added"; patch := None |}.
Definition snakeCase : File :=
  {| filename := "util.js"; status := "modified";
     patch := Some (join newline
                      [ "@@ -1,2 +1,4 @@";
                        "+const user_name = load();";
                        "+let x = 1;";
                        " return user_name;" ]) |}.
Definition deletion : File :=
  {| filename := "old.js"; status := "modified";
     patch := Some (join newline [ "@@ -1,2 +0,0 @@"; "-gone();"; "-forever();" ]) |}.
Definition testWithoutPatch : File :=
  {| filename := "auth.test.js"; status := "added"; patch := None |}.
Definition testWithPatch : File :=
  {| filename := "auth.test.js"; status := "added";
     patch := Some (join newline
                      [ "@@ -0,0 +1,3 @@";
                        "+test('login', () => {";
                        "+  expect(login()).toBe(true);";
                        "+});" ]) |}.

(** A line that [extractCodeBlocks] keeps in a block. *)
Definition blockLine (line : string) : Prop :=
  (10 < String.length line)%nat /\
  startsWith line "//" = false /\ startsWith line "/*" = false.

(** A patch whose three added statements form one block. *)
Definition threeStatements : string :=
  join newline
    [ "@@ -0,0 +1,4 @@";
      "+const total = 0;";
      "+const count = 0;";
      "+// nothing yet";
      "+const names = [];";
      "+const ready = false;";
      "+const limit = 100;" ].

(** A platform that answers every call with [files]. *)
Definition platformWith (files : list File) : PRScorer.World :=
  {| PRScorer.random := fun _ => 0; PRScorer.draws := 0;
     PRScorer.listFiles := fun _ _ => Ok files; PRScorer.calls := 0;
     PRScorer.now := "2024-01-03T00:00:00Z";
     PRScorer.warnings := []; PRScorer.failures := [] |}.

End AnalyzerExtraSpec.

(** ** Vocabulary of the further detector properties *)

Module DetectorExtraSpec.
Import JS GitHub FeatureDetector.

(** The answer of a comparison read as a verdict: an exception is no
    verdict. *)
Definition verdict (r : result bool) : bool :=
  match r with
  | Ok b => b
  | Throw _ => false
  end.

(** The character occurs in the string. *)
Fixpoint occurs (c : ascii) (s : string) : bool :=
  match s with
  | EmptyString => false
  | String d rest => (Ascii.eqb c d || occurs c rest)%bool
  end.

(** An engine that accepts no pattern. *)
Definition noRegExp_new (source : string) : result string :=
  Throw ("Invalid regular expression: /" +:+ source +:+ "/").

(** A configuration whose first branch pattern is no regular expression
    once its star is replaced. *)
Definition brokenDetection : FeatureDetection :=
  {| branchPatterns := ["feature/[*"];
     titleSimilarityThreshold := 0.7;
     fileOverlapThreshold := 0.3;
     labelKeywords := ["feature"; "enhancement"] |}.

End DetectorExtraSpec.

(** ** Vocabulary of the further extractor properties *)

Module ExtractorExtraSpec.
Import JS GitHub SnippetExtractor.

Definition hasType (t : SnippetType) (s : Snippet) : bool :=
  String.eqb (typeName (type s)) (typeName t).

(** How many snippets have the given complexity, or the given type. *)
Definition withComplexity (c : Complexity) (snippets : list Snippet) : nat :=
  length (List.filter (hasComplexity c) snippets).
Definition withType (t : SnippetType) (snippets : list Snippet) : nat :=
  length (List.filter (hasType t) snippets).

(** The threshold a snippet cleared, and what its kind fixes. *)
Definition cleared (s : Snippet) : Prop :=
  match type s with
  | improvement => 75 < score (quality s) /\ winningAlternative s <> None
  | new_file => 80 < score (quality s) /\ integrationComplexity s = medium
  | function => 80 < score (quality s) /\ integrationComplexity s = low
  end.

(** A counter of a plan: absent until the first increment. *)
Definition counter (n : nat) : option nat :=
  if Nat.eqb n 0 then None else Some n.

(** [text] is an added line of [patch], without its plus sign; the lines
    of a file header do not count. *)
Definition addedText (patch : string) (text : string) : Prop :=
  exists line,
    In line (split_lines patch) /\ startsWith line "+" = true /\
    startsWith line "+++" = false /\ text = substring1 line.

(** A patch of a new file: the header and four lines. *)
Definition newFilePatch : string :=
  join newline
    [ "--- /dev/null";
      "+++ b/cache.js";
      "@@ -0,0 +1,4 @@";
      "+const cache = new Map();";
      "+function remember(key, value) {";
      "+  cache.set(key, value);";
      "+}" ].

(** A platform for the extractor: pull request 1 is the winner, every
    other one changes auth.js as the loser of the example does. *)
Definition exampleListFiles (n : Z) : result (list File) :=
  if Z.eqb n 1 then Ok [ExtractorSpec.winningFile]
  else Ok [ExtractorSpec.losingFile].

Definition noFunctions (patch : string) : list Func := [].

End ExtractorExtraSpec.

(** ** Vocabulary of the properties in double precision *)

Module DoublesSpec.
Import SpecFloat Binary64 PRScorerDoubles.

(** The property holds of each of the five doubles. *)
Definition each (P : double -> Prop) (x : PerCriterion) : Prop :=
  P (codeQuality x) /\ P (testing x) /\ P (performance x) /\ P (security x) /\
  P (documentation x).

(** A sub-score: a double in [0,100]. A weight: a double that is not
    negative. *)
Definition percentage (x : double) : Prop :=
  nonnegative x = true /\ value x <= 100.
Definition weight (x : double) : Prop := nonnegative x = true.

(** The five weights sum to 1: their exact sum is within 2^-50 of 1, which
    leaves room for the rounding of five decimal weights. *)
Definition sumOfWeights (weights : PerCriterion) : Q :=
  value (codeQuality weights) + value (testing weights) +
  value (performance weights) + value (security weights) +
  value (documentation weights).
Definition sumToOne (weights : PerCriterion) : Prop :=
  Qabs (sumOfWeights weights - 1) <= 2 ^ (-50).

(** The same weights and sub-scores as the exact model reads them. *)
Definition exactWeights (weights : PerCriterion) : PRScorer.Weights :=
  PRScorer.mkWeights (value (codeQuality weights)) (value (testing weights))
    (value (performance weights)) (value (security weights))
    (value (documentation weights)).
Definition exactScores (scores : PerCriterion) : PRScorer.Scores :=
  PRScorer.mkScores
    (PRScorer.mkSubScore (value (codeQuality scores)) ScorerSpec.codeQualityDetails)
    (PRScorer.mkSubScore (value (testing scores)) ScorerSpec.testingDetails)
    (PRScorer.mkSubScore (value (performance scores)) ScorerSpec.performanceDetails)
    (PRScorer.mkSubScore (value (security scores)) ScorerSpec.securityDetails)
    (PRScorer.mkSubScore (value (documentation scores))
       ScorerSpec.documentationDetails).
Definition exactWeightedScore (weights scores : PerCriterion) : Q :=
  PRScorer.calculateWeightedScore
    {| PRScorer.weights := exactWeights weights;
       PRScorer.thresholds := PRScorer.thresholds ScorerSpec.defaultConfig |}
    (exactScores scores).

(** The ceiling of the weighted score for given weights: testing is at
    most 61 and documentation at most 260/3. *)
Definition ceiling (weights : PerCriterion) : Q :=
  100 - 39 * value (testing weights) - (40 # 3) * value (documentation weights).

(** *** Example inputs *)

(** The documented default weights and thresholds, as the doubles a JSON
    parser reads. *)
Definition defaultWeights : PerCriterion :=
  {| codeQuality := decimal 30 100; testing := decimal 25 100;
     performance := decimal 20 100; security := decimal 15 100;
     documentation := decimal 10 100 |}.
Definition defaultThresholds : Thresholds :=
  {| minimumScore := of_Z 70; autoMergeScore := of_Z 90;
     codeQualityMin := of_Z 60; testingMin := of_Z 70;
     performanceMin := of_Z 50; securityMin := of_Z 80;
     documentationMin := of_Z 40 |}.

(** Three weights whose exact sum is 1:
    0.9391491627785106 + 0.02319659701570738 + 0.03765424020578205. *)
Definition unevenWeights : PerCriterion :=
  {| codeQuality := S754_finite false 8459103639069227 (-53);
     testing := S754_finite false 6685963883277012 (-58);
     performance := S754_zero false;
     security := S754_zero false;
     documentation := S754_finite false 5426547909109734 (-57) |}.

(** A weight of 2 on code quality paid for by a weight of -1 on testing. *)
Definition skewedWeights : PerCriterion :=
  {| codeQuality := of_Z 2; testing := of_Z (-1);
     performance := S754_zero false; security := S754_zero false;
     documentation := S754_zero false |}.

Definition fullScores : PerCriterion :=
  {| codeQuality := of_Z 100; testing := of_Z 100; performance := of_Z 100;
     security := of_Z 100; documentation := of_Z 100 |}.

(** The highest sub-scores the scorer can give: 100, 61, 89.25, 100 and the
    double nearest to 260/3. *)
Definition bestScores : PerCriterion :=
  {| codeQuality := of_Z 100; testing := of_Z 61;
     performance := decimal 8925 100; security := of_Z 100;
     documentation := decimal 260 3 |}.

Definition lopsidedScores : PerCriterion :=
  {| codeQuality := of_Z 100; testing := S754_zero false;
     performance := S754_zero false; security := S754_zero false;
     documentation := S754_zero false |}.

End DoublesSpec.

(** * Facts about the number model *)

Module NumberFacts.
Import JS.

Lemma Qgtb_true_iff x y : Qgtb x y = true <-> y < x.
Proof.
  unfold Qgtb, Qltb. destruct (Qle_bool x y) eqn:E; simpl.
  - apply Qle_bool_iff in E. split; [discriminate | intros H; lra].
  - split; [intros _ | reflexivity].
    destruct (Qlt_le_dec y x) as [H | H]; [exact H |].
    apply Qle_bool_iff in H. congruence.
Qed.

Lemma Qltb_true_iff x y : Qltb x y = true <-> x < y.
Proof. apply (Qgtb_true_iff y x). Qed.

Lemma Qgtb_Qeq x y t : x == y -> Qgtb x t = Qgtb y t.
Proof.
  intros H. unfold Qgtb, Qltb.
  destruct (Qle_bool x t) eqn:E1, (Qle_bool y t) eqn:E2; try reflexivity.
  - apply Qle_bool_iff in E1. rewrite H in E1. apply Qle_bool_iff in E1. congruence.
  - apply Qle_bool_iff in E2. rewrite <- H in E2. apply Qle_bool_iff in E2. congruence.
Qed.

Lemma Qgeb_false x y : x < y -> Qgeb x y = false.
Proof.
  intros H. unfold Qgeb. destruct (Qle_bool y x) eqn:E; [| reflexivity].
  apply Qle_bool_iff in E. lra.
Qed.

Lemma of_nat_eq_0 n : Qeq_bool (of_nat n) 0 = true <-> n = 0%nat.
Proof.
  unfold of_nat. rewrite Qeq_bool_iff. unfold Qeq, inject_Z. simpl. lia.
Qed.

Lemma of_nat_nonneg n : 0 <= of_nat n.
Proof. unfold of_nat, Qle. simpl. lia. Qed.

Lemma of_nat_S n : of_nat (S n) == of_nat n + 1.
Proof.
  unfold of_nat. rewrite Nat2Z.inj_succ, <- Z.add_1_r, inject_Z_plus. reflexivity.
Qed.

Lemma of_nat_pos n : (0 < n)%nat -> 0 < of_nat n.
Proof. intros H. unfold of_nat, Qlt. simpl. lia. Qed.

Lemma of_nat_le n m : (n <= m)%nat -> of_nat n <= of_nat m.
Proof. intros H. unfold of_nat, Qle. simpl. lia. Qed.

End NumberFacts.

(** * Facts about the string model *)

Module StringFacts.
Import JS.

Lemma append_cons (a : ascii) (s t : string) :
  String a s +:+ t = String a (s +:+ t).
Proof. reflexivity. Qed.

Lemma append_nil_r (s : string) : s +:+ EmptyString = s.
Proof.
  induction s as [|a s IH]; [reflexivity |].
  rewrite append_cons, IH. reflexivity.
Qed.

Lemma append_assoc (a b c : string) : (a +:+ b) +:+ c = a +:+ (b +:+ c).
Proof.
  induction a as [|x a IH]; [reflexivity |].
  rewrite !append_cons, IH. reflexivity.
Qed.

Lemma length_append (a b : string) :
  String.length (a +:+ b) = (String.length a + String.length b)%nat.
Proof.
  induction a as [|x a IH]; [reflexivity |].
  rewrite append_cons. cbn [String.length]. rewrite IH. reflexivity.
Qed.

Lemma rev_app_append (s t : string) :
  String.rev_app s t = String.rev_app s EmptyString +:+ t.
Proof.
  revert t. induction s as [|a s IH]; intros t; [reflexivity |].
  cbn. rewrite (IH (String a t)), (IH (String a EmptyString)).
  rewrite append_assoc. reflexivity.
Qed.

Lemma rev_cons (a : ascii) (s : string) :
  String.rev (String a s) = String.rev s +:+ String a EmptyString.
Proof. unfold String.rev. cbn. apply rev_app_append. Qed.

Lemma rev_app_of_append (y z t : string) :
  String.rev_app (y +:+ z) t = String.rev_app z (String.rev_app y t).
Proof.
  revert t. induction y as [|a y IH]; intros t; [reflexivity |].
  rewrite append_cons. cbn [String.rev_app]. apply IH.
Qed.

Lemma rev_snoc (y : string) (c : ascii) :
  String.rev (y +:+ String c EmptyString) = String c (String.rev y).
Proof. unfold String.rev. rewrite rev_app_of_append. reflexivity. Qed.

Lemma length_rev (s : string) : String.length (String.rev s) = String.length s.
Proof.
  induction s as [|a s IH]; [reflexivity |].
  rewrite rev_cons, length_append, IH. cbn [String.length]. lia.
Qed.

(** White space is only removed in front of a character that is none. *)
Lemma trimStart_snoc (u : string) (c : ascii) :
  Ascii.is_space c = false ->
  exists u', trimStart (u +:+ String c EmptyString) = u' +:+ String c EmptyString.
Proof.
  intros Hc. induction u as [|a u IH].
  - exists EmptyString. change (EmptyString +:+ String c EmptyString)
      with (String c EmptyString). cbn [trimStart]. rewrite Hc. reflexivity.
  - rewrite append_cons. cbn [trimStart]. destruct (Ascii.is_space a).
    + exact IH.
    + exists (String a u). reflexivity.
Qed.

(** [trim] keeps the first character that is no white space. *)
Lemma trim_keeps_first (c : ascii) (s : string) :
  Ascii.is_space c = false ->
  exists rest, trim (String c s) = String c rest.
Proof.
  intros Hc. unfold trim. cbn [trimStart]. rewrite Hc.
  rewrite rev_cons.
  destruct (trimStart_snoc (String.rev s) c Hc) as [u' ->].
  rewrite rev_snoc. eauto.
Qed.

Lemma trimStart_length (s : string) :
  (String.length (trimStart s) <= String.length s)%nat.
Proof.
  induction s as [|a s IH]; cbn; [lia |].
  destruct (Ascii.is_space a); cbn; lia.
Qed.

Lemma trim_length (s : string) : (String.length (trim s) <= String.length s)%nat.
Proof.
  unfold trim. rewrite length_rev.
  etransitivity; [apply trimStart_length |].
  rewrite length_rev. apply trimStart_length.
Qed.

End StringFacts.

(** ** Facts about double-precision rounding

    How far the rounded product and the rounded sum of two non-negative
    doubles can lie from the exact result, for results below 128. *)

Module Binary64Facts.
Import SpecFloat Binary64.

Lemma two_pow_pos e : 0 < 2 ^ e.
Proof. apply Qpower_0_lt. reflexivity. Qed.

Lemma two_pow_plus a b : 2 ^ (a + b) == 2 ^ a * 2 ^ b.
Proof. apply Qpower_plus. discriminate. Qed.

Lemma two_pow_le a b : (a <= b)%Z -> 2 ^ a <= 2 ^ b.
Proof. intros H. apply Qpower_le_compat_l; [exact H | discriminate]. Qed.

Lemma two_pow_Z k : (0 <= k)%Z -> inject_Z (2 ^ k) == 2 ^ k.
Proof. intros H. rewrite Zpower_Qpower by exact H. reflexivity. Qed.

Lemma inject_Z_le_iff a b : (a <= b)%Z -> inject_Z a <= inject_Z b.
Proof. intros H. rewrite <- Zle_Qle. exact H. Qed.

(** Shifting right floors. *)
Lemma shifted_value_le m k e :
  (0 <= m)%Z -> (0 <= k)%Z ->
  inject_Z (m / 2 ^ k) * 2 ^ (e + k) <= inject_Z m * 2 ^ e.
Proof.
  intros Hm Hk.
  rewrite two_pow_plus, <- (two_pow_Z k) by exact Hk.
  assert (H : (m / 2 ^ k * 2 ^ k <= m)%Z).
  { rewrite Z.mul_comm. apply Z.mul_div_le. apply Z.pow_pos_nonneg; lia. }
  apply inject_Z_le_iff in H. rewrite inject_Z_mult in H.
  pose proof (two_pow_pos e) as He.
  setoid_replace (inject_Z (m / 2 ^ k) * (2 ^ e * inject_Z (2 ^ k)))
    with (inject_Z (m / 2 ^ k) * inject_Z (2 ^ k) * 2 ^ e)
    using relation Qeq by ring.
  apply Qmult_le_compat_r; [exact H | apply Qlt_le_weak, He].
Qed.

Lemma shr_1_m r :
  (0 <= shr_m r)%Z -> shr_m (shr_1 r) = Z.div2 (shr_m r).
Proof.
  destruct r as [m r s]. cbn [shr_m]. intros H.
  destruct m as [|[p|p|]|p]; try reflexivity; lia.
Qed.

Lemma iter_shr_1 p : forall r,
  (0 <= shr_m r)%Z ->
  shr_m (iter_pos shr_1 p r) = (shr_m r / 2 ^ Zpos p)%Z.
Proof.
  assert (Hhalf : forall r, (0 <= shr_m r)%Z ->
            shr_m (shr_1 r) = (shr_m r / 2)%Z /\ (0 <= shr_m (shr_1 r))%Z).
  { intros r Hr. rewrite shr_1_m by exact Hr. rewrite Z.div2_div.
    split; [reflexivity | apply Z.div_pos; lia]. }
  induction p as [p IH|p IH|]; intros r Hr; cbn [iter_pos].
  - destruct (Hhalf r Hr) as [H1 H1'].
    assert (Hp : (0 < 2 ^ Zpos p)%Z) by (apply Z.pow_pos_nonneg; lia).
    assert (H2 : (0 <= shr_m (iter_pos shr_1 p (shr_1 r)))%Z).
    { rewrite IH by exact H1'. apply Z.div_pos; [exact H1' | exact Hp]. }
    rewrite IH by exact H2. rewrite IH by exact H1'. rewrite H1.
    rewrite !Z.div_div by lia.
    f_equal.
    replace (Zpos p~1) with (Zpos p + Zpos p + 1)%Z by lia.
    rewrite !Z.pow_add_r by lia. change (2 ^ 1)%Z with 2%Z. lia.
  - assert (Hp : (0 < 2 ^ Zpos p)%Z) by (apply Z.pow_pos_nonneg; lia).
    assert (H2 : (0 <= shr_m (iter_pos shr_1 p r))%Z).
    { rewrite IH by exact Hr. apply Z.div_pos; [exact Hr | exact Hp]. }
    rewrite IH by exact H2. rewrite IH by exact Hr.
    rewrite Z.div_div by lia.
    f_equal.
    replace (Zpos p~0) with (Zpos p + Zpos p)%Z by lia.
    rewrite Z.pow_add_r by lia. reflexivity.
  - destruct (Hhalf r Hr) as [H1 _]. rewrite H1. reflexivity.
Qed.


Lemma shr_m_of_loc m l : shr_m (shr_record_of_loc m l) = m.
Proof. destruct l as [|[]]; reflexivity. Qed.

(** [shr_fexp] leaves the number as it is or floors it to the exponent of
    the format. *)
Lemma shr_fexp_cases m e l :
  (0 <= m)%Z ->
  exists r e',
    shr_fexp prec emax m e l = (r, e') /\
    (((fexp prec emax (Zdigits2 m + e) <= e)%Z /\
      r = shr_record_of_loc m l /\ e' = e) \/
     ((e < fexp prec emax (Zdigits2 m + e))%Z /\
      e' = fexp prec emax (Zdigits2 m + e) /\
      shr_m r = (m / 2 ^ (e' - e))%Z)).
Proof.
  intros Hm. unfold shr_fexp, shr.
  destruct (fexp prec emax (Zdigits2 m + e) - e)%Z as [|p|p] eqn:En.
  - eexists _, _. split; [reflexivity |]. left. repeat split. lia.
  - eexists _, _. split; [reflexivity |]. right.
    split; [lia |]. split; [lia |].
    rewrite iter_shr_1 by (rewrite shr_m_of_loc; exact Hm).
    rewrite shr_m_of_loc. f_equal. f_equal. lia.
  - eexists _, _. split; [reflexivity |]. left. repeat split. lia.
Qed.

Lemma shr_fexp_le m e :
  (0 <= m)%Z ->
  exists r e',
    shr_fexp prec emax m e loc_Exact = (r, e') /\
    (0 <= shr_m r)%Z /\
    inject_Z (shr_m r) * 2 ^ e' <= inject_Z m * 2 ^ e.
Proof.
  intros Hm.
  destruct (shr_fexp_cases m e loc_Exact Hm) as (r & e' & Hrun & Hcases).
  exists r, e'. split; [exact Hrun |].
  destruct Hcases as [(_ & -> & ->) | (Hlt & He' & Hr)].
  - cbn [shr_record_of_loc shr_m]. split; [exact Hm | apply Qle_refl].
  - rewrite Hr. split.
    + apply Z.div_pos; [exact Hm | apply Z.pow_pos_nonneg; lia].
    + replace e' with (e + (e' - e))%Z at 2 by lia.
      apply shifted_value_le; lia.
Qed.

Lemma digits2_pos_le m : (2 ^ (Zpos (digits2_pos m) - 1) <= Zpos m)%Z.
Proof.
  induction m as [m IH|m IH|]; cbn [digits2_pos].
  - rewrite Pos2Z.inj_succ.
    replace (Z.succ (Zpos (digits2_pos m)) - 1)%Z
      with (Zpos (digits2_pos m) - 1 + 1)%Z by lia.
    rewrite Z.pow_add_r by lia. change (2 ^ 1)%Z with 2%Z. lia.
  - rewrite Pos2Z.inj_succ.
    replace (Z.succ (Zpos (digits2_pos m)) - 1)%Z
      with (Zpos (digits2_pos m) - 1 + 1)%Z by lia.
    rewrite Z.pow_add_r by lia. change (2 ^ 1)%Z with 2%Z. lia.
  - reflexivity.
Qed.

Lemma value_ge_digits m e :
  2 ^ (Zpos (digits2_pos m) - 1 + e) <= inject_Z (Zpos m) * 2 ^ e.
Proof.
  rewrite two_pow_plus, <- two_pow_Z by lia.
  apply Qmult_le_compat_r;
    [apply inject_Z_le_iff, digits2_pos_le | apply Qlt_le_weak, two_pow_pos].
Qed.

Lemma round_nearest_even_range m l :
  (m <= round_nearest_even m l <= m + 1)%Z.
Proof.
  unfold round_nearest_even. destruct l as [|[]]; try lia.
  destruct (Z.even m); lia.
Qed.

Lemma shifted_value_gt m k e :
  (0 <= m)%Z -> (0 <= k)%Z ->
  inject_Z m * 2 ^ e < (inject_Z (m / 2 ^ k) + 1) * 2 ^ (e + k).
Proof.
  intros Hm Hk.
  rewrite two_pow_plus, <- (two_pow_Z k) by exact Hk.
  assert (Hp : (0 < 2 ^ k)%Z) by (apply Z.pow_pos_nonneg; lia).
  assert (H : (m < (m / 2 ^ k + 1) * 2 ^ k)%Z).
  { pose proof (Z.div_mod m (2 ^ k)) as Hdm.
    pose proof (Z.mod_pos_bound m (2 ^ k) Hp). lia. }
  rewrite Zlt_Qlt, inject_Z_mult, inject_Z_plus in H.
  pose proof (two_pow_pos e) as He.
  setoid_replace ((inject_Z (m / 2 ^ k) + 1) * (2 ^ e * inject_Z (2 ^ k)))
    with ((inject_Z (m / 2 ^ k) + inject_Z 1) * inject_Z (2 ^ k) * 2 ^ e)
    using relation Qeq by (change (inject_Z 1) with 1; ring).
  apply Qmult_lt_compat_r; [exact He | exact H].
Qed.

Lemma exponent_of_small p e b :
  inject_Z (Zpos p) * 2 ^ e < 2 ^ b ->
  (fexp prec emax (Zdigits2 (Zpos p) + e) <= Z.max (b - 53) (-1074))%Z.
Proof.
  intros Hsmall. unfold fexp, emin, prec, emax. cbn [Zdigits2].
  assert (Hd : (Zpos (digits2_pos p) - 1 + e < b)%Z).
  { destruct (Z_lt_le_dec (Zpos (digits2_pos p) - 1 + e) b) as [H | H];
      [exact H | exfalso].
    pose proof (value_ge_digits p e) as Hv.
    pose proof (two_pow_le _ _ H). lra. }
  lia.
Qed.

(** The second [shr_fexp] of [binary_round_aux] and its final test, for a
    mantissa [m2] at exponent [e1] whose value is below 256. *)
Lemma finish_close m2 e1 :
  (0 <= m2)%Z ->
  inject_Z m2 * 2 ^ e1 < 2 ^ 8 ->
  exists z,
    (let '(r2, e2) := shr_fexp prec emax m2 e1 loc_Exact in
     match shr_m r2 with
     | Z0 => S754_zero false
     | Zpos m => if Z.leb e2 (emax - prec) then S754_finite false m e2
                 else S754_infinity false
     | Zneg _ => S754_nan
     end) = z /\
    nonnegative z = true /\
    inject_Z m2 * 2 ^ e1 - 2 ^ (-45) <= value z <= inject_Z m2 * 2 ^ e1.
Proof.
  intros Hm2 Hsmall.
  assert (Hulp : 0 < 2 ^ (-45)) by apply two_pow_pos.
  destruct (shr_fexp_cases m2 e1 loc_Exact Hm2) as (r2 & e2 & -> & Hcases).
  assert (Hr2 : (0 <= shr_m r2)%Z /\
                inject_Z m2 * 2 ^ e1 - 2 ^ (-45) <= inject_Z (shr_m r2) * 2 ^ e2
                <= inject_Z m2 * 2 ^ e1).
  { destruct Hcases as [(_ & -> & ->) | (Hlt & He2 & Hr)].
    - cbn [shr_record_of_loc shr_m]. split; [exact Hm2 | lra].
    - rewrite Hr.
      assert (Hk : (0 <= e2 - e1)%Z) by lia.
      split; [apply Z.div_pos; [exact Hm2 | apply Z.pow_pos_nonneg; lia] |].
      pose proof (shifted_value_le m2 (e2 - e1) e1 Hm2 Hk) as Hle.
      pose proof (shifted_value_gt m2 (e2 - e1) e1 Hm2 Hk) as Hgt.
      replace (e1 + (e2 - e1))%Z with e2 in Hle, Hgt by lia.
      split; [| exact Hle].
      destruct m2 as [|p|p]; [| | lia].
      + rewrite Qmult_0_l. rewrite Zdiv_0_l, Qmult_0_l. lra.
      + assert (He : 2 ^ e2 <= 2 ^ (-45)).
        { apply two_pow_le. rewrite He2.
          pose proof (exponent_of_small p e1 8 Hsmall). lia. }
        lra. }
  destruct Hr2 as (Hnonneg & Hlow & Hup).
  destruct (shr_m r2) as [|mf|mf] eqn:Emf; [| | lia].
  - eexists. split; [reflexivity |]. cbn [nonnegative value].
    rewrite Qmult_0_l in Hlow, Hup. split; [reflexivity | lra].
  - destruct (Z.leb e2 (emax - prec)) eqn:Ee.
    + eexists. split; [reflexivity |]. cbn [nonnegative value negb].
      split; [reflexivity | lra].
    + exfalso. apply Z.leb_gt in Ee. unfold emax, prec in Ee.
      assert (H1 : 2 ^ 8 <= 2 ^ e2) by (apply two_pow_le; lia).
      assert (H2 : 2 ^ e2 <= inject_Z (Zpos mf) * 2 ^ e2).
      { rewrite <- (Qmult_1_l (2 ^ e2)) at 1.
        apply Qmult_le_compat_r; [| apply Qlt_le_weak, two_pow_pos].
        change 1 with (inject_Z 1). apply inject_Z_le_iff. lia. }
      lra.
Qed.

(** Rounding a positive number below 128: the result is a non-negative
    double within 2^-44 below and 2^-46 above the number. *)
Lemma binary_round_aux_close m e :
  inject_Z (Zpos m) * 2 ^ e < 2 ^ 7 ->
  nonnegative (binary_round_aux prec emax false (Zpos m) e loc_Exact) = true /\
  inject_Z (Zpos m) * 2 ^ e - 2 ^ (-44)
  <= value (binary_round_aux prec emax false (Zpos m) e loc_Exact)
  <= inject_Z (Zpos m) * 2 ^ e + 2 ^ (-46).
Proof.
  intros Hsmall. unfold binary_round_aux.
  assert (H46 : 0 < 2 ^ (-46)) by apply two_pow_pos.
  assert (H44 : 2 ^ (-46) + 2 ^ (-45) <= 2 ^ (-44)) by (vm_compute; discriminate).
  assert (H8 : 2 ^ 7 + 2 ^ (-46) < 2 ^ 8) by reflexivity.
  destruct (shr_fexp_cases (Zpos m) e loc_Exact) as (r1 & e1 & -> & Hcases);
    [lia |].
  set (m2 := round_nearest_even (shr_m r1) (loc_of_shr_record r1)).
  assert (Hm2 : (0 <= m2)%Z /\
                inject_Z (Zpos m) * 2 ^ e - 2 ^ (-46) <= inject_Z m2 * 2 ^ e1
                <= inject_Z (Zpos m) * 2 ^ e + 2 ^ (-46)).
  { destruct Hcases as [(_ & -> & ->) | (Hlt & He1 & Hr1)].
    - subst m2.
      cbn [shr_record_of_loc shr_m loc_of_shr_record round_nearest_even].
      split; [lia | lra].
    - pose proof (round_nearest_even_range (shr_m r1) (loc_of_shr_record r1))
        as Hrange. fold m2 in Hrange.
      assert (Hk : (0 <= e1 - e)%Z) by lia.
      assert (Hr1' : (0 <= shr_m r1)%Z).
      { rewrite Hr1. apply Z.div_pos; [lia | apply Z.pow_pos_nonneg; lia]. }
      split; [lia |].
      pose proof (shifted_value_le (Zpos m) (e1 - e) e ltac:(lia) Hk) as Hle.
      pose proof (shifted_value_gt (Zpos m) (e1 - e) e ltac:(lia) Hk) as Hgt.
      replace (e + (e1 - e))%Z with e1 in Hle, Hgt by lia.
      rewrite <- Hr1 in Hle, Hgt.
      assert (Hulp : 2 ^ e1 <= 2 ^ (-46)).
      { apply two_pow_le. rewrite He1.
        pose proof (exponent_of_small m e 7 Hsmall). lia. }
      pose proof (two_pow_pos e1) as He1pos.
      assert (Hlow : inject_Z (shr_m r1) * 2 ^ e1 <= inject_Z m2 * 2 ^ e1).
      { apply Qmult_le_compat_r; [| apply Qlt_le_weak, He1pos].
        apply inject_Z_le_iff. lia. }
      assert (Hup : inject_Z m2 * 2 ^ e1 <= (inject_Z (shr_m r1) + 1) * 2 ^ e1).
      { apply Qmult_le_compat_r; [| apply Qlt_le_weak, He1pos].
        change 1 with (inject_Z 1). rewrite <- inject_Z_plus.
        apply inject_Z_le_iff. lia. }
      lra. }
  destruct Hm2 as (Hm2 & Hlow & Hup).
  destruct (finish_close m2 e1 Hm2) as (z & -> & Hz & Hzlow & Hzup); [lra |].
  split; [exact Hz | lra].
Qed.

Lemma iter_xO_pow m d : Zpos (Pos.iter xO m d) = (Zpos m * 2 ^ Zpos d)%Z.
Proof.
  induction d as [|d IH] using Pos.peano_ind.
  - cbn. lia.
  - rewrite Pos.iter_succ, Pos2Z.inj_xO, IH, Pos2Z.inj_succ, Z.pow_succ_r by lia.
    lia.
Qed.

(** Aligning to a smaller exponent keeps the value. *)
Lemma shl_align_value m e e' :
  inject_Z (Zpos (fst (shl_align m e e'))) * 2 ^ snd (shl_align m e e')
  == inject_Z (Zpos m) * 2 ^ e.
Proof.
  unfold shl_align. destruct (e' - e)%Z as [|d|d] eqn:Ed; cbn [fst snd];
    try reflexivity.
  assert (Hp : 2 ^ e == 2 ^ Zpos d * 2 ^ e').
  { rewrite <- two_pow_plus. replace (Zpos d + e')%Z with e by lia. reflexivity. }
  rewrite Hp, iter_xO_pow, inject_Z_mult, two_pow_Z by lia. ring.
Qed.

Lemma shl_align_exponent m e e' :
  (e' <= e)%Z -> snd (shl_align m e e') = e'.
Proof.
  intros H. unfold shl_align.
  destruct (e' - e)%Z as [|d|d] eqn:Ed; cbn [snd]; lia.
Qed.

Lemma binary_round_close m e :
  inject_Z (Zpos m) * 2 ^ e < 2 ^ 7 ->
  nonnegative (binary_round prec emax false m e) = true /\
  inject_Z (Zpos m) * 2 ^ e - 2 ^ (-44)
  <= value (binary_round prec emax false m e)
  <= inject_Z (Zpos m) * 2 ^ e + 2 ^ (-46).
Proof.
  intros Hsmall. unfold binary_round.
  pose proof (shl_align_value m e
                (fexp prec emax (Zpos (digits2_pos m) + e))) as Hv.
  destruct (shl_align m e (fexp prec emax (Zpos (digits2_pos m) + e)))
    as [mz ez]. cbn [fst snd] in Hv.
  rewrite <- Hv in Hsmall |- *.
  apply binary_round_aux_close. exact Hsmall.
Qed.

Lemma value_nonnegative x : nonnegative x = true -> 0 <= value x.
Proof.
  destruct x as [s| | |s m e]; cbn [nonnegative value]; try lra.
  destruct s; [discriminate |]. intros _.
  apply Qmult_le_0_compat; [| apply Qlt_le_weak, two_pow_pos].
  change 0 with (inject_Z 0). apply inject_Z_le_iff. lia.
Qed.

(** A product of non-negative doubles below 128. *)
Lemma mul_close x y :
  nonnegative x = true -> nonnegative y = true ->
  value x * value y < 2 ^ 7 ->
  nonnegative (mul x y) = true /\
  value x * value y - 2 ^ (-44) <= value (mul x y)
  <= value x * value y + 2 ^ (-46).
Proof.
  assert (H46 : 0 < 2 ^ (-46)) by apply two_pow_pos.
  assert (H44 : 0 < 2 ^ (-44)) by apply two_pow_pos.
  destruct x as [sx| | |sx mx ex], y as [sy| | |sy my ey];
    try discriminate; cbn [nonnegative]; intros Hx Hy Hsmall.
  - cbn [mul SFmul nonnegative value]. split; [reflexivity |].
    rewrite Qmult_0_l. lra.
  - cbn [mul SFmul nonnegative value]. split; [reflexivity |].
    rewrite Qmult_0_l. lra.
  - cbn [mul SFmul nonnegative value]. split; [reflexivity |].
    rewrite Qmult_0_r. lra.
  - destruct sx, sy; try discriminate.
    cbn [mul SFmul xorb value] in *.
    assert (Hv : inject_Z (Zpos (mx * my)) * 2 ^ (ex + ey) ==
                 inject_Z (Zpos mx) * 2 ^ ex * (inject_Z (Zpos my) * 2 ^ ey)).
    { rewrite Pos2Z.inj_mul, inject_Z_mult, two_pow_plus. ring. }
    rewrite <- Hv in Hsmall |- *.
    apply binary_round_aux_close. exact Hsmall.
Qed.

(** A sum of non-negative doubles below 128. *)
Lemma add_close x y :
  nonnegative x = true -> nonnegative y = true ->
  value x + value y < 2 ^ 7 ->
  nonnegative (add x y) = true /\
  value x + value y - 2 ^ (-44) <= value (add x y)
  <= value x + value y + 2 ^ (-46).
Proof.
  assert (H46 : 0 < 2 ^ (-46)) by apply two_pow_pos.
  assert (H44 : 0 < 2 ^ (-44)) by apply two_pow_pos.
  destruct x as [sx| | |sx mx ex], y as [sy| | |sy my ey];
    try discriminate; cbn [nonnegative]; intros Hx Hy Hsmall.
  - destruct sx, sy; cbn [add SFadd nonnegative value];
      (split; [reflexivity | lra]).
  - cbn [add SFadd nonnegative value]. split; [exact Hy | lra].
  - cbn [add SFadd nonnegative value]. split; [exact Hx | lra].
  - destruct sx, sy; try discriminate.
    cbn [add SFadd cond_Zopp value] in *.
    pose proof (shl_align_value mx ex (Z.min ex ey)) as Hvx.
    pose proof (shl_align_value my ey (Z.min ex ey)) as Hvy.
    rewrite shl_align_exponent in Hvx by lia.
    rewrite shl_align_exponent in Hvy by lia.
    cbn [Z.add binary_normalize].
    assert (Hv : inject_Z (Zpos (fst (shl_align mx ex (Z.min ex ey)) +
                                 fst (shl_align my ey (Z.min ex ey)))) *
                 2 ^ Z.min ex ey ==
                 inject_Z (Zpos mx) * 2 ^ ex + inject_Z (Zpos my) * 2 ^ ey).
    { rewrite Pos2Z.inj_add, inject_Z_plus, <- Hvx, <- Hvy. ring. }
    rewrite <- Hv in Hsmall |- *.
    apply binary_round_close. exact Hsmall.
Qed.

End Binary64Facts.

(** * The weighted score in double precision *)

Module DoublesProofs.
Import SpecFloat Binary64 PRScorerDoubles DoublesSpec Binary64Facts.

(** The double that [calculateWeightedScore] returns lies within 9 * 2^-44
    below and 9 * 2^-46 above the exact weighted sum: nine operations, each
    rounded once. *)
Lemma weighted_sum_close weights scores :
  each weight weights -> each percentage scores ->
  sumOfWeights weights <= 1 + 2 ^ (-50) ->
  nonnegative (calculateWeightedScore weights scores) = true /\
  exactWeightedScore weights scores - 9 * 2 ^ (-44)
  <= value (calculateWeightedScore weights scores)
  <= exactWeightedScore weights scores + 9 * 2 ^ (-46).
Proof.
  intros (W1 & W2 & W3 & W4 & W5)
    ((S1 & L1) & (S2 & L2) & (S3 & L3) & (S4 & L4) & S5 & L5) Hsum.
  unfold exactWeightedScore, PRScorer.calculateWeightedScore, exactWeights,
    exactScores, calculateWeightedScore, sumOfWeights in *.
  cbv zeta.
  cbn [PRScorer.weights PRScorer.score PRScorer.codeQuality PRScorer.testing
       PRScorer.performance PRScorer.security PRScorer.documentation
       PRScorer.weight_codeQuality PRScorer.weight_testing
       PRScorer.weight_performance PRScorer.weight_security
       PRScorer.weight_documentation].
  destruct weights as [w1 w2 w3 w4 w5], scores as [s1 s2 s3 s4 s5].
  cbn [codeQuality testing performance security documentation] in *.
  pose proof (value_nonnegative _ W1) as V1.
  pose proof (value_nonnegative _ W2) as V2.
  pose proof (value_nonnegative _ W3) as V3.
  pose proof (value_nonnegative _ W4) as V4.
  pose proof (value_nonnegative _ W5) as V5.
  pose proof (value_nonnegative _ S1) as A1.
  pose proof (value_nonnegative _ S2) as A2.
  pose proof (value_nonnegative _ S3) as A3.
  pose proof (value_nonnegative _ S4) as A4.
  pose proof (value_nonnegative _ S5) as A5.
  pose proof (Qmult_le_compat_r _ _ _ L1 V1) as P1.
  pose proof (Qmult_le_compat_r _ _ _ L2 V2) as P2.
  pose proof (Qmult_le_compat_r _ _ _ L3 V3) as P3.
  pose proof (Qmult_le_compat_r _ _ _ L4 V4) as P4.
  pose proof (Qmult_le_compat_r _ _ _ L5 V5) as P5.
  pose proof (Qmult_le_0_compat _ _ A1 V1) as N1.
  pose proof (Qmult_le_0_compat _ _ A2 V2) as N2.
  pose proof (Qmult_le_0_compat _ _ A3 V3) as N3.
  pose proof (Qmult_le_0_compat _ _ A4 V4) as N4.
  pose proof (Qmult_le_0_compat _ _ A5 V5) as N5.
  assert (H7 : forall q, q < 128 -> q < 2 ^ 7) by (intros q Hq; exact Hq).
  assert (U46 : 0 < 2 ^ (-46) /\ 2 ^ (-46) <= 1 # 1000)
    by (split; [reflexivity | vm_compute; discriminate]).
  assert (U44 : 0 < 2 ^ (-44) /\ 2 ^ (-44) <= 1 # 1000)
    by (split; [reflexivity | vm_compute; discriminate]).
  assert (U50 : 2 ^ (-50) <= 1 # 1000) by (vm_compute; discriminate).
  set (u46 := 2 ^ (-46)) in *. set (u44 := 2 ^ (-44)) in *.
  set (u50 := 2 ^ (-50)) in *.
  destruct (mul_close s1 w1 S1 W1) as (M1 & M1l & M1u); [apply H7; lra |].
  destruct (mul_close s2 w2 S2 W2) as (M2 & M2l & M2u); [apply H7; lra |].
  destruct (mul_close s3 w3 S3 W3) as (M3 & M3l & M3u); [apply H7; lra |].
  destruct (mul_close s4 w4 S4 W4) as (M4 & M4l & M4u); [apply H7; lra |].
  destruct (mul_close s5 w5 S5 W5) as (M5 & M5l & M5u); [apply H7; lra |].
  fold u46 u44 in M1l, M1u, M2l, M2u, M3l, M3u, M4l, M4u, M5l, M5u.
  destruct (add_close _ _ M1 M2) as (B1 & B1l & B1u); [apply H7; lra |].
  fold u46 u44 in B1l, B1u.
  destruct (add_close _ _ B1 M3) as (B2 & B2l & B2u); [apply H7; lra |].
  fold u46 u44 in B2l, B2u.
  destruct (add_close _ _ B2 M4) as (B3 & B3l & B3u); [apply H7; lra |].
  fold u46 u44 in B3l, B3u.
  destruct (add_close _ _ B3 M5) as (B4 & B4l & B4u); [apply H7; lra |].
  fold u46 u44 in B4l, B4u.
  split; [exact B4 | lra].
Qed.

Lemma sumToOne_upper weights :
  sumToOne weights -> sumOfWeights weights <= 1 + 2 ^ (-50).
Proof.
  unfold sumToOne. intros H. apply Qabs_Qle_condition in H. lra.
Qed.

(** C4 (as amended). With five weights that are not negative and sum to 1,
    and five sub-scores in [0,100], the double that
    [calculateWeightedScore] returns is finite, not negative, and at most
    100 + 10^-12. *)
Theorem weighted_score_in_range_up_to_rounding weights scores :
  each weight weights -> sumToOne weights -> each percentage scores ->
  nonnegative (calculateWeightedScore weights scores) = true /\
  0 <= value (calculateWeightedScore weights scores)
    <= 100 + (1 # 1000000000000).
Proof.
  intros Hweights Hsum Hscores.
  apply sumToOne_upper in Hsum.
  destruct (weighted_sum_close weights scores Hweights Hscores Hsum)
    as (Hnonneg & _ & Hupper).
  split; [exact Hnonneg |]. split; [apply value_nonnegative, Hnonneg |].
  assert (Hexact : exactWeightedScore weights scores <= 100 * sumOfWeights weights).
  { destruct Hweights as (W1 & W2 & W3 & W4 & W5).
    destruct Hscores as ((_ & L1) & (_ & L2) & (_ & L3) & (_ & L4) & _ & L5).
    unfold exactWeightedScore, PRScorer.calculateWeightedScore, exactWeights,
      exactScores, sumOfWeights.
    cbv zeta.
    cbn [PRScorer.weights PRScorer.score PRScorer.codeQuality PRScorer.testing
         PRScorer.performance PRScorer.security PRScorer.documentation
         PRScorer.weight_codeQuality PRScorer.weight_testing
         PRScorer.weight_performance PRScorer.weight_security
         PRScorer.weight_documentation].
    pose proof (Qmult_le_compat_r _ _ _ L1 (value_nonnegative _ W1)).
    pose proof (Qmult_le_compat_r _ _ _ L2 (value_nonnegative _ W2)).
    pose proof (Qmult_le_compat_r _ _ _ L3 (value_nonnegative _ W3)).
    pose proof (Qmult_le_compat_r _ _ _ L4 (value_nonnegative _ W4)).
    pose proof (Qmult_le_compat_r _ _ _ L5 (value_nonnegative _ W5)).
    lra. }
  assert (Hslack : 100 * 2 ^ (-50) + 9 * 2 ^ (-46) <= 1 # 1000000000000)
    by (vm_compute; discriminate).
  set (u46 := 2 ^ (-46)) in *. set (u50 := 2 ^ (-50)) in *. lra.
Qed.

(** The documented weights 0.30, 0.25, 0.20, 0.15, 0.10 with every
    sub-score at 100. *)
Lemma default_weights_stay_in_range :
  nonnegative (calculateWeightedScore defaultWeights fullScores) = true /\
  0 <= value (calculateWeightedScore defaultWeights fullScores)
    <= 100 + (1 # 1000000000000).
Proof.
  apply weighted_score_in_range_up_to_rounding.
  - repeat split; vm_compute; reflexivity.
  - vm_compute. discriminate.
  - repeat split; vm_compute; (reflexivity || discriminate).
Defined.

(** C4, as stated, fails. The three weights 0.9391491627785106,
    0.02319659701570738 and 0.03765424020578205 are not negative and their
    exact sum is 1; with every sub-score at 100 the code returns
    100.00000000000001, that is 100 + 2^-46. *)
Lemma weighted_score_exceeds_100_by_rounding :
  each weight unevenWeights /\
  sumOfWeights unevenWeights == 1 /\
  each percentage fullScores /\
  value (calculateWeightedScore unevenWeights fullScores) == 100 + 2 ^ (-46) /\
  100 < value (calculateWeightedScore unevenWeights fullScores).
Proof.
  split; [repeat split; vm_compute; reflexivity |].
  split; [vm_compute; reflexivity |].
  split; [repeat split; vm_compute; (reflexivity || discriminate) |].
  split; vm_compute; reflexivity.
Qed.

(** Nothing in the code rejects a negative weight: weights 2, -1, 0, 0, 0
    sum to 1 and give 200 for the sub-scores 100, 0, 0, 0, 0. *)
Example negative_weight_escapes :
  sumOfWeights skewedWeights == 1 /\
  each percentage lopsidedScores /\
  value (calculateWeightedScore skewedWeights lopsidedScores) == 200.
Proof.
  split; [vm_compute; reflexivity |].
  split; [repeat split; vm_compute; (reflexivity || discriminate) |].
  vm_compute. reflexivity.
Qed.

(** The product with 0.7 in the naming check of the quality rubric: 90 * 0.7
    is rounded to 62.99999999999999, so 63 descriptive names of 90 exceed
    it, while 7 of 10 do not exceed 10 * 0.7 = 7. *)
Example seventy_percent_of_ninety_rounds_down :
  exceedsShare 63 90 (decimal 7 10) = true /\
  exceedsShare 7 10 (decimal 7 10) = false /\
  value (mul (of_nat 90) (decimal 7 10)) < 63.
Proof. repeat split; vm_compute; reflexivity. Qed.

End DoublesProofs.

(** * Properties of the scorer *)

Module ScorerProofs.
Import JS GitHub PRScorer ScorerSpec NumberFacts.

Ltac run_scorer :=
  unfold scoreCodeQuality, scoreTesting, scorePerformance,
    scoreSecurity, scoreDocumentation, getDefaultScore,
    analyzeTestCoverage, countTestFiles, checkTestStatus,
    analyzeEdgeCaseCoverage, analyzePerformanceBenchmarks, detectOptimizations,
    scanSecurityVulnerabilities, analyzeSecurityPractices,
    analyzeInputValidation, analyzeErrorHandling,
    try_catch, bind, ret, lift, getPRFiles, Math_random, core_warning,
    core_setFailed, Date_now.

Local Arguments clamp : simpl never.
Local Arguments testingTotal : simpl never.
Local Arguments performanceTotal : simpl never.
Local Arguments securityTotal : simpl never.
Local Arguments documentationTotal : simpl never.
Local Arguments codeQualityTotal : simpl never.
Local Arguments Qmult : simpl never.
Local Arguments Qplus : simpl never.

Lemma scoreCodeQuality_run codeAnalyzer pr w :
  exists msgs,
  scoreCodeQuality codeAnalyzer pr w =
  match fetch pr w 0 with
  | Ok files =>
      (Ok (mkSubScore (codeQualityOutcome codeAnalyzer files) codeQualityDetails),
       advance 0 1 msgs w)
  | Throw e => (Throw e, advance 0 1 [] w)
  end.
Proof.
  destruct w as [rnd d lf c nw ws fs].
  unfold fetch, draw, advance, codeQualityOutcome. simpl.
  run_scorer. simpl.
  destruct (lf c (number pr)) as [files|e]; [| exists []; reflexivity].
  destruct (analyzeComplexity codeAnalyzer files) as [?|e1];
    [| exists ["Code quality analysis failed: " +:+ e1]; reflexivity].
  destruct (checkCodingStandards codeAnalyzer files) as [?|e1];
    [| exists ["Code quality analysis failed: " +:+ e1]; reflexivity].
  destruct (detectDuplication codeAnalyzer files) as [?|e1];
    [| exists ["Code quality analysis failed: " +:+ e1]; reflexivity].
  destruct (calculateMaintainability codeAnalyzer files) as [?|e1];
    [| exists ["Code quality analysis failed: " +:+ e1]; reflexivity].
  exists []; reflexivity.
Qed.

Lemma scoreTesting_run pr w :
  scoreTesting pr w =
  match fetch pr w 0 with
  | Ok files =>
      (Ok (mkSubScore
             (clamp (testingTotal (draw w 0 * 40 + 60) (testFileCount files)
                       (Qgtb (draw w 1) 0.1) (Math_floor (draw w 2 * 5))))
             testingDetails),
       advance 3 1 [] w)
  | Throw e =>
      (Ok (mkSubScore 60 testingDetails),
       advance 1 1 ["Testing analysis failed: " +:+ e] w)
  end.
Proof.
  destruct w as [rnd d lf c nw ws fs].
  unfold fetch, draw, advance. simpl. run_scorer. simpl.
  destruct (lf c (number pr)); reflexivity.
Qed.

Lemma scorePerformance_run pr w :
  scorePerformance pr w =
  match fetch pr w 0 with
  | Ok files =>
      (Ok (mkSubScore
             (clamp (performanceTotal (draw w 0 * 30 + 70) (optimizationScore files)))
             performanceDetails),
       advance 1 1 [] w)
  | Throw e =>
      (Ok (mkSubScore 70 performanceDetails),
       advance 1 1 ["Performance analysis failed: " +:+ e] w)
  end.
Proof.
  destruct w as [rnd d lf c nw ws fs].
  unfold fetch, draw, advance. simpl. run_scorer. simpl.
  destruct (lf c (number pr)); reflexivity.
Qed.

Lemma scoreSecurity_run pr w :
  scoreSecurity pr w =
  match fetch pr w 0 with
  | Ok validationFiles =>
      match fetch pr w 1 with
      | Ok errorFiles =>
          (Ok (mkSubScore
                 (clamp (securityTotal (Math_floor (draw w 0 * 3))
                           (draw w 1 * 30 + 70)
                           (validationScore validationFiles)
                           (errorScore errorFiles)))
                 securityDetails),
           advance 2 2 [] w)
      | Throw e =>
          (Ok (mkSubScore 80 securityDetails),
           advance 2 2 ["Security analysis failed: " +:+ e] w)
      end
  | Throw e =>
      (Ok (mkSubScore 80 securityDetails),
       advance 2 1 ["Security analysis failed: " +:+ e] w)
  end.
Proof.
  destruct w as [rnd d lf c nw ws fs].
  unfold fetch, draw, advance. simpl. run_scorer. simpl.
  destruct (lf c (number pr)); simpl; [| reflexivity].
  destruct (lf (S c) (number pr)); reflexivity.
Qed.

Lemma scoreDocumentation_run pr w :
  scoreDocumentation pr w =
  match fetch pr w 0 with
  | Ok files =>
      (Ok (mkSubScore (clamp (documentationTotal files)) documentationDetails),
       advance 0 1 [] w)
  | Throw e =>
      (Ok (mkSubScore 60 documentationDetails),
       advance 0 1 ["Documentation analysis failed: " +:+ e] w)
  end.
Proof.
  destruct w as [rnd d lf c nw ws fs].
  unfold fetch, draw, advance. simpl. run_scorer. simpl.
  destruct (lf c (number pr)); reflexivity.
Qed.

(** [scorePR] always returns, and what it returns is [reportOutcome]; when
    the code-quality fetch is answered no failure is reported, and each
    failed fetch leaves its warning. *)
Lemma scorePR_run codeAnalyzer config pr w :
  exists w',
    scorePR codeAnalyzer config pr w =
      (Ok (reportOutcome codeAnalyzer config pr w), w') /\
    (is_Ok (fetch pr w 0) = true ->
     failures w' = failures w /\
     (forall e, fetch pr w 1 = Throw e ->
                In ("Testing analysis failed: " +:+ e) (warnings w')) /\
     (forall e, fetch pr w 2 = Throw e ->
                In ("Performance analysis failed: " +:+ e) (warnings w')) /\
     (forall e, fetch pr w 3 = Throw e ->
                In ("Security analysis failed: " +:+ e) (warnings w')) /\
     (forall e, is_Ok (fetch pr w 3) = true -> fetch pr w 4 = Throw e ->
                In ("Security analysis failed: " +:+ e) (warnings w')) /\
     (forall e, fetch pr w (if is_Ok (fetch pr w 3) then 5 else 4) = Throw e ->
                In ("Documentation analysis failed: " +:+ e) (warnings w'))).
Proof.
  unfold scorePR, try_catch, bind.
  destruct (scoreCodeQuality_run codeAnalyzer pr w) as [msgs ->].
  unfold reportOutcome, scoresOutcome, testingOutcome, performanceOutcome,
    securityOutcome, documentationOutcome, drawsAfterTesting.
  destruct w as [rnd d lf c nw ws fs].
  unfold fetch. simpl.
  destruct (lf c (number pr)) as [files|e]; simpl.
  2: { eexists; split; [reflexivity | discriminate]. }
  destruct (lf (S c) (number pr)) as [f1|e1] eqn:F1;
    destruct (lf (S (S c)) (number pr)) as [f2|e2] eqn:F2;
    destruct (lf (S (S (S c))) (number pr)) as [f3|e3] eqn:F3;
    destruct (lf (S (S (S (S c)))) (number pr)) as [f4|e4] eqn:F4;
    destruct (lf (S (S (S (S (S c))))) (number pr)) as [f5|e5] eqn:F5.
  all: rewrite scoreTesting_run; unfold fetch, draw, advance; simpl;
    rewrite F1; simpl.
  all: rewrite scorePerformance_run; unfold fetch, draw, advance; simpl;
    rewrite F2; simpl.
  all: rewrite scoreSecurity_run; unfold fetch, draw, advance; simpl;
    rewrite F3; simpl; rewrite ?F4; simpl.
  all: rewrite scoreDocumentation_run; unfold fetch, draw, advance; simpl;
    rewrite ?F4, ?F5; simpl.
  all: eexists; split; [reflexivity |]; intros _; simpl.
  all: repeat split; intros; try discriminate; simplify_eq; simpl; auto 10.
Qed.


Lemma Math_min_le_r x y : Math_min x y <= y.
Proof. apply Q.le_min_r. Qed.

Lemma testingTotal_le_61 coverage testFiles testsPassing edgeCases :
  testingTotal coverage testFiles testsPassing edgeCases <= 61.
Proof.
  unfold testingTotal.
  pose proof (Math_min_le_r (coverage * 1.25) 100).
  pose proof (Math_min_le_r (testFiles * 20) 30).
  pose proof (Math_min_le_r (edgeCases * 10) 30).
  destruct testsPassing; lra.
Qed.

Lemma clamp_bounds x : 0 <= clamp x <= 100.
Proof.
  unfold clamp, Math_max, Math_min. split.
  - apply Q.le_max_l.
  - apply Q.max_lub; [lra | apply Q.le_min_l].
Qed.

Lemma clamp_le x b : 0 <= b -> x <= b -> clamp x <= b.
Proof.
  intros Hb Hx. unfold clamp, Math_max, Math_min.
  apply Q.max_lub; [exact Hb |].
  eapply Qle_trans; [apply Q.le_min_r | exact Hx].
Qed.

Lemma testingOutcome_le_61 pr w : testingOutcome pr w <= 61.
Proof.
  unfold testingOutcome. destruct (fetch pr w 1).
  - apply clamp_le; [lra | apply testingTotal_le_61].
  - lra.
Qed.

(** The report of the example pull request when every call is answered and
    every draw is 1/2. *)
Example healthy_report :
  exists report w',
    scorePR exampleAnalyzer defaultConfig examplePR (healthyWorld 0.5) =
      (Ok report, w') /\
    score (codeQuality (scores report)) == 100 /\
    score (testing (scores report)) == 54 /\
    score (performance (scores report)) == 65.5 /\
    score (security (scores report)) == 59.5 /\
    score (documentation (scores report)) == 20 /\
    weightedScore report == 67.525 /\
    meets_overall (meetsThresholds report) = false /\
    calls w' = 6%nat /\ draws w' = 6%nat.
Proof.
  eexists. eexists. split; [vm_compute; reflexivity |].
  vm_compute. repeat split; (discriminate || reflexivity).
Qed.

(** C8. The blend of lines 122-127 never exceeds 61, whatever the four
    metrics are; every report of [scorePR] therefore carries a testing score
    of at most 61, and a testing minimum above 61 is never met. *)
Theorem testing_score_at_most_61 :
  (forall coverage testFiles testsPassing edgeCases,
      testingTotal coverage testFiles testsPassing edgeCases <= 61) /\
  (forall codeAnalyzer config pr w,
      exists report w',
        scorePR codeAnalyzer config pr w = (Ok report, w') /\
        score (testing (scores report)) <= 61 /\
        (61 < testingMin (thresholds config) ->
         meets_testing (meetsThresholds report) = false)).
Proof.
  split; [exact testingTotal_le_61 |].
  intros codeAnalyzer config pr w.
  destruct (scorePR_run codeAnalyzer config pr w) as (w' & Hrun & _).
  exists (reportOutcome codeAnalyzer config pr w), w'.
  split; [exact Hrun |].
  unfold reportOutcome. destruct (fetch pr w 0) as [files|e]; simpl.
  - split; [apply testingOutcome_le_61 |].
    intros Hmin. apply Qgeb_false.
    pose proof (testingOutcome_le_61 pr w). lra.
  - split; [lra | reflexivity].
Qed.

(** With the documented minimum of 70 the testing verdict is false. *)
Lemma testing_minimum_70_is_never_met :
  61 < testingMin (thresholds defaultConfig) /\
  exists report w',
    scorePR exampleAnalyzer defaultConfig examplePR (healthyWorld 0.99) =
      (Ok report, w') /\
    meets_testing (meetsThresholds report) = false.
Proof.
  split; [reflexivity |].
  destruct (proj2 testing_score_at_most_61 exampleAnalyzer defaultConfig
              examplePR (healthyWorld 0.99)) as (report & w' & Hrun & _ & Hmin).
  exists report, w'. split; [exact Hrun | apply Hmin; reflexivity].
Defined.

(** C1 (as amended). When the files of the code-quality criterion are
    fetched, [scorePR] returns a full report without reporting a failure.
    Each criterion whose own analysis fails carries its own default (code
    quality 50, testing 60, performance 70, security 80, documentation 60)
    under its usual details text, the failure being logged as a warning;
    every other criterion carries the score its formula gives
    ([scoresOutcome]). *)
Theorem sub_score_failure_is_contained codeAnalyzer config pr w files :
  fetch pr w 0 = Ok files ->
  exists report w',
    scorePR codeAnalyzer config pr w = (Ok report, w') /\
    failures w' = failures w /\
    scores report = scoresOutcome codeAnalyzer pr w files /\
    weightedScore report = calculateWeightedScore config (scores report) /\
    (is_Ok (analyzeComplexity codeAnalyzer files) = false ->
     score (codeQuality (scores report)) = 50) /\
    (forall e, fetch pr w 1 = Throw e ->
       score (testing (scores report)) = 60 /\
       In ("Testing analysis failed: " +:+ e) (warnings w')) /\
    (forall e, fetch pr w 2 = Throw e ->
       score (performance (scores report)) = 70 /\
       In ("Performance analysis failed: " +:+ e) (warnings w')) /\
    (forall e,
       fetch pr w 3 = Throw e \/
       (is_Ok (fetch pr w 3) = true /\ fetch pr w 4 = Throw e) ->
       score (security (scores report)) = 80 /\
       In ("Security analysis failed: " +:+ e) (warnings w')) /\
    (forall e,
       fetch pr w (if is_Ok (fetch pr w 3) then 5 else 4) = Throw e ->
       score (documentation (scores report)) = 60 /\
       In ("Documentation analysis failed: " +:+ e) (warnings w')).
Proof.
  intros Hfiles.
  destruct (scorePR_run codeAnalyzer config pr w) as (w' & Hrun & Hlog).
  destruct Hlog as (Hfail & HwT & HwP & HwS1 & HwS2 & HwD);
    [rewrite Hfiles; reflexivity |].
  exists (reportOutcome codeAnalyzer config pr w), w'.
  split; [exact Hrun |]. split; [exact Hfail |].
  unfold reportOutcome. rewrite Hfiles. simpl.
  split; [reflexivity |]. split; [reflexivity |].
  unfold codeQualityOutcome, testingOutcome, performanceOutcome,
    securityOutcome, documentationOutcome.
  split; [| split; [| split; [| split]]].
  - destruct (analyzeComplexity codeAnalyzer files); [discriminate | reflexivity].
  - intros e He. split; [rewrite He; reflexivity | apply HwT, He].
  - intros e He. split; [rewrite He; reflexivity | apply HwP, He].
  - intros e [He | [Hok He]].
    + split; [rewrite He; reflexivity | apply HwS1, He].
    + split; [| apply HwS2; assumption].
      destruct (fetch pr w 3); [| reflexivity]. rewrite He. reflexivity.
  - intros e He. split; [rewrite He; reflexivity | apply HwD, He].
Qed.

(** A platform that answers the first call only: the report is complete,
    the testing record carries 60 and the failure is in the log. *)
Lemma flaky_platform_degrades_four_criteria :
  fetch examplePR flakyWorld 0 = Ok exampleFiles /\
  fetch examplePR flakyWorld 1 = Throw "connect ETIMEDOUT" /\
  exists report w',
    scorePR exampleAnalyzer defaultConfig examplePR flakyWorld = (Ok report, w') /\
    failures w' = [] /\
    score (testing (scores report)) = 60 /\
    In "Testing analysis failed: connect ETIMEDOUT" (warnings w').
Proof.
  split; [reflexivity |]. split; [reflexivity |].
  destruct (sub_score_failure_is_contained exampleAnalyzer defaultConfig
              examplePR flakyWorld exampleFiles eq_refl)
    as (report & w' & Hrun & Hfail & _ & _ & _ & Htesting & _).
  exists report, w'. split; [exact Hrun |]. split; [exact Hfail |].
  apply (Htesting "connect ETIMEDOUT"). reflexivity.
Defined.

(** C1, as stated, fails: when the fetch made for the testing criterion
    fails, the testing record carries 60, not 50, under its usual details
    text; performance, security and documentation fall back to 70, 80
    and 60. *)
Lemma failed_testing_falls_back_to_60 :
  exists report w',
    scorePR exampleAnalyzer defaultConfig examplePR flakyWorld = (Ok report, w') /\
    is_Ok (fetch examplePR flakyWorld 1) = false /\
    score (testing (scores report)) = 60 /\
    ~ score (testing (scores report)) == 50 /\
    details (testing (scores report)) = testingDetails /\
    score (performance (scores report)) = 70 /\
    score (security (scores report)) = 80 /\
    score (documentation (scores report)) = 60.
Proof.
  destruct (scorePR_run exampleAnalyzer defaultConfig examplePR flakyWorld)
    as (w' & Hrun & _).
  eexists. exists w'. split; [exact Hrun |].
  vm_compute. repeat split; (discriminate || reflexivity).
Qed.

(** C3 (as amended). The report is a function of the configuration, the
    analyzer, the next six answers of the platform and the next six values
    of [Math.random]: two runs that agree on these produce the same
    sub-scores, the same weighted score and the same verdict. *)
Theorem scorePR_deterministic_given_draws codeAnalyzer config pr w1 w2 :
  (forall k, (k < 6)%nat -> fetch pr w1 k = fetch pr w2 k) ->
  (forall k, (k < 6)%nat -> draw w1 k = draw w2 k) ->
  exists report1 report2 v1 v2,
    scorePR codeAnalyzer config pr w1 = (Ok report1, v1) /\
    scorePR codeAnalyzer config pr w2 = (Ok report2, v2) /\
    scores report1 = scores report2 /\
    weightedScore report1 = weightedScore report2 /\
    meetsThresholds report1 = meetsThresholds report2.
Proof.
  intros Hfetch Hdraw.
  destruct (scorePR_run codeAnalyzer config pr w1) as (v1 & Hrun1 & _).
  destruct (scorePR_run codeAnalyzer config pr w2) as (v2 & Hrun2 & _).
  exists (reportOutcome codeAnalyzer config pr w1),
         (reportOutcome codeAnalyzer config pr w2), v1, v2.
  split; [exact Hrun1 |]. split; [exact Hrun2 |].
  assert (Hscores : forall files,
             scoresOutcome codeAnalyzer pr w1 files =
             scoresOutcome codeAnalyzer pr w2 files).
  { intros files.
    unfold scoresOutcome, testingOutcome, performanceOutcome, securityOutcome,
      documentationOutcome, drawsAfterTesting.
    rewrite (Hfetch 1%nat), (Hfetch 2%nat), (Hfetch 3%nat), (Hfetch 4%nat) by lia.
    rewrite (Hdraw 0%nat), (Hdraw 1%nat), (Hdraw 2%nat) by lia.
    destruct (fetch pr w2 1); destruct (fetch pr w2 3); simpl;
      rewrite ?(Hfetch 4%nat), ?(Hfetch 5%nat) by lia;
      rewrite ?(Hdraw 1%nat), ?(Hdraw 2%nat), ?(Hdraw 3%nat), ?(Hdraw 4%nat),
        ?(Hdraw 5%nat) by lia;
      reflexivity. }
  unfold reportOutcome. rewrite (Hfetch 0%nat) by lia.
  destruct (fetch pr w2 0) as [files|e]; simpl.
  - rewrite Hscores. repeat split.
  - repeat split.
Qed.

(** Two streams of draws that agree on the first six values. *)
Lemma first_six_draws_decide_the_report :
  exists report1 report2 v1 v2,
    scorePR exampleAnalyzer defaultConfig examplePR (healthyWorld 0.5) =
      (Ok report1, v1) /\
    scorePR exampleAnalyzer defaultConfig examplePR (lateChangeWorld 0.5) =
      (Ok report2, v2) /\
    scores report1 = scores report2 /\
    weightedScore report1 = weightedScore report2 /\
    meetsThresholds report1 = meetsThresholds report2.
Proof.
  apply (scorePR_deterministic_given_draws exampleAnalyzer defaultConfig
           examplePR (healthyWorld 0.5) (lateChangeWorld 0.5)).
  - intros k _. reflexivity.
  - intros k Hk. unfold draw. simpl. rewrite Nat.add_0_r.
    apply Nat.ltb_lt in Hk. rewrite Hk. reflexivity.
Defined.

(** C3, as stated, fails: with the same configuration and the same file
    data, a run whose draws are all 0 and a run whose draws are all 1/2
    produce different testing scores and different weighted scores. *)
Lemma same_files_different_draws_differ :
  exists report1 report2 v1 v2,
    scorePR exampleAnalyzer defaultConfig examplePR (healthyWorld 0) =
      (Ok report1, v1) /\
    scorePR exampleAnalyzer defaultConfig examplePR (healthyWorld 0.5) =
      (Ok report2, v2) /\
    listFiles (healthyWorld 0) = listFiles (healthyWorld 0.5) /\
    score (testing (scores report1)) == 30 /\
    score (testing (scores report2)) == 54 /\
    ~ weightedScore report1 == weightedScore report2.
Proof.
  destruct (scorePR_run exampleAnalyzer defaultConfig examplePR (healthyWorld 0))
    as (v1 & Hrun1 & _).
  destruct (scorePR_run exampleAnalyzer defaultConfig examplePR (healthyWorld 0.5))
    as (v2 & Hrun2 & _).
  eexists. eexists. exists v1, v2.
  split; [exact Hrun1 |]. split; [exact Hrun2 |].
  vm_compute. repeat split; (discriminate || reflexivity).
Qed.

End ScorerProofs.

(** * Properties of the feature detector *)

Module DetectorProofs.
Import JS GitHub FeatureDetector DetectorSpec NumberFacts.

Section Symmetry.
Variable similarity : string -> string -> Q.
Hypothesis similarity_sym : forall a b, similarity a b == similarity b a.
Variable RegExp : Type.
Variable RegExp_new : string -> result RegExp.
Variable group1 : RegExp -> string -> option (option string).
Variable config : FeatureDetection.
Variable platform : Platform.

Lemma isBranchRelated_from_sym patterns branch1 branch2 :
  isBranchRelated_from similarity RegExp RegExp_new group1 patterns branch1 branch2 =
  isBranchRelated_from similarity RegExp RegExp_new group1 patterns branch2 branch1.
Proof.
  induction patterns as [|pattern rest IH]; simpl; [reflexivity |].
  destruct (RegExp_new (replaceStar pattern)) as [regex|e]; [| reflexivity].
  destruct (group1 regex branch1) as [[c1|]|], (group1 regex branch2) as [[c2|]|];
    try reflexivity; try exact IH.
  rewrite (Qgtb_Qeq _ _ _ (similarity_sym (toLowerCase c1) (toLowerCase c2))).
  rewrite IH. reflexivity.
Qed.

Lemma areLabelsRelated_sym pr1 pr2 :
  areLabelsRelated config platform pr1 pr2 = areLabelsRelated config platform pr2 pr1.
Proof.
  unfold areLabelsRelated, some.
  induction (labelKeywords config) as [|keyword rest IH]; simpl; [reflexivity |].
  rewrite IH. f_equal. apply andb_comm.
Qed.

Lemma areTitlesRelated_sym title1 title2 :
  areTitlesRelated similarity config title1 title2 =
  areTitlesRelated similarity config title2 title1.
Proof. unfold areTitlesRelated. apply Qgtb_Qeq, similarity_sym. Qed.

Lemma overlapRatio_sym pr1 pr2 :
  overlapRatio platform pr1 pr2 = overlapRatio platform pr2 pr1.
Proof.
  unfold overlapRatio.
  set (X := list_to_set (map filename (filesOf platform (number pr1))) : gset string).
  set (Y := list_to_set (map filename (filesOf platform (number pr2))) : gset string).
  assert (HI : filter (fun x => x ∈ Y) X = filter (fun x => x ∈ X) Y).
  { apply set_eq. intros x. rewrite !elem_of_filter. tauto. }
  assert (HU : X ∪ Y = Y ∪ X) by apply (comm_L (∪)).
  cbv zeta. rewrite HI, HU. reflexivity.
Qed.

Lemma hasFileOverlap_sym pr1 pr2 :
  hasFileOverlap config platform pr1 pr2 = hasFileOverlap config platform pr2 pr1.
Proof. unfold hasFileOverlap. rewrite overlapRatio_sym. reflexivity. Qed.

(** C5. Relatedness is symmetric: for a symmetric [similarity] and the same
    configuration, labels and changed files, [isPRRelated pr1 pr2] and
    [isPRRelated pr2 pr1] have the same outcome (the same verdict, or the
    same exception). *)
Theorem isPRRelated_symmetric pr1 pr2 :
  isPRRelated similarity RegExp RegExp_new group1 config platform pr1 pr2 =
  isPRRelated similarity RegExp RegExp_new group1 config platform pr2 pr1.
Proof.
  unfold isPRRelated, isBranchRelated.
  rewrite (isBranchRelated_from_sym _ (head_ref pr1) (head_ref pr2)).
  rewrite (areLabelsRelated_sym pr1 pr2).
  rewrite (areTitlesRelated_sym (title pr1) (title pr2)).
  rewrite (hasFileOverlap_sym pr1 pr2).
  reflexivity.
Qed.
End Symmetry.

Lemma exactSimilarity_sym a b : exactSimilarity a b == exactSimilarity b a.
Proof. unfold exactSimilarity. rewrite String.eqb_sym. reflexivity. Qed.

(** The login and session changes share one file of three. *)
Lemma login_and_session_are_related_both_ways :
  isPRRelated exactSimilarity string prefixRegExp_new prefixGroup1
    exampleDetection examplePlatform loginPR sessionPR = Ok true /\
  isPRRelated exactSimilarity string prefixRegExp_new prefixGroup1
    exampleDetection examplePlatform sessionPR loginPR = Ok true.
Proof.
  split.
  - vm_compute. reflexivity.
  - rewrite <- (isPRRelated_symmetric exactSimilarity exactSimilarity_sym string
                  prefixRegExp_new prefixGroup1 exampleDetection examplePlatform
                  loginPR sessionPR).
    vm_compute. reflexivity.
Defined.

(** C9. For two pull requests without changed files the overlap ratio is
    0/0, that is NaN, and [hasFileOverlap] answers false. *)
Theorem empty_file_sets_do_not_overlap config platform pr1 pr2 :
  filesOf platform (number pr1) = [] ->
  filesOf platform (number pr2) = [] ->
  overlapRatio platform pr1 pr2 = NaN /\
  hasFileOverlap config platform pr1 pr2 = false.
Proof.
  intros H1 H2. unfold hasFileOverlap, overlapRatio.
  rewrite H1, H2. split; reflexivity.
Qed.

(** Pull requests 4 and 5 of the example change no file. *)
Lemma two_empty_pull_requests_do_not_overlap :
  overlapRatio examplePlatform emptyPR draftPR = NaN /\
  hasFileOverlap exampleDetection examplePlatform emptyPR draftPR = false.
Proof.
  apply empty_file_sets_do_not_overlap; reflexivity.
Defined.

Section Grouping.
Variable similarity : string -> string -> Q.
Variable RegExp : Type.
Variable RegExp_new : string -> result RegExp.
Variable group1 : RegExp -> string -> option (option string).
Variable config : FeatureDetection.
Variable platform : Platform.

Lemma groupPRs_from_two_members prs : forall groups processed result,
  Forall (fun g => 2 <= length (members g))%nat groups ->
  groupPRs_from similarity RegExp RegExp_new group1 config platform
    prs groups processed = Ok result ->
  Forall (fun g => 2 <= length (members g))%nat result.
Proof.
  induction prs as [|pr rest IH]; intros groups processed result Hinv Hrun.
  - simpl in Hrun. injection Hrun as <-. exact Hinv.
  - simpl in Hrun.
    destruct (decide (number pr ∈ processed)); [eapply IH; eauto |].
    destruct (Nat.ltb 0 (length (detectRelatedPRs similarity RegExp RegExp_new
                                   group1 config platform pr))) eqn:Hlen;
      [| eapply IH; eauto].
    destruct (extractFeatureName RegExp RegExp_new group1 config pr) as [name|e];
      [| discriminate].
    eapply IH; [| exact Hrun].
    apply Forall_app. split; [exact Hinv |].
    constructor; [| constructor].
    apply Nat.ltb_lt in Hlen. unfold members. simpl.
    rewrite length_map. lia.
Qed.

(** Every emitted group has at least two members. *)
Lemma groups_have_two_members prs result :
  groupPRsByFeature similarity RegExp RegExp_new group1 config platform prs =
    Ok result ->
  Forall (fun g => 2 <= length (members g))%nat result.
Proof. apply groupPRs_from_two_members. constructor. Qed.
End Grouping.

(** C2 on the code. The login change shares a file with the session change,
    the session change shares a file with the cookie change, and the login
    and cookie changes share nothing. [groupPRsByFeature] emits two groups,
    and pull request 2 is a member of both. *)
Theorem grouping_puts_one_proposal_in_two_groups :
  exists g1 g2,
    groupPRsByFeature exactSimilarity string prefixRegExp_new prefixGroup1
      exampleDetection examplePlatform [loginPR; sessionPR; cookiePR] =
      Ok [g1; g2] /\
    members g1 = [1; 2]%Z /\
    members g2 = [3; 2]%Z.
Proof.
  eexists. eexists. split; [vm_compute; reflexivity |].
  split; reflexivity.
Qed.

End DetectorProofs.

(** * Properties of duplication detection *)

Module AnalyzerProofs.
Import JS GitHub CodeAnalyzer AnalyzerSpec NumberFacts.

Lemma js_gt_div_iff (n m : nat) (t : Q) :
  (n <= m)%nat ->
  js_gt (js_div (of_nat n) (of_nat m)) t = true <->
  exists q, js_div (of_nat n) (of_nat m) = Fin q /\ t < q.
Proof.
  intros Hle. unfold js_div.
  destruct (Qeq_bool (of_nat m) 0) eqn:Em.
  - apply of_nat_eq_0 in Em. subst m. assert (n = 0%nat) by lia. subst n.
    simpl. split; [discriminate | intros (q & H & _); discriminate].
  - simpl. rewrite Qgtb_true_iff. split.
    + intros H. eexists. split; [reflexivity | exact H].
    + intros (q & H & Hq). injection H as <-. exact Hq.
Qed.

Lemma filter_length_le {A} (p : A -> bool) l :
  (length (List.filter p l) <= length l)%nat.
Proof. induction l as [|x l IH]; simpl; [lia |]. destruct (p x); simpl; lia. Qed.

Lemma areSimilarBlocks_iff block1 block2 :
  areSimilarBlocks block1 block2 = true <->
  (50 <= String.length block1)%nat /\ (50 <= String.length block2)%nat /\
  exists q, wordOverlap block1 block2 = Fin q /\ 0.7 < q.
Proof.
  unfold areSimilarBlocks.
  destruct (Nat.ltb (String.length block1) 50) eqn:E1; simpl.
  { apply Nat.ltb_lt in E1. split; [discriminate | intros (H & _); lia]. }
  destruct (Nat.ltb (String.length block2) 50) eqn:E2; simpl.
  { apply Nat.ltb_lt in E2. split; [discriminate | intros (_ & H & _); lia]. }
  apply Nat.ltb_ge in E1, E2.
  unfold wordOverlap. cbv zeta.
  rewrite js_gt_div_iff.
  - tauto.
  - etransitivity; [apply filter_length_le | apply Nat.le_max_l].
Qed.

Lemma areSimilarBlocks_longAndOverlapping block1 block2 :
  areSimilarBlocks block1 block2 = longAndOverlapping (block1, block2).
Proof.
  unfold areSimilarBlocks, longAndOverlapping. cbn [fst snd].
  rewrite !Nat.leb_antisym.
  destruct (Nat.ltb (String.length block1) 50),
           (Nat.ltb (String.length block2) 50); reflexivity.
Qed.

Lemma countDuplications_pairs codeBlocks :
  countDuplications codeBlocks =
  length (List.filter longAndOverlapping (pairs codeBlocks)).
Proof.
  induction codeBlocks as [|block later IH]; simpl; [reflexivity |].
  rewrite List.filter_app, length_app, IH. f_equal.
  clear IH. induction later as [|y later IH]; simpl; [reflexivity |].
  rewrite areSimilarBlocks_longAndOverlapping.
  destruct (longAndOverlapping (block, y)); simpl; rewrite IH; reflexivity.
Qed.

(** C10. Two blocks count as a duplication exactly when both have at least
    50 characters and their word overlap exceeds 0.7; a pair with a block
    shorter than 50 characters never counts, whatever its overlap; and the
    duplication score is the number of such pairs, capped at 10. *)
Theorem short_blocks_never_count_as_duplicates :
  (forall block1 block2,
      areSimilarBlocks block1 block2 = true <->
      (50 <= String.length block1)%nat /\ (50 <= String.length block2)%nat /\
      exists q, wordOverlap block1 block2 = Fin q /\ 0.7 < q) /\
  (forall block1 block2,
      (String.length block1 < 50)%nat \/ (String.length block2 < 50)%nat ->
      areSimilarBlocks block1 block2 = false) /\
  (forall files,
      detectDuplication files =
      of_nat (Nat.min
                (length (List.filter longAndOverlapping
                           (pairs (collectCodeBlocks files))))
                10)).
Proof.
  split; [exact areSimilarBlocks_iff |]. split.
  - intros block1 block2 Hshort.
    destruct (areSimilarBlocks block1 block2) eqn:E; [| reflexivity].
    apply areSimilarBlocks_iff in E. lia.
  - intros files. unfold detectDuplication.
    rewrite countDuplications_pairs. reflexivity.
Qed.

(** A block of 38 characters overlaps fully with itself and still does not
    count; a block of 117 characters does. *)
Lemma identical_short_blocks_are_not_duplicates :
  (String.length shortBlock < 50)%nat /\
  wordOverlap shortBlock shortBlock = Fin (3 # 3) /\
  areSimilarBlocks shortBlock shortBlock = false /\
  areSimilarBlocks longBlock longBlock = true.
Proof.
  split; [vm_compute; lia |].
  split; [vm_compute; reflexivity |].
  split.
  - apply (proj1 (proj2 short_blocks_never_count_as_duplicates)).
    left. vm_compute. lia.
  - vm_compute. reflexivity.
Defined.

End AnalyzerProofs.

(** * Properties of the snippet extractor *)

Module ExtractorProofs.
Import JS GitHub SnippetExtractor ExtractorSpec NumberFacts.

(** ** Ranking *)

Lemma comparator_le_iff a b :
  Qle_bool (comparator a b) 0 = true <-> ranksBefore a b.
Proof.
  rewrite Qle_bool_iff. unfold comparator, ranksBefore.
  destruct (Qeq_bool (score (quality a)) (score (quality b))) eqn:E; simpl.
  - apply Qeq_bool_iff in E.
    destruct (integrationComplexity a), (integrationComplexity b); simpl;
      split; intros H; try (right; split; [exact E | exact I]);
      try lra; try (destruct H as [H | [_ []]]; lra).
  - apply Qeq_bool_neq in E. split.
    + intros H. left. lra.
    + intros [H | [H _]]; [lra | contradiction].
Qed.

Lemma easierOrEqual_total c1 c2 : easierOrEqual c1 c2 \/ easierOrEqual c2 c1.
Proof. destruct c1, c2; simpl; tauto. Qed.

Lemma easierOrEqual_trans c1 c2 c3 :
  easierOrEqual c1 c2 -> easierOrEqual c2 c3 -> easierOrEqual c1 c3.
Proof. destruct c1, c2, c3; simpl; tauto. Qed.

Lemma ranksBefore_total a b : ranksBefore a b \/ ranksBefore b a.
Proof.
  unfold ranksBefore.
  destruct (Q_dec (score (quality a)) (score (quality b))) as [[H | H] | H].
  - right. left. exact H.
  - left. left. exact H.
  - destruct (easierOrEqual_total (integrationComplexity a) (integrationComplexity b)).
    + left. right. split; [exact H | assumption].
    + right. right. split; [symmetry; exact H | assumption].
Qed.

Lemma ranksBefore_trans a b c : ranksBefore a b -> ranksBefore b c -> ranksBefore a c.
Proof.
  unfold ranksBefore. intros [H1 | [H1 E1]] [H2 | [H2 E2]].
  - left. lra.
  - left. lra.
  - left. lra.
  - right. split; [lra | eapply easierOrEqual_trans; eauto].
Qed.

Lemma sort_insert_Permutation x l :
  Permutation (sort_insert comparator x l) (x :: l).
Proof.
  induction l as [|y l IH]; simpl; [reflexivity |].
  destruct (Qle_bool (comparator x y) 0); [reflexivity |].
  rewrite IH. apply perm_swap.
Qed.

Lemma sort_insert_sorted x l :
  StronglySorted ranksBefore l ->
  StronglySorted ranksBefore (sort_insert comparator x l).
Proof.
  induction l as [|y l IH]; intros Hsorted; simpl.
  - repeat constructor.
  - apply StronglySorted_inv in Hsorted as [Hl Hy].
    destruct (Qle_bool (comparator x y) 0) eqn:E.
    + apply comparator_le_iff in E.
      constructor; [constructor; assumption |].
      constructor; [exact E |].
      eapply Forall_impl; [exact Hy |].
      intros z Hz. eapply ranksBefore_trans; eauto.
    + assert (Hyx : ranksBefore y x).
      { destruct (ranksBefore_total x y) as [H | H]; [| exact H].
        apply comparator_le_iff in H. congruence. }
      constructor; [apply IH; exact Hl |].
      rewrite sort_insert_Permutation. constructor; assumption.
Qed.

Lemma rankSnippets_Permutation snippets :
  Permutation (rankSnippets snippets) snippets.
Proof.
  unfold rankSnippets, Array_sort.
  induction snippets as [|x l IH]; simpl; [reflexivity |].
  rewrite sort_insert_Permutation, IH. reflexivity.
Qed.

Lemma rankSnippets_sorted snippets :
  StronglySorted ranksBefore (rankSnippets snippets).
Proof.
  unfold rankSnippets, Array_sort.
  induction snippets as [|x l IH]; simpl; [constructor |].
  apply sort_insert_sorted, IH.
Qed.

Lemma StronglySorted_app_l {A} (R : A -> A -> Prop) l1 l2 :
  StronglySorted R (l1 ++ l2) -> StronglySorted R l1.
Proof.
  induction l1 as [|x l1 IH]; simpl; intros H; [constructor |].
  apply StronglySorted_inv in H as [H1 H2].
  constructor; [apply IH; exact H1 |].
  apply Forall_app in H2. tauto.
Qed.

Lemma top10_spec snippets :
  let ranked := firstn 10 (rankSnippets snippets) in
  StronglySorted ranksBefore ranked /\
  length ranked = Nat.min 10 (length snippets) /\
  exists rest,
    Permutation (ranked ++ rest) snippets /\
    StronglySorted ranksBefore (ranked ++ rest).
Proof.
  cbv zeta.
  pose proof (rankSnippets_sorted snippets) as Hsorted.
  pose proof (rankSnippets_Permutation snippets) as Hperm.
  rewrite <- (firstn_skipn 10 (rankSnippets snippets)) in Hsorted, Hperm.
  split; [eapply StronglySorted_app_l; exact Hsorted |].
  split.
  - rewrite length_firstn.
    rewrite (Permutation_length (rankSnippets_Permutation snippets)). reflexivity.
  - exists (skipn 10 (rankSnippets snippets)). split; assumption.
Qed.

(** C7. The ranking is a permutation of the candidates in which a snippet
    with a higher quality score comes first and, at equal quality score, a
    snippet with a lower integration complexity comes first; what is
    returned is its first ten elements (all of them when there are fewer). *)
Theorem ranking_is_sorted_and_truncated :
  (forall snippets,
      let ranked := firstn 10 (rankSnippets snippets) in
      StronglySorted ranksBefore ranked /\
      length ranked = Nat.min 10 (length snippets) /\
      exists rest,
        Permutation (ranked ++ rest) snippets /\
        StronglySorted ranksBefore (ranked ++ rest)) /\
  (forall similarity extractAddedFunctions listFiles winningPR losingPRs,
      let returned :=
        extractSuperiorSnippets similarity extractAddedFunctions listFiles
          winningPR losingPRs in
      StronglySorted ranksBefore returned /\
      (length returned <= 10)%nat /\
      match listFiles winningPR with
      | Ok winningFiles =>
          match collectSnippets similarity extractAddedFunctions listFiles
                  winningFiles losingPRs with
          | Ok candidates => returned = firstn 10 (rankSnippets candidates)
          | Throw _ => returned = []
          end
      | Throw _ => returned = []
      end).
Proof.
  split; [exact top10_spec |].
  intros similarity extractAddedFunctions listFiles winningPR losingPRs.
  cbv zeta. unfold extractSuperiorSnippets.
  destruct (listFiles winningPR) as [winningFiles|e].
  2: { split; [constructor | split; [simpl; lia | reflexivity]]. }
  destruct (collectSnippets similarity extractAddedFunctions listFiles
              winningFiles losingPRs) as [candidates|e].
  2: { split; [constructor | split; [simpl; lia | reflexivity]]. }
  destruct (top10_spec candidates) as (Hsorted & Hlen & _).
  split; [exact Hsorted |]. split; [| reflexivity].
  rewrite Hlen. lia.
Qed.


(** Equal quality scores are ordered by complexity, and a higher score
    comes first whatever its complexity. *)
Example ranking_of_four_candidates :
  map snippet_filename
    (rankSnippets [ candidate "a" 90 medium; candidate "b" 82 low;
                    candidate "c" 90 low; candidate "d" 95 high ]) =
  ["d"; "c"; "a"; "b"].
Proof. vm_compute. reflexivity. Qed.

(** ** Improvement snippets *)

Lemma append_empty (s t : string) : s +:+ t = EmptyString -> s = EmptyString.
Proof. destruct s; [reflexivity | discriminate]. Qed.

Lemma join_two_lines_nonempty lines :
  (2 <= length lines)%nat -> join newline lines <> EmptyString.
Proof.
  destruct lines as [|p [|q rest]]; simpl; try lia.
  intros _ H. destruct p; simpl in H; discriminate.
Qed.

Lemma flushChange_inv currentChange c :
  In c (flushChange currentChange) ->
  exists lines, code c = join newline lines /\ lineCount c = length lines.
Proof.
  unfold flushChange. destruct (Nat.ltb 0 (length currentChange)); simpl.
  - intros [<- | []]. exists (rev currentChange). simpl.
    rewrite length_rev. split; reflexivity.
  - intros [].
Qed.

Lemma extractCodeChanges_from_inv lines : forall currentChange c,
  In c (extractCodeChanges_from lines currentChange) ->
  exists l, code c = join newline l /\ lineCount c = length l.
Proof.
  induction lines as [|line rest IH]; intros currentChange c; simpl.
  - apply flushChange_inv.
  - destruct (startsWith line "+" && negb (startsWith line "+++"))%bool.
    + apply IH.
    + intros H. apply in_app_or in H as [H | H].
      * eapply flushChange_inv; exact H.
      * eapply IH; exact H.
Qed.

(** An extracted change has at least three lines, hence a non-empty code. *)
Lemma extractCodeChanges_nonempty patch c :
  In c (extractCodeChanges patch) -> code c <> EmptyString.
Proof.
  unfold extractCodeChanges.
  destruct patch as [[|a p]|]; simpl; try tauto.
  intros H. apply filter_In in H as [H Hcount].
  apply extractCodeChanges_from_inv in H as (l & -> & Hl).
  apply Nat.ltb_lt in Hcount.
  apply join_two_lines_nonempty. lia.
Qed.

Section Improvements.
Variable similarity : string -> string -> Q.

Lemma findSimilarChangeRegions_In winningChanges losingChanges comparison :
  In comparison (findSimilarChangeRegions similarity winningChanges losingChanges) <->
  exists winningChange losingChange,
    In winningChange winningChanges /\ In losingChange losingChanges /\
    0.3 < calculateCodeSimilarity similarity (code winningChange) (code losingChange) /\
    calculateCodeSimilarity similarity (code winningChange) (code losingChange) < 0.8 /\
    comparison =
      {| winningSnippet := winningChange;
         losingSnippet := losingChange;
         similarity_score :=
           calculateCodeSimilarity similarity (code winningChange) (code losingChange) |}.
Proof.
  unfold findSimilarChangeRegions. rewrite in_flat_map. split.
  - intros (lc & Hlc & H). apply in_flat_map in H as (wc & Hwc & H).
    destruct (Qgtb _ 0.3 && Qltb _ 0.8)%bool eqn:E; [| destruct H].
    destruct H as [<- | []].
    apply andb_true_iff in E as [E1 E2].
    apply Qgtb_true_iff in E1. apply Qltb_true_iff in E2.
    exists wc, lc. repeat split; assumption.
  - intros (wc & lc & Hwc & Hlc & H1 & H2 & ->).
    exists lc. split; [exact Hlc |].
    apply in_flat_map. exists wc. split; [exact Hwc |].
    apply Qgtb_true_iff in H1. apply Qltb_true_iff in H2.
    rewrite H1, H2. simpl. left. reflexivity.
Qed.

Lemma improvementsOf_In losingFile losingPR comparisons s :
  (forall comparison, In comparison comparisons ->
                      code (losingSnippet comparison) <> EmptyString) ->
  In s (improvementsOf losingFile losingPR comparisons) <->
  exists comparison,
    In comparison comparisons /\
    75 < score (rubric (code (losingSnippet comparison))) /\
    s = improvementSnippet losingFile losingPR comparison
          (rubric (code (losingSnippet comparison))).
Proof.
  induction comparisons as [|comparison rest IH]; intros Hcode.
  - simpl. split; [intros [] | intros (c & [] & _)].
  - cbn [improvementsOf].
    assert (Hq : evaluateSnippetQuality (Obj (code (losingSnippet comparison))) =
                 Ok (rubric (code (losingSnippet comparison)))).
    { specialize (Hcode comparison (or_introl eq_refl)).
      destruct (code (losingSnippet comparison)); [contradiction | reflexivity]. }
    rewrite Hq, in_app_iff, IH by (intros c Hc; apply Hcode; right; exact Hc).
    split.
    + intros [H | (c & Hc & Hs)].
      * destruct (Qgtb _ 75) eqn:E; [| destruct H].
        destruct H as [<- | []]. apply Qgtb_true_iff in E.
        exists comparison. repeat split; [left; reflexivity | exact E].
      * exists c. split; [right; exact Hc | exact Hs].
    + intros (c & [<- | Hc] & Hscore & ->).
      * left. apply Qgtb_true_iff in Hscore. rewrite Hscore. left. reflexivity.
      * right. exists c. repeat split; assumption.
Qed.

Lemma compareFileImplementations_In winningFile losingFile losingPR s :
  In s (compareFileImplementations similarity winningFile losingFile losingPR) <->
  exists winningChange losingChange,
    In winningChange (extractCodeChanges (patch winningFile)) /\
    In losingChange (extractCodeChanges (patch losingFile)) /\
    0.3 < calculateCodeSimilarity similarity (code winningChange) (code losingChange) /\
    calculateCodeSimilarity similarity (code winningChange) (code losingChange) < 0.8 /\
    75 < score (rubric (code losingChange)) /\
    s = improvementSnippet losingFile losingPR
          {| winningSnippet := winningChange;
             losingSnippet := losingChange;
             similarity_score :=
               calculateCodeSimilarity similarity (code winningChange)
                 (code losingChange) |}
          (rubric (code losingChange)).
Proof.
  unfold compareFileImplementations. rewrite improvementsOf_In.
  - split.
    + intros (c & Hc & Hscore & ->).
      apply findSimilarChangeRegions_In in Hc
        as (wc & lc & Hwc & Hlc & H1 & H2 & ->).
      exists wc, lc. repeat split; assumption.
    + intros (wc & lc & Hwc & Hlc & H1 & H2 & Hscore & ->).
      exists {| winningSnippet := wc;
                losingSnippet := lc;
                similarity_score :=
                  calculateCodeSimilarity similarity (code wc) (code lc) |}.
      split; [| split; [exact Hscore | reflexivity]].
      apply findSimilarChangeRegions_In. exists wc, lc. repeat split; assumption.
  - intros c Hc.
    apply findSimilarChangeRegions_In in Hc as (wc & lc & _ & Hlc & _ & _ & ->).
    simpl. eapply extractCodeChanges_nonempty; exact Hlc.
Qed.

(** C6. For a file changed in the winner and in a loser, the pair
    (losing block, winning block) yields an improvement snippet exactly
    when both are extracted added-line blocks, their normalised similarity
    is strictly between 0.3 and 0.8, and the rubric scores the losing block
    strictly above 75; nothing else is emitted. *)
Theorem improvement_kept_iff winningFile losingFile losingPR :
  (forall winningChange losingChange,
      let similarity_score :=
        calculateCodeSimilarity similarity (code winningChange) (code losingChange) in
      In (improvementSnippet losingFile losingPR
            {| winningSnippet := winningChange;
               losingSnippet := losingChange;
               similarity_score := similarity_score |}
            (rubric (code losingChange)))
         (compareFileImplementations similarity winningFile losingFile losingPR)
      <->
      In winningChange (extractCodeChanges (patch winningFile)) /\
      In losingChange (extractCodeChanges (patch losingFile)) /\
      0.3 < similarity_score /\ similarity_score < 0.8 /\
      75 < score (rubric (code losingChange))) /\
  Forall
    (fun s =>
       exists winningChange losingChange,
         s = improvementSnippet losingFile losingPR
               {| winningSnippet := winningChange;
                  losingSnippet := losingChange;
                  similarity_score :=
                    calculateCodeSimilarity similarity (code winningChange)
                      (code losingChange) |}
               (rubric (code losingChange)))
    (compareFileImplementations similarity winningFile losingFile losingPR).
Proof.
  split.
  - intros wc lc. cbv zeta. rewrite compareFileImplementations_In. split.
    + intros (wc' & lc' & Hwc & Hlc & H1 & H2 & Hscore & Heq).
      unfold improvementSnippet in Heq. injection Heq as Hlc' Hwc' _ _ _.
      subst wc' lc'. repeat split; assumption.
    + intros (Hwc & Hlc & H1 & H2 & Hscore).
      exists wc, lc. repeat split; assumption.
  - apply List.Forall_forall. intros s Hs.
    apply compareFileImplementations_In in Hs
      as (wc & lc & _ & _ & _ & _ & _ & ->).
    exists wc, lc. reflexivity.
Qed.

(** In particular a losing block whose similarity to the winning block is
    0.8 or more is never kept. *)
Corollary too_similar_is_never_kept winningFile losingFile losingPR
  winningChange losingChange :
  0.8 <= calculateCodeSimilarity similarity (code winningChange) (code losingChange) ->
  ~ In (improvementSnippet losingFile losingPR
          {| winningSnippet := winningChange;
             losingSnippet := losingChange;
             similarity_score :=
               calculateCodeSimilarity similarity (code winningChange)
                 (code losingChange) |}
          (rubric (code losingChange)))
       (compareFileImplementations similarity winningFile losingFile losingPR).
Proof.
  intros Hsim Hin.
  apply compareFileImplementations_In in Hin
    as (wc' & lc' & _ & _ & _ & H2 & _ & Heq).
  unfold improvementSnippet in Heq. injection Heq as Hlc' Hwc' _ _ _.
  subst wc' lc'. lra.
Qed.
End Improvements.

(** ** Files changed on both sides *)

Lemma fileMap_lookup_Some winningFiles : forall (m : gmap string File) name w,
  fold_left (fun m file => <[filename file := file]> m) winningFiles m !! name = Some w ->
  (In w winningFiles /\ filename w = name) \/ m !! name = Some w.
Proof.
  induction winningFiles as [|file rest IH]; intros m name w H; simpl in H.
  - right. exact H.
  - apply IH in H as [[Hin Hname] | H].
    + left. split; [right; exact Hin | exact Hname].
    + destruct (decide (filename file = name)) as [Heq | Hne].
      * subst name. rewrite lookup_insert_eq in H. injection H as <-.
        left. split; [left; reflexivity | reflexivity].
      * rewrite lookup_insert_ne in H by exact Hne. right. exact H.
Qed.

Lemma fileMap_lookup_is_Some winningFiles : forall (m : gmap string File) name,
  In name (map filename winningFiles) \/ is_Some (m !! name) ->
  is_Some (fold_left (fun m file => <[filename file := file]> m) winningFiles m !! name).
Proof.
  induction winningFiles as [|file rest IH]; intros m name H; simpl in *.
  - destruct H as [[] | H]; exact H.
  - apply IH. destruct H as [[Heq | Hin] | H].
    + right. subst name. rewrite lookup_insert_eq. eauto.
    + left. exact Hin.
    + right. destruct (decide (filename file = name)) as [Heq | Hne].
      * subst name. rewrite lookup_insert_eq. eauto.
      * rewrite lookup_insert_ne by exact Hne. exact H.
Qed.

Section SharedFiles.
Variable similarity : string -> string -> Q.
Variable extractAddedFunctions : string -> list Func.

Lemma functionSnippetsOf_type file losingPR functions s :
  In s (functionSnippetsOf file losingPR functions) -> type s = function.
Proof.
  induction functions as [|func rest IH]; cbn [functionSnippetsOf];
    [intros [] |].
  destruct (evaluateFunctionQuality func) as [quality|e]; [| intros []].
  intros H. apply in_app_or in H as [H | H]; [| exact (IH H)].
  destruct (Qgtb (score quality) 80); [| destruct H].
  destruct H as [<- | []]. reflexivity.
Qed.

Lemma analyzeNewFileContribution_type file losingPR s :
  In s (analyzeNewFileContribution extractAddedFunctions file losingPR) ->
  type s <> improvement.
Proof.
  unfold analyzeNewFileContribution.
  destruct (String.eqb (status file) "added").
  - destruct (evaluateFileQuality file) as [quality|e]; [| intros []].
    destruct (patch file) as [p|]; [| intros []].
    destruct (Qgtb (score quality) 80); [| intros []].
    intros [<- | []]. discriminate.
  - destruct (patch file) as [p|]; [| intros []].
    intros H. apply functionSnippetsOf_type in H. rewrite H. discriminate.
Qed.

(** An improvement snippet comes from a file that the winner changed too. *)
Lemma improvements_come_from_shared_files winningFiles losingFiles losingPR s :
  In s (compareAndExtractSnippets similarity extractAddedFunctions
          winningFiles losingFiles losingPR) ->
  type s = improvement ->
  exists winningFile losingFile,
    In winningFile winningFiles /\ In losingFile losingFiles /\
    filename winningFile = filename losingFile /\
    In s (compareFileImplementations similarity winningFile losingFile losingPR).
Proof.
  unfold compareAndExtractSnippets. intros H Htype.
  apply in_flat_map in H as (losingFile & Hl & H).
  destruct (fold_left _ winningFiles ∅ !! filename losingFile)
    as [winningFile|] eqn:Hlookup.
  - apply fileMap_lookup_Some in Hlookup as [[Hin Hname] | Hempty].
    + exists winningFile, losingFile. repeat split; assumption.
    + rewrite lookup_empty in Hempty. discriminate.
  - apply analyzeNewFileContribution_type in H. contradiction.
Qed.

(** A losing file that the winner changed too is compared with it. *)
Lemma shared_files_are_compared winningFiles losingFiles losingPR losingFile :
  In losingFile losingFiles ->
  In (filename losingFile) (map filename winningFiles) ->
  exists winningFile,
    In winningFile winningFiles /\
    filename winningFile = filename losingFile /\
    forall s,
      In s (compareFileImplementations similarity winningFile losingFile losingPR) ->
      In s (compareAndExtractSnippets similarity extractAddedFunctions
              winningFiles losingFiles losingPR).
Proof.
  intros Hl Hname.
  destruct (fileMap_lookup_is_Some winningFiles ∅ (filename losingFile)
              (or_introl Hname)) as [winningFile Hlookup].
  pose proof Hlookup as Hw.
  apply fileMap_lookup_Some in Hw as [[Hin Heq] | Hempty];
    [| rewrite lookup_empty in Hempty; discriminate].
  exists winningFile. split; [exact Hin |]. split; [exact Heq |].
  intros s Hs. unfold compareAndExtractSnippets.
  apply in_flat_map. exists losingFile. split; [exact Hl |].
  rewrite Hlookup. exact Hs.
Qed.
End SharedFiles.

(** The losing block of the example scores 100 on the rubric; it is kept
    as an improvement when its similarity to the winning block is 0.5 and
    dropped when the similarity is 0.92. *)
Example genuine_alternative_is_kept :
  map (fun s => (type s, score (quality s), integrationComplexity s))
    (compareFileImplementations (fixedSimilarity 0.5) winningFile losingFile loser) =
  [(improvement, 100, low)].
Proof. vm_compute. reflexivity. Qed.

Example near_copy_is_dropped :
  compareFileImplementations (fixedSimilarity 0.92) winningFile losingFile loser = [].
Proof. vm_compute. reflexivity. Qed.

End ExtractorProofs.

(** * Further properties of the scorer *)

Module ScorerExtras.
Import JS GitHub PRScorer ScorerSpec NumberFacts StringFacts ScorerProofs.

Lemma clamp_ge x a : a <= 100 -> a <= x -> a <= clamp x.
Proof.
  intros Ha Hx. unfold clamp, Math_max, Math_min.
  apply Q.max_le_iff. right. apply Q.min_glb; assumption.
Qed.

Lemma codeQualityOutcome_range codeAnalyzer files :
  0 <= codeQualityOutcome codeAnalyzer files <= 100.
Proof.
  unfold codeQualityOutcome.
  destruct (analyzeComplexity codeAnalyzer files); [| lra].
  destruct (checkCodingStandards codeAnalyzer files); [| lra].
  destruct (detectDuplication codeAnalyzer files); [| lra].
  destruct (calculateMaintainability codeAnalyzer files); [| lra].
  apply clamp_bounds.
Qed.

Lemma testingOutcome_range pr w : 0 <= testingOutcome pr w <= 100.
Proof.
  unfold testingOutcome. destruct (fetch pr w 1); [apply clamp_bounds | lra].
Qed.

Lemma performanceOutcome_range pr w : 0 <= performanceOutcome pr w <= 100.
Proof.
  unfold performanceOutcome. destruct (fetch pr w 2); [apply clamp_bounds | lra].
Qed.

Lemma securityOutcome_range pr w : 0 <= securityOutcome pr w <= 100.
Proof.
  unfold securityOutcome. destruct (fetch pr w 3); [| lra].
  destruct (fetch pr w 4); [apply clamp_bounds | lra].
Qed.

Lemma documentationOutcome_range pr w : 0 <= documentationOutcome pr w <= 100.
Proof.
  unfold documentationOutcome.
  destruct (fetch pr w (if is_Ok (fetch pr w 3) then 5 else 4));
    [apply clamp_bounds | lra].
Qed.

(** X1. Whatever the platform answers and whatever [Math.random] returns,
    [scorePR] returns a report whose five sub-scores all lie in [0,100]. *)
Theorem every_sub_score_is_a_percentage codeAnalyzer config pr w :
  exists report w',
    scorePR codeAnalyzer config pr w = (Ok report, w') /\
    0 <= score (codeQuality (scores report)) <= 100 /\
    0 <= score (testing (scores report)) <= 100 /\
    0 <= score (performance (scores report)) <= 100 /\
    0 <= score (security (scores report)) <= 100 /\
    0 <= score (documentation (scores report)) <= 100.
Proof.
  destruct (scorePR_run codeAnalyzer config pr w) as (w' & Hrun & _).
  exists (reportOutcome codeAnalyzer config pr w), w'.
  split; [exact Hrun |].
  unfold reportOutcome. destruct (fetch pr w 0) as [files|e]; simpl.
  - split; [apply codeQualityOutcome_range |].
    split; [apply testingOutcome_range |].
    split; [apply performanceOutcome_range |].
    split; [apply securityOutcome_range | apply documentationOutcome_range].
  - repeat split; lra.
Qed.

(** X2. When the file fetch made for the code-quality criterion fails,
    nothing else is analysed: [scorePR] reports the failure through
    [core.setFailed] and returns the default report, with 50 for every
    criterion and for the weighted score and with every verdict false. *)
Theorem failed_first_fetch_gives_the_default_report codeAnalyzer config pr w e :
  fetch pr w 0 = Throw e ->
  scorePR codeAnalyzer config pr w =
  (Ok {| report_pr := prInfo pr;
         scores := mkScores defaultSubScore defaultSubScore defaultSubScore
                     defaultSubScore defaultSubScore;
         weightedScore := 50;
         meetsThresholds := mkVerdict false false false false false false false;
         timestamp := now w |},
   {| random := random w; draws := draws w; listFiles := listFiles w;
      calls := S (calls w); now := now w; warnings := warnings w;
      failures := ("PR scoring failed: " +:+ e) :: failures w |}).
Proof.
  intros Hfetch. unfold scorePR, try_catch, bind.
  destruct (scoreCodeQuality_run codeAnalyzer pr w) as [msgs ->].
  rewrite Hfetch. destruct w; reflexivity.
Qed.

Lemma unreachable_platform_gives_the_default_report :
  exists w',
    scorePR exampleAnalyzer defaultConfig examplePR deadWorld =
    (Ok {| report_pr := prInfo examplePR;
           scores := mkScores defaultSubScore defaultSubScore defaultSubScore
                       defaultSubScore defaultSubScore;
           weightedScore := 50;
           meetsThresholds := mkVerdict false false false false false false false;
           timestamp := now deadWorld |}, w') /\
    failures w' = ["PR scoring failed: connect ETIMEDOUT"] /\
    calls w' = 1%nat /\ draws w' = 0%nat.
Proof.
  eexists. split.
  - apply (failed_first_fetch_gives_the_default_report exampleAnalyzer
             defaultConfig examplePR deadWorld "connect ETIMEDOUT").
    reflexivity.
  - repeat split.
Defined.

Lemma Qgeb_true x y : y <= x -> Qgeb x y = true.
Proof. intros H. unfold Qgeb. apply Qle_bool_iff. exact H. Qed.

Lemma keywordScore_from_nonneg keywords points file acc :
  0 <= points -> 0 <= acc ->
  0 <= fold_left
         (fun acc keyword =>
            if includes (toLowerCase file) keyword then acc + points else acc)
         keywords acc.
Proof.
  intros Hp. revert acc.
  induction keywords as [|keyword rest IH]; intros acc Hacc; simpl; [exact Hacc |].
  apply IH. destruct (includes (toLowerCase file) keyword); lra.
Qed.

Lemma keywordScore_nonneg keywords points files :
  0 <= points -> 0 <= keywordScore keywords points files.
Proof.
  intros Hp. unfold keywordScore.
  assert (H : forall acc, 0 <= acc ->
    0 <= fold_left
           (fun acc file =>
              match truthy_patch file with
              | Some p =>
                  fold_left
                    (fun acc keyword =>
                       if includes (toLowerCase p) keyword then acc + points else acc)
                    keywords acc
              | None => acc
              end) files acc).
  { induction files as [|file rest IH]; intros acc Hacc; simpl; [exact Hacc |].
    apply IH. destruct (truthy_patch file); [| exact Hacc].
    apply keywordScore_from_nonneg; assumption. }
  apply H. lra.
Qed.

Lemma optimizationScore_range files : 0 <= optimizationScore files <= 100.
Proof.
  unfold optimizationScore, Math_min. split.
  - apply Q.min_glb; [lra | apply keywordScore_nonneg; lra].
  - apply Q.le_min_l.
Qed.

(** X4. When the code-quality files are fetched and [Math.random] stays in
    [0,1), the performance score lies between 61.75 and 89.25 (70 when its
    own fetch fails), so every performance minimum up to 61.75, the
    documented 50 included, is met. *)
Theorem performance_minimum_is_always_met codeAnalyzer config pr w files :
  fetch pr w 0 = Ok files ->
  (forall k, 0 <= random w k /\ random w k < 1) ->
  exists report w',
    scorePR codeAnalyzer config pr w = (Ok report, w') /\
    61.75 <= score (performance (scores report)) <= 89.25 /\
    (performanceMin (thresholds config) <= 61.75 ->
     meets_performance (meetsThresholds report) = true).
Proof.
  intros Hfiles Hrandom.
  destruct (scorePR_run codeAnalyzer config pr w) as (w' & Hrun & _).
  exists (reportOutcome codeAnalyzer config pr w), w'.
  split; [exact Hrun |].
  unfold reportOutcome. rewrite Hfiles. simpl.
  assert (Hrange : 61.75 <= performanceOutcome pr w <= 89.25).
  { unfold performanceOutcome. destruct (fetch pr w 2) as [files2|e]; [| lra].
    pose proof (optimizationScore_range files2) as Ho.
    pose proof (Hrandom (drawsAfterTesting pr w + draws w)%nat) as Hr.
    assert (Ht : 61.75 <=
                 performanceTotal (draw w (drawsAfterTesting pr w) * 30 + 70)
                   (optimizationScore files2) <= 89.25).
    { unfold performanceTotal, draw. cbv zeta. split; lra. }
    split; [apply clamp_ge; lra | apply clamp_le; lra]. }
  split; [exact Hrange |].
  intros Hmin. apply Qgeb_true. lra.
Qed.

Lemma performance_minimum_50_is_met :
  exists report w',
    scorePR exampleAnalyzer defaultConfig examplePR (healthyWorld 0.5) =
      (Ok report, w') /\
    61.75 <= score (performance (scores report)) <= 89.25 /\
    meets_performance (meetsThresholds report) = true.
Proof.
  destruct (performance_minimum_is_always_met exampleAnalyzer defaultConfig
              examplePR (healthyWorld 0.5) exampleFiles eq_refl)
    as (report & w' & Hrun & Hrange & Hmeets).
  - intros k. simpl. split; [discriminate | reflexivity].
  - exists report, w'. split; [exact Hrun |]. split; [exact Hrange |].
    apply Hmeets. discriminate.
Defined.





Lemma isCommentLine_diffMarked line :
  diffMarked line = true -> isCommentLine line = false.
Proof.
  destruct line as [|c s]; [discriminate |].
  unfold diffMarked, startsWith. cbn [String.prefix].
  intros H.
  assert (Hc : c = "+"%char \/ c = "-"%char \/ c = "@"%char).
  { destruct (ascii_dec "+" c); [auto |].
    destruct (ascii_dec "-" c); [auto |].
    destruct (ascii_dec "@" c); [auto | discriminate]. }
  unfold isCommentLine.
  destruct Hc as [-> | [-> | ->]].
  - destruct (trim_keeps_first "+" s eq_refl) as [rest ->]. reflexivity.
  - destruct (trim_keeps_first "-" s eq_refl) as [rest ->]. reflexivity.
  - destruct (trim_keeps_first "@" s eq_refl) as [rest ->]. reflexivity.
Qed.

Lemma no_comment_among_diffMarked lines :
  forallb diffMarked lines = true -> List.filter isCommentLine lines = [].
Proof.
  induction lines as [|line rest IH]; [reflexivity |].
  cbn [forallb List.filter]. intros H. apply andb_true_iff in H as [H1 H2].
  rewrite (isCommentLine_diffMarked line H1). apply IH, H2.
Qed.

(** X6. Comments that a change adds are never counted: when every line of
    every patch is an added line, a removed line or a hunk header, the
    comment metric is 0, whatever the added lines contain. *)
Theorem added_comments_are_never_counted files :
  (forall file p, In file files -> truthy_patch file = Some p ->
                  forallb diffMarked (split_lines p) = true) ->
  analyzeCodeComments files == 0.
Proof.
  intros Hmarked. unfold analyzeCodeComments.
  assert (Hcount : forall acc,
             snd acc = 0%nat ->
             snd (fold_left
                    (fun '(totalLines, commentLines) file =>
                       match truthy_patch file with
                       | Some p =>
                           let lines := split_lines p in
                           ((totalLines + length lines)%nat,
                            (commentLines + length (List.filter isCommentLine lines))%nat)
                       | None => (totalLines, commentLines)
                       end) files acc) = 0%nat).
  { revert Hmarked. induction files as [|file rest IH]; intros Hmarked acc Hacc;
      [exact Hacc |].
    cbn [fold_left]. apply IH.
    - intros f p Hf. apply Hmarked. right. exact Hf.
    - destruct acc as [t c]. simpl in Hacc. subst c.
      destruct (truthy_patch file) as [p|] eqn:Hp; [| reflexivity].
      cbv zeta. cbn [snd].
      rewrite (no_comment_among_diffMarked _ (Hmarked file p (or_introl eq_refl) Hp)).
      reflexivity. }
  specialize (Hcount (0%nat, 0%nat) eq_refl).
  unfold countCommentLines.
  destruct (fold_left _ files (0%nat, 0%nat)) as [totalLines commentLines].
  simpl in Hcount. subst commentLines.
  destruct (Nat.ltb 0 totalLines) eqn:E.
  - apply Nat.ltb_lt in E.
    assert (0 < of_nat totalLines) by (unfold of_nat, Qlt; simpl; lia).
    unfold Math_min. rewrite Q.min_r.
    + change (of_nat 0) with 0. field. lra.
    + change (of_nat 0) with 0.
      assert (0 / of_nat totalLines * 100 * 5 == 0) as -> by (field; lra). lra.
  - reflexivity.
Qed.

Lemma comments_of_a_new_file_are_not_counted :
  analyzeCodeComments commentedFiles == 0.
Proof.
  apply added_comments_are_never_counted.
  intros file p [<- | []] Hp. injection Hp as <-. reflexivity.
Defined.

End ScorerExtras.

(** * Further properties of the code analyzer *)

Module AnalyzerExtras.
Import JS GitHub CodeAnalyzer AnalyzerSpec AnalyzerExtraSpec NumberFacts StringFacts.
Import ScorerSpec ScorerProofs ScorerExtras.

(** ** Naming conventions *)

Lemma count_by_fold {A} (f : A -> nat) (g : A -> bool) (l : list A) :
  (forall x, f x = if g x then 1%nat else 0%nat) ->
  forall acc,
    fold_left (fun violations x => (violations + f x)%nat) l acc =
    (acc + length (List.filter g l))%nat.
Proof.
  intros Hf. induction l as [|x l IH]; intros acc; simpl; [lia |].
  rewrite IH, Hf. destruct (g x); simpl; lia.
Qed.

Lemma filter_nothing {A} (p : A -> bool) (l : list A) :
  (forall x, p x = false) -> List.filter p l = [].
Proof.
  intros Hp. induction l as [|x l IH]; simpl; [reflexivity |].
  rewrite Hp. exact IH.
Qed.

(** X7. The naming check never penalises a declared name, with or without
    an underscore, whatever the type of the file: its result is the number
    of lines that assign to a single lower-case letter outside a loop
    header, capped at 10. *)
Theorem declared_names_are_never_penalised extname declaredNames lines filename :
  checkNamingConventions extname declaredNames lines filename =
  Nat.min
    (length
       (List.filter
          (fun line =>
             (singleLetterAssigned (trim line) &&
              negb (loopIndexIdiom (trim line)))%bool)
          lines))
    10.
Proof.
  unfold checkNamingConventions. cbv zeta. f_equal.
  rewrite (count_by_fold _
             (fun line =>
                (singleLetterAssigned (trim line) &&
                 negb (loopIndexIdiom (trim line)))%bool)).
  - reflexivity.
  - intros line. unfold namingViolationsOfLine. cbv zeta.
    rewrite (filter_nothing _ (declaredNames (trim line))).
    + destruct (_ || _)%bool; reflexivity.
    + intros name. cbn [strictEquals]. apply andb_false_r.
Qed.

(** ** Averages over the code files *)

Lemma sumOverCodeFiles_bounds metric files : forall total fileCount total' fileCount',
  (forall file q, metric file = Ok q -> 0 <= q <= 100) ->
  sumOverCodeFiles metric files total fileCount = Ok (total', fileCount') ->
  0 <= total <= 100 * of_nat fileCount ->
  0 <= total' <= 100 * of_nat fileCount'.
Proof.
  induction files as [|file rest IH];
    intros total fileCount total' fileCount' Hmetric Hrun Hinv.
  - simpl in Hrun. injection Hrun as <- <-. exact Hinv.
  - cbn [sumOverCodeFiles] in Hrun.
    destruct (isCodeFile (filename file)); [| eapply IH; eauto].
    destruct (truthy_patch file); [| eapply IH; eauto].
    destruct (metric file) as [value|e] eqn:Hvalue; [| discriminate].
    eapply IH; [exact Hmetric | exact Hrun |].
    pose proof (Hmetric file value Hvalue). rewrite of_nat_S. lra.
Qed.

Lemma averageOverCodeFiles_bounds metric files whenNone q :
  (forall file q, metric file = Ok q -> 0 <= q <= 100) ->
  0 <= whenNone <= 100 ->
  averageOverCodeFiles metric files whenNone = Ok q ->
  0 <= q <= 100.
Proof.
  intros Hmetric Hnone. unfold averageOverCodeFiles.
  destruct (sumOverCodeFiles metric files 0 0) as [[total fileCount]|e] eqn:Hsum;
    [| discriminate].
  intros H. injection H as <-.
  apply sumOverCodeFiles_bounds in Hsum;
    [| exact Hmetric | split; vm_compute; discriminate].
  destruct (Nat.ltb 0 fileCount) eqn:E; [| exact Hnone].
  apply Nat.ltb_lt, of_nat_pos in E. split.
  - apply Qle_shift_div_l; lra.
  - apply Qle_shift_div_r; lra.
Qed.

Lemma sumOverCodeFiles_total metric files : forall total fileCount,
  (forall file p, truthy_patch file = Some p -> exists q, metric file = Ok q) ->
  exists total' fileCount',
    sumOverCodeFiles metric files total fileCount = Ok (total', fileCount').
Proof.
  induction files as [|file rest IH]; intros total fileCount Hmetric.
  - simpl. eauto.
  - cbn [sumOverCodeFiles].
    destruct (isCodeFile (filename file)); [| apply IH; exact Hmetric].
    destruct (truthy_patch file) as [p|] eqn:Hp; [| apply IH; exact Hmetric].
    destruct (Hmetric file p Hp) as [q ->]. apply IH. exact Hmetric.
Qed.

Lemma sumOverCodeFiles_nothing metric files : forall total fileCount,
  noCodeToAnalyze files ->
  sumOverCodeFiles metric files total fileCount = Ok (total, fileCount).
Proof.
  induction files as [|file rest IH]; intros total fileCount Hnone; [reflexivity |].
  cbn [sumOverCodeFiles].
  destruct (Hnone file (or_introl eq_refl)) as [-> | ->].
  - apply IH. intros f Hf. apply Hnone. right. exact Hf.
  - destruct (isCodeFile (filename file));
      apply IH; intros f Hf; apply Hnone; right; exact Hf.
Qed.

Lemma sumOverCodeFiles_throws metric files file p e : forall total fileCount,
  In file files -> isCodeFile (filename file) = true ->
  truthy_patch file = Some p -> metric file = Throw e ->
  exists e', sumOverCodeFiles metric files total fileCount = Throw e'.
Proof.
  induction files as [|f rest IH]; intros total fileCount Hin Hcode Hp He;
    [destruct Hin |].
  cbn [sumOverCodeFiles]. destruct Hin as [-> | Hin].
  - rewrite Hcode, Hp, He. eauto.
  - destruct (isCodeFile (filename f)); [| apply IH; assumption].
    destruct (truthy_patch f); [| apply IH; assumption].
    destruct (metric f) as [value|e1]; [apply IH; assumption | eauto].
Qed.

Lemma truthy_patch_Some file p : truthy_patch file = Some p -> patch file = Some p.
Proof.
  unfold truthy_patch. destruct (patch file) as [[|a s]|]; try discriminate.
  intros H. exact H.
Qed.

Lemma analyzeCodingStandards_range extname declaredNames file q :
  analyzeCodingStandards extname declaredNames file = Ok q -> 0 <= q <= 100.
Proof.
  unfold analyzeCodingStandards. destruct (patch file) as [p|]; [| discriminate].
  cbv zeta. intros H. injection H as <-. unfold Math_max. split.
  - apply Q.le_max_l.
  - apply Q.max_lub; [lra |].
    pose proof (of_nat_nonneg (checkNamingConventions extname declaredNames
                                 (addedLinesOf p) (filename file))).
    pose proof (of_nat_nonneg (checkIndentation (addedLinesOf p))).
    pose proof (of_nat_nonneg (checkLineLength (addedLinesOf p))).
    pose proof (of_nat_nonneg (checkCodeStructure (addedLinesOf p))).
    lra.
Qed.

(** X8. [checkCodingStandards] never throws, for any list of files, and
    its result lies in [0,100]. *)
Theorem coding_standards_is_a_percentage extname declaredNames files :
  exists q,
    checkCodingStandards extname declaredNames files = Ok q /\ 0 <= q <= 100.
Proof.
  destruct (sumOverCodeFiles_total (analyzeCodingStandards extname declaredNames)
              files 0 0%nat) as (total & fileCount & Hsum).
  { intros file p Hp. apply truthy_patch_Some in Hp.
    unfold analyzeCodingStandards. rewrite Hp. eauto. }
  unfold checkCodingStandards.
  assert (Hq : exists q,
             averageOverCodeFiles (analyzeCodingStandards extname declaredNames)
               files 100 = Ok q).
  { unfold averageOverCodeFiles. rewrite Hsum. eauto. }
  destruct Hq as [q Hq]. exists q. split; [exact Hq |].
  eapply averageOverCodeFiles_bounds; [| | exact Hq].
  - apply analyzeCodingStandards_range.
  - lra.
Qed.

(** ** Cyclomatic complexity *)

Lemma complexity_from_no_additions matchCount lines complexity :
  Forall (fun line => startsWith line "+" = false) lines ->
  complexity_from matchCount lines complexity = Ok complexity.
Proof.
  induction 1 as [|line rest Hline _ IH]; [reflexivity |].
  cbn [complexity_from]. rewrite Hline. exact IH.
Qed.

Lemma countKeywords_throws matchCount keyword cleanLine :
  forall keywords complexity,
    In keyword keywords ->
    (exists e, matchCount keyword cleanLine = Throw e) ->
    exists e, countKeywords matchCount keywords cleanLine complexity = Throw e.
Proof.
  induction keywords as [|k rest IH]; intros complexity Hin Hthrow; [destruct Hin |].
  cbn [countKeywords]. destruct Hin as [-> | Hin].
  - destruct Hthrow as [e ->]. eauto.
  - destruct (matchCount k cleanLine) as [matches|e]; [| eauto].
    apply IH; assumption.
Qed.

Lemma complexity_from_throws matchCount keyword lines :
  In keyword complexityKeywords ->
  rejects matchCount keyword ->
  Exists (fun line => startsWith line "+" = true) lines ->
  forall complexity,
    exists e, complexity_from matchCount lines complexity = Throw e.
Proof.
  intros Hin Hrej. induction 1 as [line rest Hline | line rest _ IH];
    intros complexity; cbn [complexity_from].
  - rewrite Hline. cbv zeta.
    destruct (countKeywords_throws matchCount keyword
                (toLowerCase (trim (substring1 line))) complexityKeywords
                complexity Hin (Hrej _)) as [e ->].
    eauto.
  - destruct (startsWith line "+"); [| apply IH].
    cbv zeta.
    destruct (countKeywords matchCount complexityKeywords _ complexity);
      [apply IH | eauto].
Qed.

(** ** The analyzer inside the scorer *)

Lemma calculateFileMaintainability_range calculateCyclomaticComplexity file q :
  calculateFileMaintainability calculateCyclomaticComplexity file = Ok q ->
  0 <= q <= 100.
Proof.
  unfold calculateFileMaintainability.
  destruct (patch file) as [p|]; [| discriminate].
  cbv zeta. destruct (Nat.eqb _ 0).
  { intros H. injection H as <-. lra. }
  destruct (calculateCyclomaticComplexity p) as [complexity|e]; [| discriminate].
  intros H. injection H as <-. unfold Math_max. split; [apply Q.le_max_l |].
  apply Q.max_lub; [lra |].
  destruct (Qgtb _ 80), (Qgtb complexity 10) eqn:Ec, (Qltb _ 0.1);
    try apply Qgtb_true_iff in Ec; lra.
Qed.

Lemma collectCodeBlocks_nothing files :
  noCodeToAnalyze files -> collectCodeBlocks files = [].
Proof.
  induction files as [|file rest IH]; intros Hnone; [reflexivity |].
  unfold collectCodeBlocks. cbn [flat_map].
  fold (collectCodeBlocks rest). rewrite IH.
  - destruct (Hnone file (or_introl eq_refl)) as [-> | ->]; [reflexivity |].
    destruct (isCodeFile (filename file)); reflexivity.
  - intros f Hf. apply Hnone. right. exact Hf.
Qed.

Lemma report_of_fetched_files codeAnalyzer config pr w files :
  fetch pr w 0 = Ok files ->
  exists report w',
    PRScorer.scorePR codeAnalyzer config pr w = (Ok report, w') /\
    PRScorer.score (PRScorer.codeQuality (PRScorer.scores report)) =
    codeQualityOutcome codeAnalyzer files.
Proof.
  intros Hfetch.
  destruct (scorePR_run codeAnalyzer config pr w) as (w' & Hrun & _).
  exists (reportOutcome codeAnalyzer config pr w), w'.
  split; [exact Hrun |].
  unfold reportOutcome. rewrite Hfetch. reflexivity.
Qed.

(** X9. A pull request none of whose code files carries a patch gets the
    neutral value of every metric (complexity 0, standards 100, no
    duplication, maintainability 100), whatever the complexity engine would
    have answered, and so a code-quality score of 100. *)
Theorem nothing_to_analyze_scores_100
  extname declaredNames calculateCyclomaticComplexity config pr w files :
  fetch pr w 0 = Ok files ->
  noCodeToAnalyze files ->
  analyzeComplexity calculateCyclomaticComplexity files = Ok 0 /\
  checkCodingStandards extname declaredNames files = Ok 100 /\
  detectDuplication files = 0 /\
  calculateMaintainability calculateCyclomaticComplexity files = Ok 100 /\
  exists report w',
    PRScorer.scorePR
      (theCodeAnalyzer extname declaredNames calculateCyclomaticComplexity)
      config pr w = (Ok report, w') /\
    PRScorer.score (PRScorer.codeQuality (PRScorer.scores report)) == 100.
Proof.
  intros Hfetch Hnone.
  assert (Hc : analyzeComplexity calculateCyclomaticComplexity files = Ok 0).
  { unfold analyzeComplexity, averageOverCodeFiles.
    rewrite sumOverCodeFiles_nothing by exact Hnone. reflexivity. }
  assert (Hs : checkCodingStandards extname declaredNames files = Ok 100).
  { unfold checkCodingStandards, averageOverCodeFiles.
    rewrite sumOverCodeFiles_nothing by exact Hnone. reflexivity. }
  assert (Hd : detectDuplication files = 0).
  { unfold detectDuplication. rewrite collectCodeBlocks_nothing by exact Hnone.
    reflexivity. }
  assert (Hm : calculateMaintainability calculateCyclomaticComplexity files = Ok 100).
  { unfold calculateMaintainability, averageOverCodeFiles.
    rewrite sumOverCodeFiles_nothing by exact Hnone. reflexivity. }
  repeat (split; [assumption |]).
  destruct (report_of_fetched_files
              (theCodeAnalyzer extname declaredNames calculateCyclomaticComplexity)
              config pr w files Hfetch) as (report & w' & Hrun & Hscore).
  exists report, w'. split; [exact Hrun |].
  rewrite Hscore. unfold codeQualityOutcome, theCodeAnalyzer.
  cbn [PRScorer.analyzeComplexity PRScorer.checkCodingStandards
       PRScorer.detectDuplication PRScorer.calculateMaintainability].
  rewrite Hc, Hs, Hd, Hm. vm_compute. reflexivity.
Qed.

Lemma a_readme_change_scores_100 :
  exists report w',
    PRScorer.scorePR (theCodeAnalyzer simpleExtname everyWord rejectingEngine)
      defaultConfig examplePR (platformWith [readme; binaryAsset]) =
      (Ok report, w') /\
    PRScorer.score (PRScorer.codeQuality (PRScorer.scores report)) == 100.
Proof.
  apply (nothing_to_analyze_scores_100 simpleExtname everyWord rejectingEngine
           defaultConfig examplePR (platformWith [readme; binaryAsset])
           [readme; binaryAsset]).
  - reflexivity.
  - intros file [<- | [<- | []]]; [left | right]; reflexivity.
Defined.

Lemma hasAddedLine_truthy file p :
  patch file = Some p -> hasAddedLine p -> truthy_patch file = Some p.
Proof.
  intros Hp Hadded. unfold truthy_patch. rewrite Hp.
  destruct p; [| reflexivity].
  unfold hasAddedLine in Hadded. cbn in Hadded.
  apply Exists_cons in Hadded as [H | H]; [discriminate | inversion H].
Qed.

(** X10. If the regular-expression engine rejects the pattern that
    [calculateCyclomaticComplexity] builds for the keyword "?", then every
    pull request with an added line in a code file has its code-quality
    analysis fail: the complexity metric throws and the score is 50. *)
Theorem rejected_keyword_pattern_scores_50
  extname declaredNames matchCount config pr w files file p :
  rejects matchCount "?" ->
  fetch pr w 0 = Ok files ->
  In file files ->
  isCodeFile (filename file) = true ->
  patch file = Some p ->
  hasAddedLine p ->
  (exists e,
     analyzeComplexity (calculateCyclomaticComplexity matchCount) files = Throw e) /\
  exists report w',
    PRScorer.scorePR
      (theCodeAnalyzer extname declaredNames
         (calculateCyclomaticComplexity matchCount))
      config pr w = (Ok report, w') /\
    PRScorer.score (PRScorer.codeQuality (PRScorer.scores report)) == 50.
Proof.
  intros Hrej Hfetch Hin Hcode Hp Hadded.
  assert (Hthrow : exists e,
             analyzeComplexity (calculateCyclomaticComplexity matchCount) files
             = Throw e).
  { destruct (complexity_from_throws matchCount "?" (split_lines p)) with
      (complexity := 1) as [e He].
    - unfold complexityKeywords. simpl. tauto.
    - exact Hrej.
    - exact Hadded.
    - unfold analyzeComplexity, averageOverCodeFiles.
      destruct (sumOverCodeFiles_throws
                  (fun file =>
                     match patch file with
                     | Some p => calculateCyclomaticComplexity matchCount p
                     | None => Throw TypeError
                     end)
                  files file p e 0 0%nat Hin Hcode
                  (hasAddedLine_truthy file p Hp Hadded)) as [e' ->].
      + rewrite Hp. exact He.
      + eauto. }
  split; [exact Hthrow |].
  destruct Hthrow as [e He].
  destruct (report_of_fetched_files
              (theCodeAnalyzer extname declaredNames
                 (calculateCyclomaticComplexity matchCount))
              config pr w files Hfetch) as (report & w' & Hrun & Hscore).
  exists report, w'. split; [exact Hrun |].
  rewrite Hscore. unfold codeQualityOutcome, theCodeAnalyzer.
  cbn [PRScorer.analyzeComplexity PRScorer.checkCodingStandards
       PRScorer.detectDuplication PRScorer.calculateMaintainability].
  rewrite He. reflexivity.
Qed.

Lemma one_added_line_scores_50 :
  (exists e,
     analyzeComplexity (calculateCyclomaticComplexity strictEngine)
       [readme; snakeCase] = Throw e) /\
  exists report w',
    PRScorer.scorePR
      (theCodeAnalyzer simpleExtname everyWord
         (calculateCyclomaticComplexity strictEngine))
      defaultConfig examplePR (platformWith [readme; snakeCase]) =
      (Ok report, w') /\
    PRScorer.score (PRScorer.codeQuality (PRScorer.scores report)) == 50.
Proof.
  apply (rejected_keyword_pattern_scores_50 simpleExtname everyWord strictEngine
           defaultConfig examplePR (platformWith [readme; snakeCase])
           [readme; snakeCase] snakeCase
           (match patch snakeCase with Some p => p | None => EmptyString end)).
  - intros cleanLine. eexists. reflexivity.
  - reflexivity.
  - right. left. reflexivity.
  - reflexivity.
  - reflexivity.
  - unfold hasAddedLine. vm_compute. apply Exists_cons_tl, Exists_cons_hd.
    reflexivity.
Defined.

(** X11. With the metrics of code-analyzer.js the code-quality score of a
    report is never below 22.5, whatever the files are and whatever the
    complexity engine answers. *)
Theorem code_quality_is_at_least_22_5
  extname declaredNames calculateCyclomaticComplexity config pr w :
  exists report w',
    PRScorer.scorePR
      (theCodeAnalyzer extname declaredNames calculateCyclomaticComplexity)
      config pr w = (Ok report, w') /\
    22.5 <= PRScorer.score (PRScorer.codeQuality (PRScorer.scores report)) <= 100.
Proof.
  set (analyzer :=
         theCodeAnalyzer extname declaredNames calculateCyclomaticComplexity).
  destruct (scorePR_run analyzer config pr w) as (w' & Hrun & _).
  exists (reportOutcome analyzer config pr w), w'.
  split; [exact Hrun |].
  unfold reportOutcome. destruct (fetch pr w 0) as [files|e]; simpl; [| lra].
  split; [| apply codeQualityOutcome_range].
  unfold codeQualityOutcome, analyzer, theCodeAnalyzer.
  cbn [PRScorer.analyzeComplexity PRScorer.checkCodingStandards
       PRScorer.detectDuplication PRScorer.calculateMaintainability].
  destruct (analyzeComplexity calculateCyclomaticComplexity files)
    as [complexity|]; [| lra].
  destruct (checkCodingStandards extname declaredNames files)
    as [standards|] eqn:Hs; [| lra].
  destruct (calculateMaintainability calculateCyclomaticComplexity files)
    as [maintainability|] eqn:Hm; [| lra].
  apply averageOverCodeFiles_bounds in Hs;
    [| apply analyzeCodingStandards_range | lra].
  apply averageOverCodeFiles_bounds in Hm;
    [| apply calculateFileMaintainability_range | lra].
  apply clamp_ge; [lra |].
  unfold PRScorer.codeQualityTotal.
  pose proof (Math_min_le_r (complexity * 5) 50).
  pose proof (Math_min_le_r (detectDuplication files * 10) 50).
  lra.
Qed.

Example snake_case_costs_nothing :
  checkCodingStandards simpleExtname everyWord [snakeCase] = Ok 95 /\
  codeQualityOutcome (theCodeAnalyzer simpleExtname everyWord baseComplexity)
    [snakeCase] == 93.5.
Proof. split; vm_compute; reflexivity. Qed.

(** X12. A patch without an added line has complexity 1 and
    maintainability 100 whatever the regular-expression engine does: no
    pattern is built for it. *)
Theorem patch_without_additions_is_simple matchCount file p :
  patch file = Some p ->
  Forall (fun line => startsWith line "+" = false) (split_lines p) ->
  calculateCyclomaticComplexity matchCount p = Ok 1 /\
  calculateFileMaintainability (calculateCyclomaticComplexity matchCount) file
  = Ok 100.
Proof.
  intros Hp Hnone. split.
  - apply complexity_from_no_additions. exact Hnone.
  - unfold calculateFileMaintainability. rewrite Hp. cbv zeta.
    unfold addedLinesOf.
    replace (List.filter (fun line => startsWith line "+") (split_lines p))
      with (@nil string); [reflexivity |].
    symmetry. induction Hnone as [|line rest Hline _ IH]; [reflexivity |].
    cbn [List.filter]. rewrite Hline. exact IH.
Qed.

Lemma a_deletion_is_simple :
  calculateCyclomaticComplexity strictEngine
    (match patch deletion with Some p => p | None => EmptyString end) = Ok 1 /\
  calculateFileMaintainability (calculateCyclomaticComplexity strictEngine)
    deletion = Ok 100.
Proof.
  apply (patch_without_additions_is_simple strictEngine deletion).
  - reflexivity.
  - vm_compute. repeat constructor.
Defined.

(** ** Test quality *)

Lemma analyzeTestFile_cases file :
  match analyzeTestFile file with
  | Ok analysis => patch file <> None /\ 0 <= test_score analysis <= 100
  | Throw e => e = TypeError /\ patch file = None
  end.
Proof.
  unfold analyzeTestFile. destruct (patch file) as [p|]; [| split; reflexivity].
  cbv zeta. split; [discriminate |]. cbn [test_score].
  destruct (Nat.ltb 0 (length (addedLinesOf p))) eqn:E; [| lra].
  apply Nat.ltb_lt, of_nat_pos in E.
  unfold Math_min. split; [| apply Q.le_min_l].
  apply Q.min_glb; [lra |].
  apply Qmult_le_0_compat; [| lra].
  apply Qle_shift_div_l; [exact E |].
  rewrite Qmult_0_l. apply of_nat_nonneg.
Qed.

Lemma analyzeTestFiles_from_cases testFiles : forall totalScore analyses,
  match analyzeTestFiles_from testFiles totalScore analyses with
  | Ok (totalScore', analyses') =>
      length analyses' = (length analyses + length testFiles)%nat /\
      totalScore <= totalScore' <= totalScore + 100 * of_nat (length testFiles) /\
      (forall file, In file testFiles -> patch file <> None)
  | Throw e =>
      e = TypeError /\ exists file, In file testFiles /\ patch file = None
  end.
Proof.
  induction testFiles as [|testFile rest IH]; intros totalScore analyses.
  - cbn [analyzeTestFiles_from length]. split; [lia |].
    split; [| intros file []]. change (of_nat 0) with 0. lra.
  - cbn [analyzeTestFiles_from].
    pose proof (analyzeTestFile_cases testFile) as Hfile.
    destruct (analyzeTestFile testFile) as [analysis|e].
    + specialize (IH (totalScore + test_score analysis) (analyses ++ [analysis])).
      destruct (analyzeTestFiles_from rest _ _) as [[totalScore' analyses']|e].
      * destruct IH as (Hlen & Hsum & Hall). destruct Hfile as (Hp & Hscore).
        split; [rewrite Hlen, length_app; simpl; lia |].
        split.
        -- cbn [length]. rewrite of_nat_S. lra.
        -- intros file [<- | Hin]; [exact Hp | apply Hall; exact Hin].
      * destruct IH as (-> & file & Hin & Hp). split; [reflexivity |].
        exists file. split; [right; exact Hin | exact Hp].
    + destruct Hfile as (-> & Hp). split; [reflexivity |].
      exists testFile. split; [left; reflexivity | exact Hp].
Qed.

(** X13. [analyzeTestQuality] has three outcomes. Without a test file it
    returns score 0. It throws, with the engine's TypeError, exactly when
    some test file has no patch. Otherwise it returns an average in
    [0,100], one analysis per test file. *)
Theorem test_quality_outcomes files :
  match analyzeTestQuality files with
  | Ok (NoTestFiles score details) =>
      score = 0 /\
      forall file, In file files -> isTestFile (filename file) = false
  | Ok (TestFiles score details testFileCount) =>
      0 <= score <= 100 /\
      (0 < testFileCount)%nat /\
      length details = testFileCount /\
      forall file, In file files -> isTestFile (filename file) = true ->
                   patch file <> None
  | Throw e =>
      e = TypeError /\
      exists file, In file files /\ isTestFile (filename file) = true /\
                   patch file = None
  end.
Proof.
  unfold analyzeTestQuality. cbv zeta.
  set (testFiles := List.filter (fun file => isTestFile (filename file)) files).
  destruct (Nat.eqb (length testFiles) 0) eqn:E.
  - split; [reflexivity |]. intros file Hin.
    apply Nat.eqb_eq, length_zero_iff_nil in E.
    destruct (isTestFile (filename file)) eqn:Ht; [| reflexivity].
    assert (Hmem : In file testFiles) by (apply filter_In; split; assumption).
    rewrite E in Hmem. destruct Hmem.
  - apply Nat.eqb_neq in E.
    pose proof (analyzeTestFiles_from_cases testFiles 0 []) as Hloop.
    destruct (analyzeTestFiles_from testFiles 0 []) as [[totalScore analyses]|e].
    + destruct Hloop as (Hlen & Hsum & Hall).
      assert (Hpos : 0 < of_nat (length testFiles)) by (apply of_nat_pos; lia).
      split; [| split; [lia | split; [exact Hlen |]]].
      * split.
        -- apply Qle_shift_div_l; lra.
        -- apply Qle_shift_div_r; lra.
      * intros file Hin Ht. apply Hall. apply filter_In. split; assumption.
    + destruct Hloop as (-> & file & Hin & Hp). split; [reflexivity |].
      apply filter_In in Hin as [Hin Ht]. eauto.
Qed.

Example test_file_without_patch_throws :
  analyzeTestQuality [readme; testWithoutPatch] = Throw TypeError.
Proof. reflexivity. Qed.

Example three_line_test_scores_100 :
  match analyzeTestQuality [testWithPatch] with
  | Ok (TestFiles score [analysis] 1) =>
      score == 100 /\ testCount analysis = 2%nat /\ assertionCount analysis = 1%nat
  | _ => False
  end.
Proof. vm_compute. repeat split. Qed.

(** ** Keywords with a capital letter *)

Lemma toLowerChar_not_upper c :
  (Nat.leb 65 (nat_of_ascii (toLowerChar c)) &&
   Nat.leb (nat_of_ascii (toLowerChar c)) 90)%bool = false.
Proof.
  destruct c as [[] [] [] [] [] [] [] []]; vm_compute; reflexivity.
Qed.

Lemma toLowerCase_no_upper s : hasUpperCase (toLowerCase s) = false.
Proof.
  induction s as [|c s IH]; [reflexivity |].
  cbn [toLowerCase hasUpperCase]. rewrite toLowerChar_not_upper, IH. reflexivity.
Qed.

Lemma prefix_no_upper sub : forall s,
  hasUpperCase s = false -> String.prefix sub s = true -> hasUpperCase sub = false.
Proof.
  induction sub as [|c sub IH]; intros s Hs Hpre; [reflexivity |].
  destruct s as [|d s]; [discriminate |].
  cbn [String.prefix] in Hpre. cbn [hasUpperCase] in Hs |- *.
  apply orb_false_iff in Hs as [Hd Hs].
  destruct (Ascii.ascii_dec c d) as [-> | Hne]; [| discriminate].
  rewrite Hd. cbn [orb]. apply (IH s); assumption.
Qed.

Lemma includes_no_upper sub : forall s,
  hasUpperCase s = false -> hasUpperCase sub = true -> includes s sub = false.
Proof.
  induction s as [|c s IH]; intros Hs Hsub.
  - destruct sub; [discriminate | reflexivity].
  - cbn [includes]. unfold startsWith.
    destruct (String.prefix sub (String c s)) eqn:Hpre.
    + apply prefix_no_upper in Hpre; [congruence | exact Hs].
    + cbn [orb]. apply IH; [| exact Hsub].
      cbn [hasUpperCase] in Hs. apply orb_false_iff in Hs as [_ Hs]. exact Hs.
Qed.

(** X14. The assertion keywords toBe, toEqual and toContain never match,
    because the line is lower-cased before the search: a line counts as an
    assertion exactly when it contains expect, assert or should. *)
Theorem camel_case_assertion_keywords_are_dead line :
  isAssertionLine line =
  some (fun keyword => includes (toLowerCase (trim line)) keyword)
       ["expect"; "assert"; "should"].
Proof.
  unfold isAssertionLine, assertionKeywords, some. cbv zeta. cbn [existsb].
  rewrite (includes_no_upper "toBe"), (includes_no_upper "toEqual"),
    (includes_no_upper "toContain")
    by (apply toLowerCase_no_upper || reflexivity).
  rewrite !orb_false_r. reflexivity.
Qed.

(** ** The analysis report *)

Lemma orElse_not_zero value fallback :
  ~ fallback == 0 -> ~ orElse value fallback == 0.
Proof.
  intros Hf. unfold orElse. destruct value as [q|]; [| exact Hf].
  destruct (Qeq_bool q 0) eqn:E; [exact Hf |].
  intros H. apply Qeq_bool_iff in H. congruence.
Qed.

Lemma orElse_zero q fallback :
  q == 0 -> orElse (Some q) fallback = fallback.
Proof.
  intros H. unfold orElse. apply Qeq_bool_iff in H. rewrite H. reflexivity.
Qed.

(** X15. The summary of an analysis report never shows 0 for standards
    compliance or for the maintainability index: a measured 0 is shown as
    100, next to the recommendation that the metric be improved. *)
Theorem report_shows_zero_as_100 now results :
  ~ standardsCompliance (summary (generateAnalysisReport now results)) == 0 /\
  ~ maintainabilityIndex (summary (generateAnalysisReport now results)) == 0 /\
  (forall q, standards results = Some q -> q == 0 ->
     standardsCompliance (summary (generateAnalysisReport now results)) = 100 /\
     In "Review and improve adherence to coding standards"
        (recommendations (generateAnalysisReport now results))) /\
  (forall q, maintainability results = Some q -> q == 0 ->
     maintainabilityIndex (summary (generateAnalysisReport now results)) = 100 /\
     In "Improve code maintainability by adding comments and simplifying logic"
        (recommendations (generateAnalysisReport now results))).
Proof.
  cbn [generateAnalysisReport summary recommendations standardsCompliance
       maintainabilityIndex].
  split; [apply orElse_not_zero; discriminate |].
  split; [apply orElse_not_zero; discriminate |].
  split; intros q Hq Hzero; rewrite Hq.
  - split; [apply orElse_zero; exact Hzero |].
    unfold generateRecommendations. rewrite Hq. cbn [below].
    assert (Qltb q 80 = true) as -> by (apply Qltb_true_iff; lra).
    apply in_or_app. right. left. reflexivity.
  - split; [apply orElse_zero; exact Hzero |].
    unfold generateRecommendations. rewrite Hq. cbn [below].
    assert (Qltb q 70 = true) as -> by (apply Qltb_true_iff; lra).
    do 3 (apply in_or_app; right). left. reflexivity.
Qed.

(** ** Code blocks *)

Lemma length_join_ge (parts : list string) :
  Forall blockLine parts ->
  (12 * length parts <= String.length (join newline parts) + 1)%nat.
Proof.
  induction 1 as [|line rest [Hlen _] Hrest IH]; [simpl; lia |].
  destruct rest as [|next rest'].
  - cbn [join length]. lia.
  - change (join newline (line :: next :: rest'))
      with (line +:+ newline +:+ join newline (next :: rest')).
    rewrite !length_append. cbn [length] in IH |- *.
    change (String.length newline) with 1%nat. lia.
Qed.

Lemma flushed_block currentBlock block :
  Forall blockLine currentBlock ->
  In block (if Nat.leb 3 (length currentBlock)
            then [join newline (rev currentBlock)] else []) ->
  exists lines,
    block = join newline lines /\ (3 <= length lines)%nat /\
    Forall blockLine lines.
Proof.
  intros Hall Hin. destruct (Nat.leb 3 (length currentBlock)) eqn:E;
    [| destruct Hin].
  destruct Hin as [<- | []]. exists (rev currentBlock).
  split; [reflexivity |]. split.
  - rewrite List.length_rev. apply Nat.leb_le. exact E.
  - apply Forall_rev. exact Hall.
Qed.

Lemma extractCodeBlocks_from_blocks addedLines : forall currentBlock block,
  Forall blockLine currentBlock ->
  In block (extractCodeBlocks_from addedLines currentBlock) ->
  exists lines,
    block = join newline lines /\ (3 <= length lines)%nat /\
    Forall blockLine lines.
Proof.
  induction addedLines as [|line rest IH]; intros currentBlock block Hall Hin;
    cbn [extractCodeBlocks_from] in Hin.
  - apply (flushed_block currentBlock); assumption.
  - destruct (Nat.ltb 10 (String.length line)) eqn:E1;
      destruct (startsWith line "//") eqn:E2;
      destruct (startsWith line "/*") eqn:E3; cbn [andb negb] in Hin.
    4: { apply (IH (line :: currentBlock)); [| exact Hin].
         constructor; [| exact Hall].
         apply Nat.ltb_lt in E1. repeat split; assumption. }
    all: apply in_app_or in Hin as [Hin | Hin];
      [apply (flushed_block currentBlock); assumption
      | apply (IH []); [constructor | exact Hin]].
Qed.

(** X16. Every block that [extractCodeBlocks] returns is the join of at
    least three lines, each longer than 10 characters and none opening a
    comment; so a block has at least 35 characters. *)
Theorem code_blocks_have_three_long_lines patch block :
  In block (extractCodeBlocks patch) ->
  (exists lines,
     block = join newline lines /\ (3 <= length lines)%nat /\
     Forall (fun line =>
               (10 < String.length line)%nat /\
               startsWith line "//" = false /\ startsWith line "/*" = false)
            lines) /\
  (35 <= String.length block)%nat.
Proof.
  intros Hin. unfold extractCodeBlocks in Hin. cbv zeta in Hin.
  apply extractCodeBlocks_from_blocks in Hin; [| constructor].
  destruct Hin as (lines & -> & Hlen & Hall).
  split; [exists lines; repeat split; assumption |].
  pose proof (length_join_ge lines Hall). lia.
Qed.

Lemma three_statements_make_a_block :
  (exists lines,
     join newline
       ["const names = [];"; "const ready = false;"; "const limit = 100;"]
     = join newline lines /\ (3 <= length lines)%nat /\
     Forall (fun line =>
               (10 < String.length line)%nat /\
               startsWith line "//" = false /\ startsWith line "/*" = false)
            lines) /\
  (35 <= String.length
           (join newline
              ["const names = [];"; "const ready = false;"; "const limit = 100;"]))%nat.
Proof.
  apply (code_blocks_have_three_long_lines threeStatements).
  vm_compute. left. reflexivity.
Defined.

(** ** Identical blocks *)

Lemma filter_present (words : list string) :
  List.filter (fun w => existsb (String.eqb w) words) words = words.
Proof.
  assert (H : forall l, incl l words ->
            List.filter (fun w => existsb (String.eqb w) words) l = l).
  { induction l as [|w l IH]; intros Hincl; [reflexivity |].
    cbn [List.filter].
    assert (Hw : existsb (String.eqb w) words = true).
    { apply existsb_exists. exists w. split.
      - apply Hincl. left. reflexivity.
      - apply String.eqb_refl. }
    rewrite Hw, IH; [reflexivity |].
    intros x Hx. apply Hincl. right. exact Hx. }
  apply H. apply incl_refl.
Qed.

(** X17. A block is similar to itself exactly when it has at least 50
    characters and at least one word of three or more characters; two
    verbatim copies of such a block always count as a duplication. *)
Theorem verbatim_copy_is_a_duplicate block :
  areSimilarBlocks block block = true <->
  (50 <= String.length block)%nat /\ significantWords block <> [].
Proof.
  unfold areSimilarBlocks, wordOverlap. cbv zeta.
  rewrite filter_present, Nat.max_id, orb_diag.
  destruct (Nat.ltb (String.length block) 50) eqn:E.
  { apply Nat.ltb_lt in E. split; [discriminate | intros [H _]; lia]. }
  apply Nat.ltb_ge in E. unfold js_div.
  destruct (Qeq_bool (of_nat (length (significantWords block))) 0) eqn:Ez.
  - apply of_nat_eq_0, length_zero_iff_nil in Ez.
    split; [discriminate | intros [_ H]; contradiction].
  - assert (Hne : significantWords block <> []).
    { intros H. rewrite H in Ez. discriminate. }
    cbn [js_gt]. rewrite Qgtb_true_iff. split; [tauto |]. intros _.
    apply Qeq_bool_neq in Ez.
    apply Qlt_shift_div_l.
    + pose proof (of_nat_nonneg (length (significantWords block))). lra.
    + pose proof (of_nat_nonneg (length (significantWords block))). lra.
Qed.

End AnalyzerExtras.

(** * Further properties of the feature detector *)

Module DetectorExtras.
Import JS GitHub FeatureDetector DetectorSpec DetectorExtraSpec NumberFacts.

Lemma list_to_set_empty (names : list string) :
  (list_to_set names : gset string) = ∅ -> names = [].
Proof.
  destruct names as [|name rest]; [reflexivity |].
  intros H. assert (Hin : name ∈ (list_to_set (name :: rest) : gset string)).
  { apply elem_of_list_to_set. left. }
  rewrite H in Hin. set_solver.
Qed.

(** X18. The overlap ratio of two pull requests is NaN exactly when neither
    changes a file; otherwise it is a number between 0 and 1. *)
Theorem overlap_ratio_is_a_fraction platform pr1 pr2 :
  match overlapRatio platform pr1 pr2 with
  | NaN =>
      filesOf platform (number pr1) = [] /\ filesOf platform (number pr2) = []
  | Fin q =>
      0 <= q <= 1 /\
      (filesOf platform (number pr1) <> [] \/ filesOf platform (number pr2) <> [])
  | _ => False
  end.
Proof.
  unfold overlapRatio. cbv zeta.
  set (X := list_to_set (map filename (filesOf platform (number pr1))) : gset string).
  set (Y := list_to_set (map filename (filesOf platform (number pr2))) : gset string).
  assert (Hsub : filter (fun x => x ∈ Y) X ⊆ X ∪ Y).
  { intros x Hx. apply elem_of_filter in Hx as [_ Hx].
    apply elem_of_union. left. exact Hx. }
  apply subseteq_size in Hsub.
  unfold js_div.
  destruct (Qeq_bool (of_nat (size (X ∪ Y))) 0) eqn:E.
  - apply of_nat_eq_0 in E.
    assert (Hi : size (filter (fun x => x ∈ Y) X) = 0%nat) by lia.
    rewrite Hi. cbn.
    apply size_empty_inv in E. apply leibniz_equiv in E.
    apply empty_union_L in E as [HX HY].
    apply list_to_set_empty, map_eq_nil in HX.
    apply list_to_set_empty, map_eq_nil in HY.
    split; assumption.
  - assert (Hpos : (0 < size (X ∪ Y))%nat).
    { destruct (size (X ∪ Y)) eqn:Es; [| lia].
      assert (Qeq_bool (of_nat 0) 0 = true) by reflexivity. congruence. }
    split.
    + split.
      * apply Qle_shift_div_l; [apply of_nat_pos; exact Hpos |].
        rewrite Qmult_0_l. apply (of_nat_le 0). lia.
      * apply Qle_shift_div_r; [apply of_nat_pos; exact Hpos |].
        rewrite Qmult_1_l. apply of_nat_le. exact Hsub.
    + destruct (filesOf platform (number pr1)) as [|f1 l1] eqn:E1;
        [| left; discriminate].
      destruct (filesOf platform (number pr2)) as [|f2 l2] eqn:E2;
        [| right; discriminate].
      exfalso. subst X Y. cbn in Hpos. rewrite union_empty_l_L, size_empty in Hpos.
      lia.
Qed.

(** X19. With a threshold that is not negative, [hasFileOverlap] answers
    true only for two pull requests that change a file of the same name. *)
Theorem overlap_needs_a_shared_file config platform pr1 pr2 :
  0 <= fileOverlapThreshold config ->
  hasFileOverlap config platform pr1 pr2 = true ->
  exists name,
    In name (map filename (filesOf platform (number pr1))) /\
    In name (map filename (filesOf platform (number pr2))).
Proof.
  intros Hthreshold. unfold hasFileOverlap, overlapRatio. cbv zeta.
  set (X := list_to_set (map filename (filesOf platform (number pr1))) : gset string).
  set (Y := list_to_set (map filename (filesOf platform (number pr2))) : gset string).
  intros Hover.
  destruct (decide (filter (fun x => x ∈ Y) X = ∅)) as [Hempty | Hne].
  - exfalso. rewrite Hempty, size_empty in Hover. unfold js_div in Hover.
    destruct (Qeq_bool (of_nat (size (X ∪ Y))) 0); [discriminate |].
    cbn [js_gt] in Hover. apply Qgtb_true_iff in Hover.
    assert (Hzero : of_nat 0 / of_nat (size (X ∪ Y)) == 0).
    { unfold Qdiv. apply Qmult_0_l. }
    rewrite Hzero in Hover. lra.
  - apply set_choose_L in Hne as [name Hname].
    apply elem_of_filter in Hname as [HY HX].
    exists name. split.
    + apply list_elem_of_In. apply elem_of_list_to_set in HX. exact HX.
    + apply list_elem_of_In. apply elem_of_list_to_set in HY. exact HY.
Qed.

Lemma login_and_session_share_a_file :
  exists name,
    In name (map filename (filesOf examplePlatform (number loginPR))) /\
    In name (map filename (filesOf examplePlatform (number sessionPR))).
Proof.
  apply (overlap_needs_a_shared_file exampleDetection examplePlatform
           loginPR sessionPR).
  - vm_compute. discriminate.
  - vm_compute. reflexivity.
Defined.

Section Detection.
Variable similarity : string -> string -> Q.
Variable RegExp : Type.
Variable RegExp_new : string -> result RegExp.
Variable group1 : RegExp -> string -> option (option string).
Variable config : FeatureDetection.
Variable platform : Platform.


Lemma collectRelated_cases currentPR open :
  collectRelated similarity RegExp RegExp_new group1 config platform currentPR open =
  if forallb (fun pr => (Z.eqb (number pr) (number currentPR) ||
                         is_Ok (isPRRelated similarity RegExp RegExp_new group1
                             config platform currentPR pr))%bool) open
  then Ok (map summary
             (List.filter
                (fun pr => (negb (Z.eqb (number pr) (number currentPR)) &&
                            verdict (isPRRelated similarity RegExp RegExp_new group1
                                config platform currentPR pr))%bool)
                open))
  else collectRelated similarity RegExp RegExp_new group1
      config platform currentPR open.
Proof.
  induction open as [|pr rest IH]; [reflexivity |].
  cbn [forallb List.filter FeatureDetector.collectRelated].
  destruct (Z.eqb (number pr) (number currentPR)); cbn [orb negb andb].
  - exact IH.
  - destruct (isPRRelated similarity RegExp RegExp_new group1
      config platform currentPR pr) as [isRelated|e]; cbn [is_Ok verdict andb];
      [| reflexivity].
    destruct (forallb _ rest); [| reflexivity].
    rewrite IH. destruct isRelated; reflexivity.
Qed.

Lemma collectRelated_throws currentPR open :
  forallb (fun pr => (Z.eqb (number pr) (number currentPR) ||
                      is_Ok (isPRRelated similarity RegExp RegExp_new group1
                          config platform currentPR pr))%bool) open = false ->
  exists e, collectRelated similarity RegExp RegExp_new group1
      config platform currentPR open = Throw e.
Proof.
  induction open as [|pr rest IH]; [discriminate |].
  cbn [forallb FeatureDetector.collectRelated].
  destruct (Z.eqb (number pr) (number currentPR)); cbn [orb andb]; [exact IH |].
  destruct (isPRRelated similarity RegExp RegExp_new group1
      config platform currentPR pr) as [isRelated|e]; cbn [is_Ok andb];
    [| eauto].
  intros H. destruct (IH H) as [e ->]. eauto.
Qed.

(** X20. [detectRelatedPRs similarity RegExp RegExp_new group1
    config platform] is all or nothing. When every comparison with
    another open pull request returns, the result lists, in the order of
    the platform, exactly the other open pull requests found related; when
    one comparison throws, the result is empty. *)
Theorem detection_is_all_or_nothing currentPR :
  detectRelatedPRs similarity RegExp RegExp_new group1 config platform currentPR =
  if forallb (fun pr => (Z.eqb (number pr) (number currentPR) ||
                         is_Ok (isPRRelated similarity RegExp RegExp_new group1
                             config platform currentPR pr))%bool)
             (openPRs platform)
  then map summary
         (List.filter
            (fun pr => (negb (Z.eqb (number pr) (number currentPR)) &&
                        verdict (isPRRelated similarity RegExp RegExp_new group1
                            config platform currentPR pr))%bool)
            (openPRs platform))
  else [].
Proof.
  unfold FeatureDetector.detectRelatedPRs.
  destruct (forallb _ (openPRs platform)) eqn:E.
  - rewrite collectRelated_cases, E. reflexivity.
  - destruct (collectRelated_throws currentPR (openPRs platform) E) as [e ->].
    reflexivity.
Qed.

(** ** A pattern the engine rejects *)

Lemma collectRelated_nothing currentPR open :
  (forall pr, exists e, isPRRelated similarity RegExp RegExp_new group1
      config platform currentPR pr = Throw e) ->
  collectRelated similarity RegExp RegExp_new group1
      config platform currentPR open = Ok [] \/
  exists e, collectRelated similarity RegExp RegExp_new group1
      config platform currentPR open = Throw e.
Proof.
  intros Hthrow. induction open as [|pr rest IH]; [left; reflexivity |].
  cbn [FeatureDetector.collectRelated].
  destruct (Z.eqb (number pr) (number currentPR)); [exact IH |].
  destruct (Hthrow pr) as [e ->]. right. eauto.
Qed.

Lemma groupPRs_from_nothing prs : forall groups processed,
  (forall pr, detectRelatedPRs similarity RegExp RegExp_new group1
      config platform pr = []) ->
  groupPRs_from similarity RegExp RegExp_new group1
      config platform prs groups processed = Ok groups.
Proof.
  induction prs as [|pr rest IH]; intros groups processed Hnone; [reflexivity |].
  cbn [FeatureDetector.groupPRs_from]. rewrite Hnone. cbn [length Nat.ltb Nat.leb].
  destruct (decide (number pr ∈ processed)); apply IH; exact Hnone.
Qed.

(** X21. When the engine rejects the first branch pattern, every
    comparison throws: [detectRelatedPRs similarity RegExp RegExp_new group1
        config platform] returns no related pull request
    for any pull request, and [groupPRsByFeature similarity RegExp RegExp_new group1
        config platform] returns no group,
    whatever the titles, labels and files are. *)
Theorem rejected_first_pattern_finds_nothing pattern rest e :
  branchPatterns config = pattern :: rest ->
  RegExp_new (replaceStar pattern) = Throw e ->
  (forall currentPR, detectRelatedPRs similarity RegExp RegExp_new group1
      config platform currentPR = []) /\
  (forall prs, groupPRsByFeature similarity RegExp RegExp_new group1
      config platform prs = Ok []).
Proof.
  intros Hpatterns Hreject.
  assert (Hnone : forall currentPR, detectRelatedPRs similarity RegExp RegExp_new group1
      config platform currentPR = []).
  { intros currentPR. unfold FeatureDetector.detectRelatedPRs.
    destruct (collectRelated_nothing currentPR (openPRs platform)) as [-> | [e' ->]];
      try reflexivity.
    intros pr. exists e.
    unfold FeatureDetector.isPRRelated, FeatureDetector.isBranchRelated.
    rewrite Hpatterns. cbn [FeatureDetector.isBranchRelated_from].
    rewrite Hreject. reflexivity. }
  split; [exact Hnone |].
  intros prs. apply groupPRs_from_nothing. exact Hnone.
Qed.

(** ** The groups of a run *)

Lemma groupPRs_from_groups prs : forall groups processed result,
  groupPRs_from similarity RegExp RegExp_new group1
      config platform prs groups processed = Ok result ->
  (forall g n, In g groups -> In n (members g) -> n ∈ processed) ->
  (forall i j g1 g2, (i < j)%nat -> groups !! i = Some g1 -> groups !! j = Some g2 ->
     ~ In (number (anchor g2)) (members g1)) ->
  Forall (fun g =>
            In g groups \/
            (In (anchor g) prs /\
             related g = detectRelatedPRs similarity RegExp RegExp_new group1
                 config platform (anchor g) /\
             related g <> [] /\
             extractFeatureName RegExp RegExp_new group1
                 config (anchor g) = Ok (feature g)))
         result /\
  (forall i j g1 g2, (i < j)%nat -> result !! i = Some g1 -> result !! j = Some g2 ->
     ~ In (number (anchor g2)) (members g1)).
Proof.
  induction prs as [|pr rest IH]; intros groups processed result Hrun Hmem Hord.
  - cbn in Hrun. injection Hrun as <-. split; [| exact Hord].
    apply List.Forall_forall. intros g Hg. left. exact Hg.
  - cbn [FeatureDetector.groupPRs_from] in Hrun.
    assert (Hweaken :
      forall known,
        Forall (fun g =>
                  In g known \/
                  (In (anchor g) rest /\
                   related g = detectRelatedPRs similarity RegExp RegExp_new group1
                       config platform (anchor g) /\
                   related g <> [] /\
                   extractFeatureName RegExp RegExp_new group1
                       config (anchor g) = Ok (feature g))) result ->
        (forall g, In g known ->
           In g groups \/
           (In (anchor g) (pr :: rest) /\
            related g = detectRelatedPRs similarity RegExp RegExp_new group1
                config platform (anchor g) /\
            related g <> [] /\
            extractFeatureName RegExp RegExp_new group1
                config (anchor g) = Ok (feature g))) ->
        Forall (fun g =>
                  In g groups \/
                  (In (anchor g) (pr :: rest) /\
                   related g = detectRelatedPRs similarity RegExp RegExp_new group1
                       config platform (anchor g) /\
                   related g <> [] /\
                   extractFeatureName RegExp RegExp_new group1
                       config (anchor g) = Ok (feature g))) result).
    { intros known Hall Hknown. eapply Forall_impl; [exact Hall |].
      intros g [Hg | (Hin & Hrest)]; [apply Hknown; exact Hg |].
      right. split; [right; exact Hin | exact Hrest]. }
    destruct (decide (number pr ∈ processed)) as [Hseen | Hfresh].
    { destruct (IH _ _ _ Hrun Hmem Hord) as [Hall Hord'].
      split; [| exact Hord'].
      apply (Hweaken groups Hall). intros g Hg. left. exact Hg. }
    destruct (Nat.ltb 0 (length (detectRelatedPRs similarity RegExp RegExp_new group1
        config platform pr))) eqn:Hlen.
    2: { destruct (IH _ _ _ Hrun Hmem Hord) as [Hall Hord'].
         split; [| exact Hord'].
         apply (Hweaken groups Hall). intros g Hg. left. exact Hg. }
    destruct (extractFeatureName RegExp RegExp_new group1
        config pr) as [name|e] eqn:Hname; [| discriminate].
    set (group := {| feature := name; anchor := pr;
                     related := detectRelatedPRs similarity RegExp RegExp_new group1
                         config platform pr;
                     group_created_at := today platform |}) in Hrun.
    destruct (IH _ _ _ Hrun) as [Hall Hord'].
    + intros g n Hg Hn. apply in_app_or in Hg as [Hg | [<- | []]].
      * apply elem_of_union_l, elem_of_union_l. eapply Hmem; eassumption.
      * destruct Hn as [<- | Hn].
        -- apply elem_of_union_l, elem_of_union_r, elem_of_singleton. reflexivity.
        -- apply elem_of_union_r, elem_of_list_to_set, list_elem_of_In. exact Hn.
    + intros i j g1 g2 Hij H1 H2.
      destruct (decide (j < length groups)%nat) as [Hj | Hj].
      * rewrite lookup_app_l in H1 by lia. rewrite lookup_app_l in H2 by exact Hj.
        exact (Hord i j g1 g2 Hij H1 H2).
      * apply lookup_lt_Some in H2 as Hj'. rewrite length_app in Hj'. cbn in Hj'.
        assert (j = length groups) as -> by lia.
        rewrite lookup_app_l in H1 by lia.
        rewrite lookup_app_r, Nat.sub_diag in H2 by lia.
        injection H2 as <-. cbn [anchor group].
        intros Hin. apply Hfresh. apply (Hmem g1); [| exact Hin].
        apply list_elem_of_In. eapply list_elem_of_lookup_2. exact H1.
    + split; [| exact Hord'].
      apply (Hweaken (groups ++ [group]) Hall).
      intros g Hg. apply in_app_or in Hg as [Hg | [<- | []]]; [left; exact Hg |].
      right. cbn [anchor related feature group].
      split; [left; reflexivity |]. split; [reflexivity |].
      split; [| exact Hname].
      intros Hnil. rewrite Hnil in Hlen. discriminate.
Qed.

(** X22. In the groups that [groupPRsByFeature similarity RegExp RegExp_new group1
    config platform] returns, the first member
    of each group is one of the given pull requests, its companions are
    what [detectRelatedPRs similarity RegExp RegExp_new group1
        config platform] found for it, there is at least one companion,
    and the name is what [extractFeatureName RegExp RegExp_new group1
        config] gave; and the first member of
    a group is never a member of an earlier group. *)
Theorem groups_are_built_around_fresh_anchors prs groups :
  groupPRsByFeature similarity RegExp RegExp_new group1
      config platform prs = Ok groups ->
  Forall (fun g =>
            In (anchor g) prs /\
            related g = detectRelatedPRs similarity RegExp RegExp_new group1
                config platform (anchor g) /\
            related g <> [] /\
            extractFeatureName RegExp RegExp_new group1
                config (anchor g) = Ok (feature g))
         groups /\
  (forall i j g1 g2, (i < j)%nat -> groups !! i = Some g1 -> groups !! j = Some g2 ->
     ~ In (number (anchor g2)) (members g1)).
Proof.
  intros Hrun. unfold FeatureDetector.groupPRsByFeature in Hrun.
  destruct (groupPRs_from_groups prs [] ∅ groups Hrun) as [Hall Hord].
  - intros g n [].
  - intros i j g1 g2 _ H1. rewrite lookup_nil in H1. discriminate.
  - split; [| exact Hord].
    eapply Forall_impl; [exact Hall |]. intros g [[] | H]. exact H.
Qed.

(** ** Feature names *)

Lemma dashesToSpaces_clean s :
  occurs "-" (dashesToSpaces s) = false /\ occurs "_" (dashesToSpaces s) = false.
Proof.
  induction s as [|c s [IH1 IH2]]; [split; reflexivity |].
  cbn [dashesToSpaces occurs]. rewrite IH1, IH2.
  destruct (Ascii.eqb c "-") eqn:E1; [split; reflexivity |].
  destruct (Ascii.eqb c "_") eqn:E2; [split; reflexivity |].
  cbn [orb]. rewrite (Ascii.eqb_sym "-" c), (Ascii.eqb_sym "_" c), E1, E2.
  split; reflexivity.
Qed.

Lemma substring_0_length n : forall s,
  (String.length (String.substring 0 n s) <= n)%nat.
Proof.
  induction n as [|n IH]; intros s.
  - destruct s; cbn; lia.
  - destruct s as [|c s]; [cbn; lia |].
    cbn [String.substring String.length]. specialize (IH s). lia.
Qed.

Lemma extractFeatureName_from_shape patterns pr name :
  extractFeatureName_from RegExp RegExp_new group1 patterns pr = Ok name ->
  name = String.substring 0 50 (title pr) \/
  (occurs "-" name = false /\ occurs "_" name = false).
Proof.
  induction patterns as [|pattern rest IH];
    cbn [FeatureDetector.extractFeatureName_from].
  - intros H. injection H as <-. left. reflexivity.
  - destruct (RegExp_new (replaceStar pattern)) as [regex|e]; [| discriminate].
    destruct (group1 regex (head_ref pr)) as [[c|]|]; [| discriminate | exact IH].
    intros H. injection H as <-. right. apply dashesToSpaces_clean.
Qed.

(** X23. A feature name is either taken from the branch, and then it has
    no dash and no underscore, or it is the first 50 characters of the
    title, and then it has at most 50 characters. *)
Theorem feature_name_is_clean_or_short pr name :
  extractFeatureName RegExp RegExp_new group1 config pr = Ok name ->
  (occurs "-" name = false /\ occurs "_" name = false) \/
  (name = String.substring 0 50 (title pr) /\ (String.length name <= 50)%nat).
Proof.
  intros H. apply extractFeatureName_from_shape in H as [-> | H].
  - right. split; [reflexivity | apply substring_0_length].
  - left. exact H.
Qed.

End Detection.

Lemma broken_pattern_finds_nothing :
  FeatureDetector.detectRelatedPRs exactSimilarity string noRegExp_new prefixGroup1
    brokenDetection examplePlatform loginPR = [] /\
  FeatureDetector.groupPRsByFeature exactSimilarity string noRegExp_new prefixGroup1
    brokenDetection examplePlatform [loginPR; sessionPR; cookiePR] = Ok [].
Proof.
  destruct (rejected_first_pattern_finds_nothing exactSimilarity string
              noRegExp_new prefixGroup1 brokenDetection examplePlatform
              "feature/[*" [] _ eq_refl eq_refl) as [Hdetect Hgroup].
  split; [apply Hdetect | apply Hgroup].
Defined.

Lemma example_groups_are_built_around_fresh_anchors :
  Forall (fun g =>
            In (anchor g) [loginPR; sessionPR; cookiePR] /\
            related g =
              FeatureDetector.detectRelatedPRs exactSimilarity string
                prefixRegExp_new prefixGroup1 exampleDetection examplePlatform
                (anchor g) /\
            related g <> [] /\
            FeatureDetector.extractFeatureName string prefixRegExp_new
              prefixGroup1 exampleDetection (anchor g) = Ok (feature g))
         [ {| feature := "Add login form"; anchor := loginPR;
              related := [summary sessionPR];
              group_created_at := "2024-01-06T00:00:00Z" |};
           {| feature := "Rotate cookie secrets"; anchor := cookiePR;
              related := [summary sessionPR];
              group_created_at := "2024-01-06T00:00:00Z" |} ] /\
  (forall i j g1 g2, (i < j)%nat ->
     [ {| feature := "Add login form"; anchor := loginPR;
          related := [summary sessionPR];
          group_created_at := "2024-01-06T00:00:00Z" |};
       {| feature := "Rotate cookie secrets"; anchor := cookiePR;
          related := [summary sessionPR];
          group_created_at := "2024-01-06T00:00:00Z" |} ] !! i = Some g1 ->
     [ {| feature := "Add login form"; anchor := loginPR;
          related := [summary sessionPR];
          group_created_at := "2024-01-06T00:00:00Z" |};
       {| feature := "Rotate cookie secrets"; anchor := cookiePR;
          related := [summary sessionPR];
          group_created_at := "2024-01-06T00:00:00Z" |} ] !! j = Some g2 ->
     ~ In (number (anchor g2)) (members g1)).
Proof.
  apply (groups_are_built_around_fresh_anchors exactSimilarity string
           prefixRegExp_new prefixGroup1 exampleDetection examplePlatform
           [loginPR; sessionPR; cookiePR]).
  vm_compute. reflexivity.
Defined.

Lemma login_feature_name_is_its_title :
  (occurs "-" "Add login form" = false /\ occurs "_" "Add login form" = false) \/
  ("Add login form" = String.substring 0 50 (title loginPR) /\
   (String.length "Add login form" <= 50)%nat).
Proof.
  apply (feature_name_is_clean_or_short string prefixRegExp_new prefixGroup1
           exampleDetection loginPR).
  vm_compute. reflexivity.
Defined.

End DetectorExtras.

(** * Further properties of the snippet extractor *)

Module ExtractorExtras.
Import JS GitHub SnippetExtractor ExtractorSpec ExtractorExtraSpec.
Import NumberFacts StringFacts ExtractorProofs.

(** ** Quality scores *)

Lemma award_gain signal points reason state lo hi :
  0 <= points -> lo <= fst state <= hi ->
  lo <= fst (award signal points reason state) <= hi + points.
Proof.
  intros Hp H. unfold award. destruct signal; cbn [fst]; lra.
Qed.

Lemma award_loss signal points reason state lo hi :
  points <= 0 -> lo <= fst state <= hi ->
  lo + points <= fst (award signal points reason state) <= hi.
Proof.
  intros Hp H. unfold award. destruct signal; cbn [fst]; lra.
Qed.

Lemma rubric_range code : 35 <= score (rubric code) <= 100.
Proof.
  unfold rubric. cbv zeta. cbn [score].
  match goal with
  | |- _ <= Math_max 0 (Math_min 100 (fst ?s)) <= _ =>
      assert (H : 50 + -15 <= fst s <= 50 + 15 + 10 + 10 + 8 + 12 + 15 + 10)
  end.
  { apply award_loss; [lra |].
    repeat (apply award_gain; [lra |]).
    cbn [fst]. lra. }
  unfold Math_max, Math_min. split.
  - apply Q.max_le_iff. right. apply Q.min_glb; lra.
  - apply Q.max_lub; [lra | apply Q.le_min_l].
Qed.

(** X24. A quality score is never below 35: the rubric starts at 50 and
    takes away at most 15. [evaluateSnippetQuality] throws only for an object
    whose code is empty, and [evaluateFunctionQuality] always returns, with
    a score between 65.5 and 100. *)
Theorem quality_scores_have_a_floor :
  (forall snippet,
     match evaluateSnippetQuality snippet with
     | Ok quality => 35 <= score quality <= 100
     | Throw e => snippet = Obj EmptyString
     end) /\
  (forall func,
     exists quality,
       evaluateFunctionQuality func = Ok quality /\
       65.5 <= score quality <= 100).
Proof.
  split.
  - intros [[|c code]|text]; cbn [evaluateSnippetQuality];
      [reflexivity | apply rubric_range | apply rubric_range].
  - intros func. unfold evaluateFunctionQuality. cbv zeta.
    cbn [evaluateSnippetQuality]. eexists. split; [reflexivity |].
    cbn [score].
    match goal with
    | |- _ <= Math_min 100 (fst ?s + _) <= _ =>
        assert (H : 55 <= fst s <= 55 + 5 + 5 + 10)
    end.
    { repeat (apply award_gain; [lra |]). cbn [fst]. lra. }
    pose proof (rubric_range (func_code func)).
    unfold Math_min. split; [apply Q.min_glb; lra | apply Q.le_min_l].
Qed.

(** ** What a returned snippet guarantees *)

Lemma firstn_In {A} (x : A) n : forall l, In x (firstn n l) -> In x l.
Proof.
  induction n as [|n IH]; intros l; [intros [] |].
  destruct l as [|y l]; cbn [firstn]; [intros [] |].
  intros [Hx | Hx]; [left; exact Hx | right; apply IH; exact Hx].
Qed.

Lemma improvementsOf_cleared losingFile losingPR comparisons s :
  In s (improvementsOf losingFile losingPR comparisons) ->
  cleared s /\ pr s = losingPR /\ snippet_filename s = filename losingFile.
Proof.
  induction comparisons as [|comparison rest IH]; cbn [improvementsOf];
    [intros [] |].
  destruct (evaluateSnippetQuality _) as [quality|e]; [| intros []].
  intros H. apply in_app_or in H as [H | H]; [| exact (IH H)].
  destruct (Qgtb (score quality) 75) eqn:E; [| destruct H].
  destruct H as [<- | []]. apply Qgtb_true_iff in E.
  unfold cleared. cbn. repeat split; [exact E | discriminate].
Qed.

Lemma functionSnippetsOf_cleared file losingPR functions s :
  In s (functionSnippetsOf file losingPR functions) ->
  cleared s /\ pr s = losingPR /\ snippet_filename s = filename file.
Proof.
  induction functions as [|func rest IH]; cbn [functionSnippetsOf];
    [intros [] |].
  destruct (evaluateFunctionQuality func) as [quality|e]; [| intros []].
  intros H. apply in_app_or in H as [H | H]; [| exact (IH H)].
  destruct (Qgtb (score quality) 80) eqn:E; [| destruct H].
  destruct H as [<- | []]. apply Qgtb_true_iff in E.
  unfold cleared. cbn. repeat split. exact E.
Qed.

Section Returned.
Variable similarity : string -> string -> Q.
Variable extractAddedFunctions : string -> list Func.
Variable listFiles : Z -> result (list File).

Lemma compareAndExtractSnippets_cleared winningFiles losingFiles losingPR s :
  In s (compareAndExtractSnippets similarity extractAddedFunctions
          winningFiles losingFiles losingPR) ->
  cleared s /\ pr s = losingPR /\
  In (snippet_filename s) (map filename losingFiles).
Proof.
  unfold compareAndExtractSnippets. cbv zeta. intros H.
  apply in_flat_map in H as (losingFile & Hl & H).
  assert (Hname : In (filename losingFile) (map filename losingFiles))
    by (apply in_map; exact Hl).
  destruct (_ !! filename losingFile) as [winningFile|].
  - apply improvementsOf_cleared in H as (Hc & Hp & ->). auto.
  - unfold analyzeNewFileContribution in H.
    destruct (String.eqb (status losingFile) "added").
    + destruct (evaluateFileQuality losingFile) as [quality|e]; [| destruct H].
      destruct (patch losingFile) as [p|]; [| destruct H].
      destruct (Qgtb (score quality) 80) eqn:E; [| destruct H].
      destruct H as [<- | []]. apply Qgtb_true_iff in E.
      unfold cleared. cbn. repeat split; assumption.
    + destruct (patch losingFile) as [p|]; [| destruct H].
      apply functionSnippetsOf_cleared in H as (Hc & Hp & ->). auto.
Qed.

Lemma collectSnippets_cleared winningFiles losingPRs : forall snippets s,
  collectSnippets similarity extractAddedFunctions listFiles winningFiles losingPRs
    = Ok snippets ->
  In s snippets ->
  cleared s /\ In (pr s) losingPRs.
Proof.
  induction losingPRs as [|losingPR rest IH]; intros snippets s;
    cbn [collectSnippets].
  - intros H. injection H as <-. intros [].
  - destruct (listFiles (ref_number losingPR)) as [losingFiles|e]; [| discriminate].
    destruct (collectSnippets _ _ _ winningFiles rest) as [later|e];
      [| discriminate].
    intros H. injection H as <-. intros Hin.
    apply in_app_or in Hin as [Hin | Hin].
    + apply compareAndExtractSnippets_cleared in Hin as (Hc & Hp & _).
      split; [exact Hc | left; symmetry; exact Hp].
    + destruct (IH later s eq_refl Hin) as [Hc Hp].
      split; [exact Hc | right; exact Hp].
Qed.

(** X25. Every snippet that [extractSuperiorSnippets] returns comes from
    one of the losing pull requests and cleared its threshold: above 75
    with a winning alternative for an improvement, above 80 for a new file
    (always of medium complexity) and for a function (always of low
    complexity). *)
Theorem returned_snippets_cleared_their_threshold winningPR losingPRs s :
  In s (extractSuperiorSnippets similarity extractAddedFunctions listFiles
          winningPR losingPRs) ->
  In (pr s) losingPRs /\
  match type s with
  | improvement => 75 < score (quality s) /\ winningAlternative s <> None
  | new_file => 80 < score (quality s) /\ integrationComplexity s = medium
  | function => 80 < score (quality s) /\ integrationComplexity s = low
  end.
Proof.
  unfold extractSuperiorSnippets.
  destruct (listFiles winningPR) as [winningFiles|e]; [| intros []].
  destruct (collectSnippets _ _ _ winningFiles losingPRs) as [snippets|e] eqn:Hrun;
    [| intros []].
  intros Hin. apply firstn_In in Hin.
  apply (Permutation_in _ (rankSnippets_Permutation snippets)) in Hin.
  destruct (collectSnippets_cleared winningFiles losingPRs snippets s Hrun Hin)
    as [Hc Hp].
  split; [exact Hp | exact Hc].
Qed.

End Returned.

Lemma the_example_improvement_cleared_75 :
  In (pr (nth 0 (extractSuperiorSnippets (fixedSimilarity 0.5) noFunctions
                   exampleListFiles 1 [loser])
            (candidate "" 0 low)))
     [loser] /\
  match type (nth 0 (extractSuperiorSnippets (fixedSimilarity 0.5) noFunctions
                       exampleListFiles 1 [loser])
                (candidate "" 0 low)) with
  | improvement =>
      75 < score (quality (nth 0 (extractSuperiorSnippets (fixedSimilarity 0.5)
                                    noFunctions exampleListFiles 1 [loser])
                             (candidate "" 0 low))) /\
      winningAlternative (nth 0 (extractSuperiorSnippets (fixedSimilarity 0.5)
                                   noFunctions exampleListFiles 1 [loser])
                            (candidate "" 0 low)) <> None
  | new_file =>
      80 < score (quality (nth 0 (extractSuperiorSnippets (fixedSimilarity 0.5)
                                    noFunctions exampleListFiles 1 [loser])
                             (candidate "" 0 low))) /\
      integrationComplexity (nth 0 (extractSuperiorSnippets (fixedSimilarity 0.5)
                                      noFunctions exampleListFiles 1 [loser])
                               (candidate "" 0 low)) = medium
  | function =>
      80 < score (quality (nth 0 (extractSuperiorSnippets (fixedSimilarity 0.5)
                                    noFunctions exampleListFiles 1 [loser])
                             (candidate "" 0 low))) /\
      integrationComplexity (nth 0 (extractSuperiorSnippets (fixedSimilarity 0.5)
                                      noFunctions exampleListFiles 1 [loser])
                               (candidate "" 0 low)) = low
  end.
Proof.
  apply (returned_snippets_cleared_their_threshold (fixedSimilarity 0.5)
           noFunctions exampleListFiles 1 [loser]).
  vm_compute. left. reflexivity.
Defined.

(** ** Added-line blocks *)

Lemma flushChange_lines patch currentChange c :
  Forall (addedText patch) currentChange ->
  In c (flushChange currentChange) ->
  exists lines,
    code c = join newline lines /\ lineCount c = length lines /\
    Forall (addedText patch) lines.
Proof.
  intros Hall. unfold flushChange.
  destruct (Nat.ltb 0 (length currentChange)); [| intros []].
  intros [<- | []]. exists (rev currentChange). cbn [code lineCount].
  rewrite List.length_rev. repeat split. apply Forall_rev. exact Hall.
Qed.

Lemma extractCodeChanges_from_lines patch lines : forall currentChange c,
  (forall line, In line lines -> In line (split_lines patch)) ->
  Forall (addedText patch) currentChange ->
  In c (extractCodeChanges_from lines currentChange) ->
  exists l,
    code c = join newline l /\ lineCount c = length l /\
    Forall (addedText patch) l.
Proof.
  induction lines as [|line rest IH]; intros currentChange c Hsub Hall;
    cbn [extractCodeChanges_from].
  - apply flushChange_lines. exact Hall.
  - assert (Hrest : forall l, In l rest -> In l (split_lines patch))
      by (intros l Hl; apply Hsub; right; exact Hl).
    destruct (startsWith line "+") eqn:E1;
      destruct (startsWith line "+++") eqn:E2; cbn [andb negb].
    2: { apply IH; [exact Hrest |]. constructor; [| exact Hall].
         exists line. repeat split; try assumption.
         apply Hsub. left. reflexivity. }
    all: intros H; apply in_app_or in H as [H | H];
      [eapply flushChange_lines; eassumption
      | apply (IH []); [exact Hrest | constructor | exact H]].
Qed.

(** X26. Every change that [extractCodeChanges] returns has at least three
    lines; its code is the join of exactly [lineCount] added lines of the
    patch without their plus signs, and no line of a file header (three
    plus signs) is among them. An absent or empty patch gives no change. *)
Theorem changes_are_runs_of_added_lines :
  extractCodeChanges None = [] /\
  extractCodeChanges (Some EmptyString) = [] /\
  forall patch c,
    In c (extractCodeChanges (Some patch)) ->
    (3 <= lineCount c)%nat /\
    exists lines,
      code c = join newline lines /\ length lines = lineCount c /\
      Forall (addedText patch) lines.
Proof.
  split; [reflexivity |]. split; [reflexivity |].
  intros patch c Hin. unfold extractCodeChanges in Hin.
  destruct patch as [|a p]; [destruct Hin |].
  apply filter_In in Hin as [Hin Hcount]. apply Nat.ltb_lt in Hcount.
  split; [lia |].
  apply (extractCodeChanges_from_lines (String a p)) in Hin;
    [| intros line Hl; exact Hl | constructor].
  destruct Hin as (lines & Hcode & Hlen & Hall).
  exists lines. repeat split; [exact Hcode | symmetry; exact Hlen | exact Hall].
Qed.

Example file_header_is_no_added_line :
  map (fun c => (split_lines (code c), lineCount c))
      (extractCodeChanges (Some newFilePatch)) =
  [ ([ "const cache = new Map();"; "function remember(key, value) {";
       "  cache.set(key, value);"; "}" ], 4%nat) ].
Proof. vm_compute. reflexivity. Qed.

(** ** The integration plan *)

Lemma hasComplexity_cases c s :
  hasComplexity c s =
  match c, integrationComplexity s with
  | low, low | medium, medium | high, high => true
  | _, _ => false
  end.
Proof.
  unfold hasComplexity. destruct c, (integrationComplexity s); reflexivity.
Qed.

Lemma recommendedOrder_Permutation snippets :
  Permutation
    (List.filter (hasComplexity low) snippets ++
     List.filter (hasComplexity medium) snippets ++
     List.filter (hasComplexity high) snippets)
    snippets.
Proof.
  induction snippets as [|s rest IH]; [reflexivity |].
  cbn [List.filter]. rewrite !hasComplexity_cases.
  destruct (integrationComplexity s); cbn [app].
  - constructor. exact IH.
  - rewrite <- Permutation_middle. constructor. exact IH.
  - rewrite app_assoc, <- Permutation_middle, <- app_assoc.
    constructor. exact IH.
Qed.

Lemma effort_fold snippets : forall total,
  fold_left (fun total snippet => total + effortMap (integrationComplexity snippet))
            snippets total ==
  total + of_nat (withComplexity low snippets) +
  3 * of_nat (withComplexity medium snippets) +
  8 * of_nat (withComplexity high snippets).
Proof.
  unfold withComplexity.
  induction snippets as [|s rest IH]; intros total.
  - cbn [fold_left List.filter length]. change (of_nat 0) with 0. lra.
  - cbn [fold_left List.filter]. rewrite IH, !hasComplexity_cases.
    destruct (integrationComplexity s); cbn [length effortMap];
      rewrite of_nat_S; lra.
Qed.

Lemma increment_fold {A} (key : A -> string) (l : list A) :
  forall (counts : gmap string nat) (k : string),
    fold_left (fun counts x => increment (key x) counts) l counts !! k =
    match counts !! k with
    | Some n => Some (n + length (List.filter (fun x => String.eqb (key x) k) l))%nat
    | None => counter (length (List.filter (fun x => String.eqb (key x) k) l))
    end.
Proof.
  induction l as [|x rest IH]; intros counts k.
  - cbn. destruct (counts !! k); [f_equal; lia | reflexivity].
  - cbn [fold_left List.filter]. rewrite IH. unfold increment.
    destruct (String.eqb (key x) k) eqn:E.
    + apply String.eqb_eq in E. subst k. rewrite lookup_insert_eq.
      cbn [length]. destruct (counts !! key x); [f_equal; lia |].
      unfold counter. cbn. f_equal.
    + apply String.eqb_neq in E. rewrite lookup_insert_ne by exact E.
      reflexivity.
Qed.

(** X27. An integration plan accounts for every snippet once: the
    recommended order is a rearrangement of the snippets, the counters by
    complexity and by type hold the number of snippets of each kind (and
    are absent at zero), and the estimated effort is one hour per low,
    three per medium and eight per high snippet. *)
Theorem plan_accounts_for_every_snippet snippets :
  Permutation (recommendedOrder (generateIntegrationPlan snippets)) snippets /\
  (forall c,
     byComplexity (generateIntegrationPlan snippets) !! complexityName c =
     counter (withComplexity c snippets)) /\
  (forall t,
     byType (generateIntegrationPlan snippets) !! typeName t =
     counter (withType t snippets)) /\
  estimatedEffort (generateIntegrationPlan snippets) ==
    of_nat (withComplexity low snippets) +
    3 * of_nat (withComplexity medium snippets) +
    8 * of_nat (withComplexity high snippets) /\
  (withComplexity low snippets + withComplexity medium snippets +
   withComplexity high snippets)%nat = totalSnippets (generateIntegrationPlan snippets).
Proof.
  cbn [generateIntegrationPlan recommendedOrder byComplexity byType
       estimatedEffort totalSnippets].
  split; [apply recommendedOrder_Permutation |].
  split; [intros c; rewrite increment_fold, lookup_empty; reflexivity |].
  split; [intros t; rewrite increment_fold, lookup_empty; reflexivity |].
  split; [rewrite effort_fold; lra |].
  unfold withComplexity.
  rewrite <- Nat.add_assoc, <- !length_app.
  apply Permutation_length, recommendedOrder_Permutation.
Qed.

(** ** Ranking twice *)

Lemma Array_sort_sorted snippets :
  StronglySorted ranksBefore snippets ->
  Array_sort comparator snippets = snippets.
Proof.
  induction 1 as [|x l Hl IH Hx]; [reflexivity |].
  unfold Array_sort in *. cbn [fold_right]. rewrite IH.
  destruct l as [|y rest]; [reflexivity |].
  cbn [sort_insert].
  apply Forall_inv in Hx. apply comparator_le_iff in Hx. rewrite Hx. reflexivity.
Qed.

(** X28. Ranking is idempotent: a list that is already ranked is returned
    as it is, so ranking a ranking changes nothing. *)
Theorem ranking_twice_changes_nothing snippets :
  rankSnippets (rankSnippets snippets) = rankSnippets snippets.
Proof.
  apply Array_sort_sorted, rankSnippets_sorted.
Qed.

End ExtractorExtras.

(** * Further properties of the weighted score *)

Module DoublesExtras.
Import SpecFloat Binary64 PRScorerDoubles DoublesSpec Binary64Facts DoublesProofs.

(** X3. With weights that are not negative and sum to 1, and sub-scores in
    [0,100], the exact weighted sum of the rational model and the double
    that the code returns differ by less than 10^-12. *)
Theorem exact_weighted_score_is_within_rounding weights scores :
  each weight weights -> sumToOne weights -> each percentage scores ->
  Qabs (value (calculateWeightedScore weights scores) -
        PRScorer.calculateWeightedScore
          {| PRScorer.weights := exactWeights weights;
             PRScorer.thresholds := PRScorer.thresholds ScorerSpec.defaultConfig |}
          (exactScores scores))
  <= 1 # 1000000000000.
Proof.
  intros Hweights Hsum Hscores.
  apply sumToOne_upper in Hsum.
  destruct (weighted_sum_close weights scores Hweights Hscores Hsum)
    as (_ & Hlower & Hupper).
  unfold exactWeightedScore in Hlower, Hupper.
  assert (H44 : 9 * 2 ^ (-44) <= 1 # 1000000000000) by (vm_compute; discriminate).
  assert (H46 : 9 * 2 ^ (-46) <= 1 # 1000000000000) by (vm_compute; discriminate).
  set (u46 := 2 ^ (-46)) in *. set (u44 := 2 ^ (-44)) in *.
  apply Qabs_Qle_condition. lra.
Qed.

Lemma default_weights_are_within_rounding :
  Qabs (value (calculateWeightedScore defaultWeights bestScores) -
        PRScorer.calculateWeightedScore
          {| PRScorer.weights := exactWeights defaultWeights;
             PRScorer.thresholds := PRScorer.thresholds ScorerSpec.defaultConfig |}
          (exactScores bestScores))
  <= 1 # 1000000000000.
Proof.
  apply exact_weighted_score_is_within_rounding.
  - repeat split; vm_compute; reflexivity.
  - vm_compute. discriminate.
  - repeat split; vm_compute; (reflexivity || discriminate).
Defined.

Lemma geb_below x y :
  nonnegative x = true -> value x < value y -> geb x y = false.
Proof.
  intros Hx Hlt.
  assert (Hy : exists m e, y = S754_finite false m e).
  { pose proof (value_nonnegative x Hx) as H0.
    destruct y as [s| | |s m e]; cbn [value] in Hlt; try lra.
    destruct s; [exfalso | eauto].
    assert (0 < inject_Z (Zpos m) * 2 ^ e).
    { apply Qmult_lt_0_compat; [reflexivity | apply two_pow_pos]. }
    lra. }
  destruct Hy as (m & e & ->).
  assert (Hcmp : Qle_bool (value (S754_finite false m e)) (value x) = false).
  { destruct (Qle_bool _ (value x)) eqn:E; [| reflexivity].
    apply Qle_bool_iff in E. lra. }
  destruct x as [s| | |s mx ex]; try discriminate; exact Hcmp.
Qed.

(** X29. With weights that are not negative and sum to 1, sub-scores in
    [0,100], a testing score of at most 61 and a documentation score of at
    most the double nearest to 260/3, the weighted score is at most
    100 - 39 t - (40/3) d + 10^-12, where t and d are the weights of testing
    and documentation; against an auto-merge score above that ceiling the
    verdict is never eligible. *)
Theorem rounded_weighted_score_has_a_ceiling weights thresholds scores :
  each weight weights -> sumToOne weights -> each percentage scores ->
  value (testing scores) <= 61 ->
  value (documentation scores) <= value (decimal 260 3) ->
  value (calculateWeightedScore weights scores)
    <= ceiling weights + (1 # 1000000000000) /\
  (ceiling weights + (1 # 1000000000000) < value (autoMergeScore thresholds) ->
   PRScorer.autoMergeEligible
     (checkThresholds thresholds scores (calculateWeightedScore weights scores))
   = false).
Proof.
  intros Hweights Hsum Hscores Htesting Hdocumentation.
  apply sumToOne_upper in Hsum.
  destruct (weighted_sum_close weights scores Hweights Hscores Hsum)
    as (Hnonneg & _ & Hupper).
  assert (Hceiling : value (calculateWeightedScore weights scores)
                     <= ceiling weights + (1 # 1000000000000)).
  { destruct Hweights as (W1 & W2 & W3 & W4 & W5).
    destruct Hscores as ((_ & L1) & _ & (_ & L3) & (_ & L4) & _).
    assert (Hdoc : value (decimal 260 3) <= (260 # 3) + (1 # 100000000000000))
      by (vm_compute; discriminate).
    unfold exactWeightedScore, PRScorer.calculateWeightedScore, exactWeights,
      exactScores, sumOfWeights, ceiling in *.
    cbv zeta in Hupper.
    cbn [PRScorer.weights PRScorer.score PRScorer.codeQuality PRScorer.testing
         PRScorer.performance PRScorer.security PRScorer.documentation
         PRScorer.weight_codeQuality PRScorer.weight_testing
         PRScorer.weight_performance PRScorer.weight_security
         PRScorer.weight_documentation] in Hupper.
    pose proof (value_nonnegative _ W1) as V1.
    pose proof (value_nonnegative _ W2) as V2.
    pose proof (value_nonnegative _ W3) as V3.
    pose proof (value_nonnegative _ W4) as V4.
    pose proof (value_nonnegative _ W5) as V5.
    pose proof (Qmult_le_compat_r _ _ _ L1 V1).
    pose proof (Qmult_le_compat_r _ _ _ Htesting V2).
    pose proof (Qmult_le_compat_r _ _ _ L3 V3).
    pose proof (Qmult_le_compat_r _ _ _ L4 V4).
    assert (Hd : value (documentation scores) * value (documentation weights)
                 <= ((260 # 3) + (1 # 100000000000000))
                    * value (documentation weights)).
    { apply Qmult_le_compat_r; [lra | exact V5]. }
    assert (Hslack : 100 * 2 ^ (-50) + 9 * 2 ^ (-46) + (2 # 100000000000000)
                     <= 1 # 1000000000000) by (vm_compute; discriminate).
    assert (U50 : 0 <= 2 ^ (-50)) by (vm_compute; discriminate).
    assert (U46 : 0 <= 2 ^ (-46)) by (vm_compute; discriminate).
    set (u46 := 2 ^ (-46)) in *. set (u50 := 2 ^ (-50)) in *.
    lra. }
  split; [exact Hceiling |].
  intros Hauto. cbn [checkThresholds PRScorer.autoMergeEligible].
  apply geb_below; [exact Hnonneg | lra].
Qed.

(** The documented configuration: the ceiling is below 88.92 and the
    auto-merge score is 90. *)
Lemma default_configuration_never_merges_automatically :
  value (calculateWeightedScore defaultWeights bestScores)
    <= ceiling defaultWeights + (1 # 1000000000000) /\
  (ceiling defaultWeights + (1 # 1000000000000)
     < value (autoMergeScore defaultThresholds) ->
   PRScorer.autoMergeEligible
     (checkThresholds defaultThresholds bestScores
        (calculateWeightedScore defaultWeights bestScores))
   = false).
Proof.
  apply rounded_weighted_score_has_a_ceiling.
  - repeat split; vm_compute; reflexivity.
  - vm_compute. discriminate.
  - repeat split; vm_compute; (reflexivity || discriminate).
  - vm_compute. discriminate.
  - vm_compute. discriminate.
Defined.

Example default_ceiling_is_below_the_auto_merge_score :
  ceiling defaultWeights + (1 # 1000000000000) < 88.92 /\
  value (autoMergeScore defaultThresholds) == 90.
Proof. split; vm_compute; reflexivity. Qed.

End DoublesExtras.
